(** * Filament-Sync: preset expansion, identity derivation and reconciliation

    A shallow embedding of the JavaScript sources

    - [tools/config.js]                  (module [Config])
    - [fix-creality-base-filaments.js]   (module [BaseFix])
    - [tools/database-tool.js]           (module [DatabaseTool])
    - [tools/options-tool.js]            (module [OptionsTool])

    over a small model of JavaScript values (module [JS]), followed by the
    parts of the same sources that the first four modules leave out

    - the Creality formatting pass of [tools/config.js] (module [ConfigLoad])
    - the printer settings of the tools and of [tools/scp.js] (module [Printer])
    - [tools/ssh-util.js] and the command lines of [tools/scp.js]
      (modules [SshUtil], [Scp])
    - the preset check script                            (module [CheckBase])
    - the pass over a version directory of
      [fix-creality-base-filaments.js]                   (module [BaseFixRun])
    - [main.js] up to the upload                         (module [Main]).

    Conventions of the model.

    - A JavaScript string is a [string]: a sequence of code units below 256.
      The hash of [stableFiveDigitId] is also given over arbitrary lists of
      code units, so that its range theorem covers every JavaScript string.
    - A number is an integer [JNum z] or a decimal fraction [JDec m k]
      (the value [m / 10^k]), kept exactly and printed in plain decimal
      notation.  JavaScript's numbers are doubles: the two agree on the
      numbers of [Json.plain], the integers below 2^53 in absolute value and
      the decimal fractions of at most 15 significant digits that are at
      least 10^-6 in absolute value.  A property whose truth depends on
      how a number is printed or read is stated for these.
    - JSON.parse is modelled for texts whose string escapes denote code
      units below 256 ([Notions.readable] names texts that are read as
      JavaScript reads them).
    - An object is the list of its own properties in insertion order;
      [obj_set] overwrites the first entry of a key or appends a new one.
      (JavaScript lists the keys that are array indices first; the
      properties below speak of the value under a key, not of the place of
      such a key.)
    - An exception is [Throw e]; a run that would store a named property on
      an array, or write through [__proto__], which the value type cannot
      represent, ends in [Throw Unsupported].
    - The file system, the clock and the remote shell are parameters of the
      functions that use them; log output is not modelled.
    - sourcedata/newMaterial.json is a parameter of the reconciliation.

    The definitions come first: the embedding, then the notions used to
    state the properties ([Spec], [Reconcile]), sample data ([Sample]) and
    the statements that the code refutes ([Refuted]).  The properties
    C1 to C10 follow, then the round trip of JSON texts ([Json]) and the
    further properties X1 to X23 of the code. *)

From Stdlib Require Import ZArith List String Ascii Bool Lia.
From stdpp Require Import base list strings.

#[local] Set Warnings "-register-all".

Open Scope string_scope.
Open Scope Z_scope.

(* ===================================================================== *)
(** ** JavaScript values                                                  *)
(* ===================================================================== *)

Module JS.

Inductive exn : Type :=
| TypeError
| SyntaxError
| Error (msg : string)
| Exit (status : Z)
| Unsupported.

Inductive result (A : Type) : Type :=
| Ok (a : A)
| Throw (e : exn).
Arguments Ok {A} a.
Arguments Throw {A} e.

Definition bind {A B : Type} (m : result A) (k : A -> result B) : result B :=
  match m with
  | Ok a => k a
  | Throw e => Throw e
  end.

Notation "'let*' x ':=' m 'in' k" :=
  (bind m (fun x => k))
  (at level 10, x pattern, m at level 100, k at level 200).

Inductive JSValue : Type :=
| JUndefined
| JNull
| JBool (b : bool)
| JNum (z : Z)
| JDec (m : Z) (k : positive)
| JStr (s : string)
| JArr (l : list JSValue)
| JObj (o : list (string * JSValue)).

Definition obj : Type := list (string * JSValue).

(** *** Strings *)

Definition code (c : ascii) : Z := Z.of_N (N_of_ascii c).
Definition chr (z : Z) : ascii := ascii_of_N (Z.to_N z).

Fixpoint charCodes (s : string) : list Z :=
  match s with
  | EmptyString => []
  | String c r => code c :: charCodes r
  end.

Fixpoint string_rev_onto (s acc : string) : string :=
  match s with
  | EmptyString => acc
  | String c r => string_rev_onto r (String c acc)
  end.
Definition string_rev (s : string) : string := string_rev_onto s "".

(* WhiteSpace and LineTerminator code units below 256 *)
Definition is_js_space (c : ascii) : bool :=
  let n := code c in
  ((9 <=? n) && (n <=? 13)) || (n =? 32) || (n =? 160).

Fixpoint trimStart (s : string) : string :=
  match s with
  | EmptyString => ""
  | String c r => if is_js_space c then trimStart r else s
  end.

Definition trim (s : string) : string :=
  string_rev (trimStart (string_rev (trimStart s))).

Definition lower_char (c : ascii) : ascii :=
  let n := code c in
  if ((65 <=? n) && (n <=? 90))
     || ((192 <=? n) && (n <=? 222) && negb (n =? 215))
  then chr (n + 32) else c.

(* exact on a-z, 0-9 and _, the only characters it is applied to *)
Definition upper_char (c : ascii) : ascii :=
  let n := code c in
  if (97 <=? n) && (n <=? 122) then chr (n - 32) else c.

Fixpoint string_map (f : ascii -> ascii) (s : string) : string :=
  match s with
  | EmptyString => ""
  | String c r => String (f c) (string_map f r)
  end.

Definition toLowerCase : string -> string := string_map lower_char.
Definition toUpperCase : string -> string := string_map upper_char.

Fixpoint strip_prefix (p s : string) : option string :=
  match p, s with
  | EmptyString, _ => Some s
  | String a p', String b s' => if Ascii.eqb a b then strip_prefix p' s' else None
  | String _ _, EmptyString => None
  end.

(** Number::toString for integers *)
Definition digit_char (d : Z) : ascii := chr (48 + d).

Fixpoint digits_of (fuel : nat) (n : Z) (acc : string) : string :=
  let acc' := String (digit_char (n mod 10)) acc in
  match fuel with
  | O => acc'
  | S f => if n <? 10 then acc' else digits_of f (n / 10) acc'
  end.

Definition nat_digits (n : Z) : string := digits_of (Z.to_nat (Z.log2 n)) n "".

Definition Z_to_string (z : Z) : string :=
  if z <? 0 then String "-" (nat_digits (- z)) else nat_digits z.

Fixpoint pad_zeros (n : nat) (s : string) : string :=
  match n with
  | O => s
  | S n' => pad_zeros n' (String "0" s)
  end.

Definition dec_to_string (m : Z) (k : positive) : string :=
  let p := 10 ^ Z.pos k in
  let a := Z.abs m in
  let frac := nat_digits (a mod p) in
  (if m <? 0 then "-" else "") +:+ nat_digits (a / p) +:+ "."
    +:+ pad_zeros (Pos.to_nat k - String.length frac) frac.

(** *** Objects *)

Fixpoint obj_get (o : obj) (k : string) : option JSValue :=
  match o with
  | [] => None
  | (k', v) :: r => if String.eqb k' k then Some v else obj_get r k
  end.

Fixpoint obj_set (o : obj) (k : string) (v : JSValue) : obj :=
  match o with
  | [] => [(k, v)]
  | (k', v') :: r =>
      if String.eqb k' k then (k', v) :: r else (k', v') :: obj_set r k v
  end.

Definition obj_keys (o : obj) : list string := map fst o.

(* [v.k] and [v?.k] for a property name [k] that is not a built-in member:
   only objects carry such a property *)
Definition get (v : JSValue) (k : string) : JSValue :=
  match v with
  | JObj o => default JUndefined (obj_get o k)
  | _ => JUndefined
  end.

(** *** Operators *)

Definition truthy (v : JSValue) : bool :=
  match v with
  | JUndefined | JNull => false
  | JBool b => b
  | JNum z => negb (z =? 0)
  | JDec m _ => negb (m =? 0)
  | JStr s => negb (String.eqb s "")
  | JArr _ | JObj _ => true
  end.

(* a || b *)
Definition or_else (a b : JSValue) : JSValue := if truthy a then a else b.

(* a ?? b *)
Definition nullish (v : JSValue) : bool :=
  match v with
  | JUndefined | JNull => true
  | _ => false
  end.
Definition coalesce (a b : JSValue) : JSValue := if nullish a then b else a.

Definition isArray (v : JSValue) : bool :=
  match v with
  | JArr _ => true
  | _ => false
  end.

Definition is_string (v : JSValue) : bool :=
  match v with
  | JStr _ => true
  | _ => false
  end.

(* typeof v === 'object' *)
Definition typeof_object (v : JSValue) : bool :=
  match v with
  | JNull | JArr _ | JObj _ => true
  | _ => false
  end.

(** [String(v)] and template-literal interpolation.  For an object the
    conversion looks up toString and then valueOf: an own [toString]
    property of a parsed JSON object is never callable and is passed over,
    Object.prototype.valueOf returns the object itself, and no primitive is
    obtained: TypeError (Cannot convert object to primitive value).  Without
    an own [toString], Object.prototype.toString answers. *)
Fixpoint ToString (v : JSValue) : result string :=
  match v with
  | JUndefined => Ok "undefined"
  | JNull => Ok "null"
  | JBool true => Ok "true"
  | JBool false => Ok "false"
  | JNum z => Ok (Z_to_string z)
  | JDec m k => Ok (dec_to_string m k)
  | JStr s => Ok s
  | JArr l =>
      (* Array.prototype.join(",") *)
      (fix join (l : list JSValue) : result string :=
         match l with
         | [] => Ok ""
         | x :: r =>
             let* a := (match x with
                        | JUndefined | JNull => Ok ""
                        | _ => ToString x
                        end) in
             match r with
             | [] => Ok a
             | _ :: _ => let* b := join r in Ok (a +:+ "," +:+ b)
             end
         end) l
  | JObj o =>
      match obj_get o "toString" with
      | Some _ => Throw TypeError
      | None => Ok "[object Object]"
      end
  end.

(* Number(v): the program only logs the number, so only the effect is kept;
   the conversion to a primitive fails on the same values as for String(v) *)
Definition ToNumber_effect (v : JSValue) : result unit :=
  let* _ := ToString v in Ok tt.

(** *** JSON.stringify (compact form) *)

Definition dquote : ascii := "034"%char.
Definition bslash : ascii := "092"%char.

Definition hex_digit (n : Z) : ascii :=
  if n <? 10 then chr (48 + n) else chr (87 + n).

Definition escape_char (c : ascii) : string :=
  let n := code c in
  if n =? 34 then String bslash (String dquote "")
  else if n =? 92 then String bslash (String bslash "")
  else if n =? 8 then String bslash "b"
  else if n =? 12 then String bslash "f"
  else if n =? 10 then String bslash "n"
  else if n =? 13 then String bslash "r"
  else if n =? 9 then String bslash "t"
  else if n <? 32 then
    String bslash ("u00" +:+ String (hex_digit (n / 16)) (String (hex_digit (n mod 16)) ""))
  else String c "".

Fixpoint escape_body (s : string) : string :=
  match s with
  | EmptyString => ""
  | String c r => escape_char c +:+ escape_body r
  end.

Definition quote (s : string) : string :=
  String dquote (escape_body s +:+ String dquote "").

(* [None] is the value undefined, which JSON.stringify returns for undefined *)
Fixpoint JSON_stringify (v : JSValue) : option string :=
  match v with
  | JUndefined => None
  | JNull => Some "null"
  | JBool true => Some "true"
  | JBool false => Some "false"
  | JNum z => Some (Z_to_string z)
  | JDec m k => Some (dec_to_string m k)
  | JStr s => Some (quote s)
  | JArr l =>
      Some ("[" +:+
        (fix elems (l : list JSValue) : string :=
           match l with
           | [] => ""
           | x :: r =>
               default "null" (JSON_stringify x) +:+
               match r with
               | [] => ""
               | _ :: _ => "," +:+ elems r
               end
           end) l +:+ "]")
  | JObj o =>
      Some ("{" +:+
        (fix members (o : list (string * JSValue)) (first : bool) : string :=
           match o with
           | [] => ""
           | (k, x) :: r =>
               match JSON_stringify x with
               | None => members r first
               | Some sx =>
                   (if first then "" else ",") +:+ quote k +:+ ":" +:+ sx
                     +:+ members r false
               end
           end) o true +:+ "}")
  end.

(** *** JSON.parse *)

Definition is_json_ws (c : ascii) : bool :=
  let n := code c in
  (n =? 32) || (n =? 9) || (n =? 10) || (n =? 13).

Fixpoint skip_ws (s : string) : string :=
  match s with
  | EmptyString => ""
  | String c r => if is_json_ws c then skip_ws r else s
  end.

Definition is_digit (c : ascii) : bool :=
  let n := code c in (48 <=? n) && (n <=? 57).

Definition hex_val (c : ascii) : option Z :=
  let n := code c in
  if (48 <=? n) && (n <=? 57) then Some (n - 48)
  else if (97 <=? n) && (n <=? 102) then Some (n - 87)
  else if (65 <=? n) && (n <=? 70) then Some (n - 55)
  else None.

(* the characters after the opening quote, up to the closing one; an escape
   of a code unit above 255 has no image in [string] *)
Fixpoint parse_string_body (s acc_rev : string) : option (string * string) :=
  match s with
  | EmptyString => None
  | String c r =>
      let n := code c in
      if n =? 34 then Some (string_rev acc_rev, r)
      else if n =? 92 then
        match r with
        | EmptyString => None
        | String e r1 =>
            let m := code e in
            if (m =? 34) || (m =? 92) || (m =? 47)
            then parse_string_body r1 (String e acc_rev)
            else if m =? 98 then parse_string_body r1 (String (chr 8) acc_rev)
            else if m =? 102 then parse_string_body r1 (String (chr 12) acc_rev)
            else if m =? 110 then parse_string_body r1 (String (chr 10) acc_rev)
            else if m =? 114 then parse_string_body r1 (String (chr 13) acc_rev)
            else if m =? 116 then parse_string_body r1 (String (chr 9) acc_rev)
            else if m =? 117 then
              match r1 with
              | String h1 (String h2 (String h3 (String h4 r2))) =>
                  match hex_val h1, hex_val h2, hex_val h3, hex_val h4 with
                  | Some a, Some b, Some c', Some d =>
                      let u := ((a * 16 + b) * 16 + c') * 16 + d in
                      if u <? 256
                      then parse_string_body r2 (String (chr u) acc_rev)
                      else None
                  | _, _, _, _ => None
                  end
              | _ => None
              end
            else None
        end
      else if n <? 32 then None
      else parse_string_body r (String c acc_rev)
  end.

Fixpoint take_digits (s : string) (acc : Z) (cnt : Z) : Z * Z * string :=
  match s with
  | EmptyString => (acc, cnt, "")
  | String c r =>
      if is_digit c then take_digits r (acc * 10 + (code c - 48)) (cnt + 1)
      else (acc, cnt, s)
  end.

Fixpoint strip_zeros (fuel : nat) (m k : Z) : Z * Z :=
  match fuel with
  | O => (m, k)
  | S f => if (0 <? k) && (m mod 10 =? 0) then strip_zeros f (m / 10) (k - 1) else (m, k)
  end.

(* the number m * 10^e *)
Definition mk_number (m e : Z) : JSValue :=
  if m =? 0 then JNum 0
  else if 0 <=? e then JNum (m * 10 ^ e)
  else
    let '(m', k) := strip_zeros (Z.to_nat (- e)) m (- e) in
    match k with
    | Zpos p => JDec m' p
    | _ => JNum m'
    end.

Definition parse_exponent (s : string) : option (Z * string) :=
  match s with
  | String c r =>
      if (code c =? 101) || (code c =? 69) then
        let '(sg, r1) :=
          match r with
          | String "+" r' => (1, r')
          | String "-" r' => (-1, r')
          | _ => (1, r)
          end in
        let '(x, cnt, r2) := take_digits r1 0 0 in
        if cnt =? 0 then None else Some (sg * x, r2)
      else Some (0, s)
  | EmptyString => Some (0, s)
  end.

Definition parse_fraction (s : string) : option (Z * Z * string) :=
  match s with
  | String "." r =>
      let '(x, cnt, r1) := take_digits r 0 0 in
      if cnt =? 0 then None else Some (x, cnt, r1)
  | _ => Some (0, 0, s)
  end.

Definition parse_number (s : string) : option (JSValue * string) :=
  let '(sg, s1) :=
    match s with
    | String "-" r => (-1, r)
    | _ => (1, s)
    end in
  match s1 with
  | String c r =>
      if is_digit c then
        let '(ip, s2) :=
          if code c =? 48 then (0, r)
          else let '(x, _, r') := take_digits s1 0 0 in (x, r') in
        match parse_fraction s2 with
        | None => None
        | Some (fp, fl, s3) =>
            match parse_exponent s3 with
            | None => None
            | Some (ex, s4) =>
                Some (mk_number (sg * (ip * 10 ^ fl + fp)) (ex - fl), s4)
            end
        end
      else None
  | EmptyString => None
  end.

Definition parser : Type := string -> option (JSValue * string).

Fixpoint parse_elements (pv : parser) (fuel : nat) (s : string)
    (acc_rev : list JSValue) : option (JSValue * string) :=
  match fuel with
  | O => None
  | S f =>
      match pv s with
      | None => None
      | Some (v, r) =>
          match skip_ws r with
          | String c r' =>
              if code c =? 44 then parse_elements pv f r' (v :: acc_rev)
              else if code c =? 93 then Some (JArr (rev (v :: acc_rev)), r')
              else None
          | EmptyString => None
          end
      end
  end.

(* a repeated key keeps its first position and takes the last value *)
Fixpoint parse_members (pv : parser) (fuel : nat) (s : string)
    (acc : obj) : option (JSValue * string) :=
  match fuel with
  | O => None
  | S f =>
      match skip_ws s with
      | String q r =>
          if code q =? 34 then
            match parse_string_body r "" with
            | None => None
            | Some (k, r1) =>
                match skip_ws r1 with
                | String ":" r2 =>
                    match pv r2 with
                    | None => None
                    | Some (v, r3) =>
                        let acc' := obj_set acc k v in
                        match skip_ws r3 with
                        | String c r4 =>
                            if code c =? 44 then parse_members pv f r4 acc'
                            else if code c =? 125 then Some (JObj acc', r4)
                            else None
                        | EmptyString => None
                        end
                    end
                | _ => None
                end
            end
          else None
      | EmptyString => None
      end
  end.

Fixpoint parse_value (fuel : nat) (s : string) : option (JSValue * string) :=
  match fuel with
  | O => None
  | S f =>
      match skip_ws s with
      | EmptyString => None
      | String c r =>
          let n := code c in
          if n =? 123 then
            match skip_ws r with
            | String "}" r' => Some (JObj [], r')
            | _ => parse_members (parse_value f) f r []
            end
          else if n =? 91 then
            match skip_ws r with
            | String "]" r' => Some (JArr [], r')
            | _ => parse_elements (parse_value f) f r []
            end
          else if n =? 34 then
            match parse_string_body r "" with
            | Some (str, r') => Some (JStr str, r')
            | None => None
            end
          else
            match strip_prefix "null" (String c r),
                  strip_prefix "true" (String c r),
                  strip_prefix "false" (String c r) with
            | Some r', _, _ => Some (JNull, r')
            | _, Some r', _ => Some (JBool true, r')
            | _, _, Some r' => Some (JBool false, r')
            | None, None, None => parse_number (String c r)
            end
      end
  end.

Definition JSON_parse (text : string) : result JSValue :=
  match parse_value (S (String.length text)) text with
  | Some (v, r) =>
      match skip_ws r with
      | EmptyString => Ok v
      | String _ _ => Throw SyntaxError
      end
  | None => Throw SyntaxError
  end.

(* JSON.stringify(v) as a value: a string or undefined *)
Definition stringify_value (v : JSValue) : JSValue :=
  match JSON_stringify v with
  | Some s => JStr s
  | None => JUndefined
  end.

(* JSON.parse(v) applied to a value: the argument is converted to a string *)
Definition parse_value_of (v : JSValue) : result JSValue :=
  let* text := ToString v in JSON_parse text.

(** *** Property assignment [target.k = v] (non-strict code) *)
Definition set_prop (target : JSValue) (k : string) (v : JSValue) : result JSValue :=
  match target with
  | JObj o =>
      if String.eqb k "__proto__" then Throw Unsupported
      else Ok (JObj (obj_set o k v))
  | JUndefined | JNull => Throw TypeError
  | JArr _ => Throw Unsupported
  | JBool _ | JNum _ | JDec _ _ | JStr _ => Ok target
  end.

(** *** Object.entries *)

Fixpoint indexed {A : Type} (i : Z) (l : list A) : list (string * A) :=
  match l with
  | [] => []
  | x :: r => (Z_to_string i, x) :: indexed (i + 1) r
  end.

Fixpoint chars (s : string) : list JSValue :=
  match s with
  | EmptyString => []
  | String c r => JStr (String c "") :: chars r
  end.

(* Object.entries(v), in insertion order *)
Definition Object_entries (v : JSValue) : list (string * JSValue) :=
  match v with
  | JObj o => o
  | JArr l => indexed 0 l
  | JStr s => indexed 0 (chars s)
  | _ => []
  end.

(* v[0] of an array *)
Definition first_elem (l : list JSValue) : JSValue := hd JUndefined l.

(* writes a double quote for every apostrophe, to spell JSON texts *)
Definition dq (s : string) : string :=
  string_map (fun c => if Ascii.eqb c "'" then dquote else c) s.

(* the two-character string made of two double quotes *)
Definition empty_quotes : string := String dquote (String dquote "").

End JS.

(* ===================================================================== *)
(** ** tools/config.js                                                    *)
(* ===================================================================== *)

Module Config.
Import JS.

Definition getNotesString (profile : JSValue) : result string :=
  match get profile "filament_notes" with
  | JArr l => ToString (coalesce (first_elem l) (JStr ""))
  | JStr s => Ok s
  | _ => Ok ""
  end.

Definition notesLooksEmpty (notesStr : string) : bool :=
  let t := trim notesStr in
  String.eqb t "" || String.eqb t empty_quotes.

Definition safeFirst (v : JSValue) : JSValue :=
  match v with
  | JArr l => first_elem l
  | _ => v
  end.

(** 32-bit integer arithmetic of [^] and [Math.imul] *)
Definition to_int32 (z : Z) : Z := (z + 2 ^ 31) mod 2 ^ 32 - 2 ^ 31.
Definition xor32 (a b : Z) : Z := Z.lxor (to_int32 a) (to_int32 b).
Definition imul (a b : Z) : Z := to_int32 (to_int32 a * to_int32 b).

(* the loop over the code units: h ^= c; h = Math.imul(h, 0x01000193) *)
Definition hash_codes (cs : list Z) : Z :=
  fold_left (fun h c => imul (xor32 h c) 0x01000193) cs 0x811c9dc5.

Definition stableFiveDigitId_codes (cs : list Z) : string :=
  let h := hash_codes cs in
  let id := Z.rem (Z.abs h) 90000 + 10000 in
  Z_to_string id.

Definition stableFiveDigitId (s : string) : string :=
  stableFiveDigitId_codes (charCodes s).

(** The regular expression /fdm_filament_([a-z0-9_]+)/ *)
Definition is_type_char (c : ascii) : bool :=
  let n := code c in
  ((97 <=? n) && (n <=? 122)) || ((48 <=? n) && (n <=? 57)) || (n =? 95).

Fixpoint take_type_chars (s : string) : string :=
  match s with
  | EmptyString => ""
  | String c r => if is_type_char c then String c (take_type_chars r) else ""
  end.

(* the capture group of the leftmost match, if any *)
Fixpoint match_fdm_filament (s : string) : option string :=
  match s with
  | EmptyString => None
  | String _ r =>
      match strip_prefix "fdm_filament_" s with
      | Some rest =>
          match take_type_chars rest with
          | EmptyString => match_fdm_filament r
          | String c g => Some (String c g)
          end
      | None => match_fdm_filament r
      end
  end.

Definition deriveTypeFromInherits (inherits : JSValue) : result string :=
  let* str := ToString (coalesce inherits (JStr "")) in
  match match_fdm_filament (toLowerCase str) with
  | None => Ok ""
  | Some m1 => Ok (toUpperCase m1)
  end.

(* the type of the synthesized notes:
   safeFirst(filament_type) || deriveTypeFromInherits(safeFirst(inherits)) || 'CUSTOM' *)
Definition synthesizedType (profile : JSValue) : result JSValue :=
  let ft := safeFirst (get profile "filament_type") in
  if truthy ft then Ok ft
  else
    let* d := deriveTypeFromInherits (safeFirst (get profile "inherits")) in
    Ok (or_else (JStr d) (JStr "CUSTOM")).

(* the template literal `${vendor}|${type}|${name}` *)
Definition idKey (vendor type name : string) : string :=
  vendor +:+ "|" +:+ type +:+ "|" +:+ name.

Definition autoGenerateNotes (profile : JSValue) : result JSValue :=
  let name := or_else (safeFirst (get profile "name")) (JStr "Custom Filament") in
  let vendor := or_else (safeFirst (get profile "filament_vendor")) (JStr "Custom") in
  let* type := synthesizedType profile in
  let* vs := ToString vendor in
  let* ts := ToString type in
  let* ns := ToString name in
  let id := stableFiveDigitId (idKey vs ts ns) in
  let notesObj :=
    JObj [("id", JStr id); ("vendor", vendor); ("type", type); ("name", name)] in
  let notesStr := stringify_value notesObj in
  set_prop profile "filament_notes" (JArr [notesStr]).

Definition hasRequiredNotes (profile : JSValue) : result bool :=
  let* notesStr := getNotesString profile in
  if notesLooksEmpty notesStr then Ok false
  else
    match JSON_parse notesStr with
    | Ok _ => Ok true
    | Throw _ => Ok false
    end.

Fixpoint filter_loop (loaded filtered : list JSValue) : result (list JSValue) :=
  match loaded with
  | [] => Ok filtered
  | p :: rest =>
      let* ok := hasRequiredNotes p in
      if ok then filter_loop rest (filtered ++ [p])
      else
        let* p' := autoGenerateNotes p in
        let* ok' := hasRequiredNotes p' in
        if ok' then filter_loop rest (filtered ++ [p'])
        else filter_loop rest filtered
  end.

(* the value of filteredProfiles after filterProfiles() *)
Definition filterProfiles (loadedProfiles : list JSValue) : result (list JSValue) :=
  match loadedProfiles with
  | [] => Throw (Exit 1)
  | _ :: _ => filter_loop loadedProfiles []
  end.

End Config.

(* ===================================================================== *)
(** ** fix-creality-base-filaments.js                                     *)
(* ===================================================================== *)

Module BaseFix.
Import JS.

(* Keys kept as strings; every other scalar becomes a one-element array. *)
Definition STRING_KEYS : list string :=
  ["type"; "name"; "from"; "instantiation"; "inherits"; "filament_id";
   "setting_id"; "base_id"; "version"; "is_custom_defined"].

Definition is_string_key (k : string) : bool :=
  existsb (String.eqb k) STRING_KEYS.

Definition normalize_entry (out : JSValue) (kv : string * JSValue) : result JSValue :=
  let '(k, v) := kv in
  match v with
  | JUndefined => Ok out
  | JArr _ => set_prop out k v
  | _ =>
      if is_string_key k then
        let* str := ToString v in set_prop out k (JStr str)
      else
        let* str := ToString v in set_prop out k (JArr [JStr str])
  end.

Fixpoint normalize_loop (es : list (string * JSValue)) (out : JSValue) : result JSValue :=
  match es with
  | [] => Ok out
  | kv :: r => let* out' := normalize_entry out kv in normalize_loop r out'
  end.

(* Object.entries(preset || {}) folded into a fresh object *)
Definition normalizePresetValues (preset : JSValue) : result JSValue :=
  normalize_loop (Object_entries (or_else preset (JObj []))) (JObj []).

(* obj ? Object.keys(obj).length : 0 *)
Definition countKeys (v : JSValue) : Z :=
  if truthy v then Z.of_nat (length (Object_entries v)) else 0.

(* Object.assign(target, source) *)
Fixpoint assign_loop (target : JSValue) (es : list (string * JSValue)) : result JSValue :=
  match es with
  | [] => Ok target
  | (k, v) :: r => let* t := set_prop target k v in assign_loop t r
  end.

Definition assign (target source : JSValue) : result JSValue :=
  assign_loop target (Object_entries source).

(* Object.assign({}, rootN, baseN, userN) *)
Definition merge (rootN baseN userN : JSValue) : result JSValue :=
  let* m1 := assign (JObj []) rootN in
  let* m2 := assign m1 baseN in
  assign m2 userN.

(* the replaced class of sanitizeFilename: < > : double quote / backslash | ? *
   and the control characters *)
Definition is_unsafe_char (c : ascii) : bool :=
  let n := code c in
  (n <? 32) || existsb (Z.eqb n) [60; 62; 58; 34; 47; 92; 124; 63; 42].

Definition sanitizeFilename (name : string) : string :=
  trim (string_map (fun c => if is_unsafe_char c then "_"%char else c) name).

Definition ends_with (suffix s : string) : bool :=
  match strip_prefix (string_rev suffix) (string_rev s) with
  | Some _ => true
  | None => false
  end.

(* path.basename(fname, ext) for a bare file name, one without a separator:
   the empty string when the name is the extension itself, the name without
   the extension when it ends with it, else the name *)
Definition basename_ext (fname ext : string) : string :=
  if String.eqb fname ext then ""
  else if ends_with ext fname
  then String.substring 0 (String.length fname - String.length ext) fname
  else fname.

(** The file system as seen by one pass over a version directory. *)
Record Env : Type := {
  FORCE : bool;
  readJson : string -> result JSValue;      (* parsed file, or the exception *)
  isFile : string -> bool;
  searchSystem : string -> option string;   (* file name to path under the system directory *)
  srcPathOf : string -> string;             (* path.join(userFilamentDir, fname) *)
  outPathOf : string -> string;             (* path.join(baseOutDir, outName) *)
  writeSucceeds : string -> bool
}.

Definition findSystemPresetPathByName (env : Env) (name : string) : option string :=
  if String.eqb name "" then None
  else searchSystem env (name +:+ ".json").

Definition fromVal (userPreset : JSValue) : string :=
  if truthy userPreset then
    match get userPreset "from" with
    | JStr s => toLowerCase (trim s)
    | _ => ""
    end
  else "".

Definition looksLikeTruncatedUserPreset (userPreset : JSValue) : bool :=
  truthy userPreset
  && typeof_object userPreset
  && String.eqb (fromVal userPreset) "user"
  && is_string (get userPreset "inherits")
  && is_string (get userPreset "base_id")
  && (countKeys userPreset <? 120).

(* the trimmed inherits of a preset, when it is a string *)
Definition inheritsName (preset : JSValue) : option string :=
  if truthy preset then
    match get preset "inherits" with
    | JStr s => Some (trim s)
    | _ => None
    end
  else None.

(* the root template: its name (null when absent), the document used, and
   the number of warnings raised while looking for it *)
Definition loadRoot (env : Env) (basePreset : JSValue) : option string * JSValue * Z :=
  match inheritsName basePreset with
  | None => (None, JObj [], 0)
  | Some rootName =>
      if String.eqb rootName "" then (Some rootName, JObj [], 0)
      else
        match findSystemPresetPathByName env rootName with
        | None => (Some rootName, JObj [], 1)
        | Some rootPath =>
            match readJson env rootPath with
            | Ok rootPreset => (Some rootName, rootPreset, 0)
            | Throw _ => (Some rootName, JObj [], 1)
            end
        end
  end.

(* if (rootName) merged.inherits = rootName *)
Definition forceInherits (rootName : option string) (merged : JSValue) : result JSValue :=
  match rootName with
  | Some n => if String.eqb n "" then Ok merged else set_prop merged "inherits" (JStr n)
  | None => Ok merged
  end.

(* if (!merged.name || typeof merged.name !== 'string') merged.name = stem *)
Definition ensureName (fname : string) (merged : JSValue) : result JSValue :=
  let n := get merged "name" in
  if negb (truthy n) || negb (is_string n)
  then set_prop merged "name" (JStr (basename_ext fname ".json"))
  else Ok merged.

(* the expansion proper: normalise the three layers, merge, fix up *)
Definition expand (fname : string) (rootName : option string)
    (rootPreset basePreset userPreset : JSValue) : result JSValue :=
  let* rootN := normalizePresetValues rootPreset in
  let* baseN := normalizePresetValues basePreset in
  let* userN := normalizePresetValues userPreset in
  let* merged := merge rootN baseN userN in
  let* merged1 := forceInherits rootName merged in
  ensureName fname merged1.

Inductive outcome : Type :=
| Skipped (warnings : Z)
| Wrote (outPath : string) (merged : JSValue) (warnings : Z).

(* The body of the loop over the preset files of one version directory. *)
Definition processPreset (env : Env) (fname : string) : result outcome :=
  match readJson env (srcPathOf env fname) with
  | Throw _ => Ok (Skipped 0)
  | Ok userPreset =>
      if negb (looksLikeTruncatedUserPreset userPreset) then Ok (Skipped 0)
      else
        let outName := sanitizeFilename fname in
        let outPath := outPathOf env outName in
        if isFile env outPath && negb (FORCE env) then Ok (Skipped 0)
        else
          let baseName := default "" (inheritsName userPreset) in
          match findSystemPresetPathByName env baseName with
          | None => Ok (Skipped 0)
          | Some basePath =>
              match readJson env basePath with
              | Throw _ => Ok (Skipped 0)
              | Ok basePreset =>
                  let '(rootName, rootPreset, w) := loadRoot env basePreset in
                  let* merged := expand fname rootName rootPreset basePreset userPreset in
                  let w' := if countKeys merged <? 120 then w + 1 else w in
                  if writeSucceeds env outPath
                  then Ok (Wrote outPath merged w')
                  else Ok (Skipped w')
              end
          end
  end.

End BaseFix.

(* ===================================================================== *)
(** ** tools/database-tool.js                                             *)
(* ===================================================================== *)

Module DatabaseTool.
Import JS.

Definition unwrapFirst (v : JSValue) : JSValue :=
  match v with
  | JArr l => first_elem l
  | _ => v
  end.

Definition getNotesString (profile : JSValue) : result string :=
  match get profile "filament_notes" with
  | JArr l => ToString (coalesce (first_elem l) (JStr ""))
  | JStr s => Ok s
  | _ => Ok ""
  end.

(* the parsed notes, or null *)
Definition parseNotes (profile : JSValue) : result JSValue :=
  let* notesStr := getNotesString profile in
  let raw := trim notesStr in
  if String.eqb raw "" || String.eqb raw empty_quotes then Ok JNull
  else
    match JSON_parse raw with
    | Ok v => Ok v
    | Throw _ => Ok JNull
    end.

Definition shape_message : string :=
  "Unexpected material_database.json shape: expected obj.result.list to be an array.".

Definition getList (dbObj : JSValue) : result (list JSValue) :=
  match get (get dbObj "result") "list" with
  | JArr lst => Ok lst
  | _ => Throw (Error shape_message)
  end.

(* String(unwrapFirst(m?.id) ?? '') *)
Definition entryId (m : JSValue) : result string :=
  ToString (coalesce (unwrapFirst (get m "id")) (JStr "")).

(* list.findIndex(...): None stands for -1 *)
Fixpoint findById (lst : list JSValue) (id : string) : result (option nat) :=
  match lst with
  | [] => Ok None
  | m :: rest =>
      let* k := entryId m in
      if String.eqb k id then Ok (Some O)
      else
        let* r := findById rest id in
        Ok (option_map S r)
  end.

Definition deepClone (v : JSValue) : result JSValue :=
  parse_value_of (stringify_value v).

Definition normalizeToArray (v : JSValue) : JSValue :=
  match v with
  | JArr _ => v
  | JNull | JUndefined => v
  | JObj _ => v
  | _ => JArr [v]
  end.

Fixpoint copyProfileKeys (es : list (string * JSValue)) (mat : JSValue) : result JSValue :=
  match es with
  | [] => Ok mat
  | (k, v) :: r =>
      let* mat' := set_prop mat k (normalizeToArray v) in
      copyProfileKeys r mat'
  end.

Fixpoint set_props (mat : JSValue) (kvs : list (string * JSValue)) : result JSValue :=
  match kvs with
  | [] => Ok mat
  | (k, v) :: r => let* mat' := set_prop mat k v in set_props mat' r
  end.

Section WithTemplate.

(* sourcedata/newMaterial.json, the record template of a new material:
   a JSON object *)
Variable newMaterialTemplate : obj.

Definition buildMaterialFromProfile (profile notesObj : JSValue) : result JSValue :=
  let* mat := deepClone (JObj newMaterialTemplate) in
  let* mat := copyProfileKeys (Object_entries (or_else profile (JObj []))) mat in
  let* id := ToString (get notesObj "id") in
  let* name := ToString (get notesObj "name") in
  let* vendor := ToString (get notesObj "vendor") in
  let* type := ToString (get notesObj "type") in
  set_props mat
    [("id", JArr [JStr id]);
     ("name", JArr [JStr name]);
     ("filament_id", JArr [JStr id]);
     ("filament_vendor", JArr [JStr vendor]);
     ("filament_type", JArr [JStr type]);
     ("filament_settings_id", JArr [JStr name]);
     ("from", JArr [JStr "User"]);
     ("is_custom_defined", JArr [JNum 0]);
     ("filament_notes",
      JArr [stringify_value
              (JObj [("id", JStr id); ("vendor", JStr vendor);
                     ("type", JStr type); ("name", JStr name)])])].

(* the condition of the SKIP branch: !notesObj || !notesObj.id *)
Definition skipsProfile (notesObj : JSValue) : bool :=
  negb (truthy notesObj) || negb (truthy (get notesObj "id")).

(* one iteration of the loop over the profiles *)
Definition applyProfile (lst : list JSValue) (p : JSValue) : result (list JSValue) :=
  let* notesObj := parseNotes p in
  if skipsProfile notesObj then Ok lst
  else
    let* id := ToString (get notesObj "id") in
    let* idx := findById lst id in
    let* material := buildMaterialFromProfile p notesObj in
    match idx with
    | Some i => Ok (<[i := material]> lst)
    | None => Ok (lst ++ [material])%list
    end.

Fixpoint applyProfiles (profiles : list JSValue) (lst : list JSValue) : result (list JSValue) :=
  match profiles with
  | [] => Ok lst
  | p :: rest => let* lst' := applyProfile lst p in applyProfiles rest lst'
  end.

(* [dbObj] is the baseline loaded by loadBaseDatabase, [now] the value of
   nowEpochSeconds(); the result is the document written to
   data/material_database.json *)
Definition addToDatabase (dbObj : JSValue) (profiles : list JSValue) (now : string)
  : result JSValue :=
  let* lst := getList dbObj in
  let* _ := ToNumber_effect
              (coalesce (get (get dbObj "result") "count")
                        (JNum (Z.of_nat (length lst)))) in
  let* lst' := applyProfiles profiles lst in
  let* res := set_props (get dbObj "result")
                [("list", JArr lst');
                 ("count", JNum (Z.of_nat (length lst')));
                 ("version", JStr now)] in
  set_prop dbObj "result" res.

End WithTemplate.

End DatabaseTool.

(* ===================================================================== *)
(** ** tools/options-tool.js                                              *)
(* ===================================================================== *)

Module OptionsTool.
Import JS.

Definition getNotesString (profile : JSValue) : result string :=
  DatabaseTool.getNotesString profile.

Definition parseNotes (profile : JSValue) : result JSValue :=
  DatabaseTool.parseNotes profile.

(* the condition of the SKIP branch:
   !notes || !notes.vendor || !notes.type || !notes.name *)
Definition skipsProfile (notes : JSValue) : bool :=
  negb (truthy notes)
  || negb (truthy (get notes "vendor"))
  || negb (truthy (get notes "type"))
  || negb (truthy (get notes "name")).

(* obj[key] on the options document *)
Definition get_dyn (target : JSValue) (key : string) : result JSValue :=
  match target with
  | JObj o =>
      if String.eqb key "__proto__" then Throw Unsupported
      else Ok (default JUndefined (obj_get o key))
  | JUndefined | JNull => Throw TypeError
  | _ => Throw Unsupported
  end.

Definition applyProfile (obj p : JSValue) : result JSValue :=
  let* notes := parseNotes p in
  if skipsProfile notes then Ok obj
  else
    let* vendorKey := ToString (get notes "vendor") in
    let* cur := get_dyn obj vendorKey in
    let inner := if negb (typeof_object cur) || nullish cur then JObj [] else cur in
    let* typeKey := ToString (get notes "type") in
    let* inner' := set_prop inner typeKey (get notes "name") in
    set_prop obj vendorKey inner'.

Fixpoint applyProfiles (profiles : list JSValue) (obj : JSValue) : result JSValue :=
  match profiles with
  | [] => Ok obj
  | p :: rest => let* obj' := applyProfile obj p in applyProfiles rest obj'
  end.

(* [obj] is the baseline loaded by loadBaseOptions; the result is the
   document written to data/material_option.json *)
Definition addToOptions (obj : JSValue) (profiles : list JSValue) : result JSValue :=
  applyProfiles profiles obj.

End OptionsTool.
(* ===================================================================== *)
(** ** tools/config.js: the Creality formatting pass                      *)
(* ===================================================================== *)

Module ConfigLoad.
Import JS.

(* one iteration of the loop of wrapScalarsAsArrays over an object:
   v = profile[key]; null, undefined, arrays and objects are passed over,
   any other value is replaced by [v] *)
Definition wrapEntry (profile : JSValue) (key : string) : result JSValue :=
  let v := get profile key in
  match v with
  | JNull | JUndefined => Ok profile
  | JArr _ => Ok profile
  | JObj _ => Ok profile
  | _ => set_prop profile key (JArr [v])
  end.

Fixpoint wrapLoop (keys : list string) (profile : JSValue) : result JSValue :=
  match keys with
  | [] => Ok profile
  | key :: rest => let* profile' := wrapEntry profile key in wrapLoop rest profile'
  end.

(* the same test on an element of an array *)
Definition wrapElement (v : JSValue) : JSValue :=
  match v with
  | JNull | JUndefined => v
  | JArr _ => v
  | JObj _ => v
  | _ => JArr [v]
  end.

(* Object.keys(null) throws; the keys of an array are its indices, and the
   loop rewrites its elements; a number or a boolean has no key; the
   assignments to the indices of a string are ignored in non-strict code *)
Definition wrapScalarsAsArrays (profile : JSValue) : result JSValue :=
  match profile with
  | JNull | JUndefined => Throw TypeError
  | JObj o => wrapLoop (obj_keys o) profile
  | JArr l => Ok (JArr (map wrapElement l))
  | _ => Ok profile
  end.

Fixpoint checkCrealityFormatting (profiles : list JSValue) : result (list JSValue) :=
  match profiles with
  | [] => Ok []
  | p :: rest =>
      let* p' := wrapScalarsAsArrays p in
      let* rest' := checkCrealityFormatting rest in
      Ok (p' :: rest')
  end.

(* loadedProfiles = slicer === 'creality' ? checkCrealityFormatting(profiles)
                                          : profiles *)
Definition formatProfiles (slicer : string) (profiles : list JSValue)
  : result (list JSValue) :=
  if String.eqb slicer "creality" then checkCrealityFormatting profiles
  else Ok profiles.

End ConfigLoad.

(* ===================================================================== *)
(** ** The printer settings read from user-config.js                      *)
(* ===================================================================== *)

Module Printer.
Import JS.

(** [cfg] is the object exported by user-config.js.  [Number(v)] is kept as
    its argument: its value is used only to open the connection, and the
    conversion fails on the values on which [ToNumber_effect] fails. *)

(* cfg.PRINTER_IP || cfg.PRINTERIP || cfg.HOST || cfg.HOSTNAME *)
Definition hostOf (cfg : obj) : JSValue :=
  or_else (or_else (or_else (get (JObj cfg) "PRINTER_IP") (get (JObj cfg) "PRINTERIP"))
                   (get (JObj cfg) "HOST"))
          (get (JObj cfg) "HOSTNAME").

(* the argument of Number(cfg.PORT || 22) *)
Definition portOf (cfg : obj) : JSValue := or_else (get (JObj cfg) "PORT") (JNum 22).

Definition userOf (cfg : obj) : JSValue := or_else (get (JObj cfg) "USER") (JStr "root").

Definition passwordOf (cfg : obj) : JSValue := get (JObj cfg) "PASSWORD".

Record settings : Type := {
  host : JSValue;
  port : JSValue;
  username : JSValue;
  password : JSValue
}.

(* getPrinterConfig of database-tool.js and of options-tool.js (the same
   text): null, here [None], when the host or the password is missing *)
Definition getPrinterConfig (cfg : obj) : result (option settings) :=
  let host := hostOf cfg in
  let* _ := ToNumber_effect (portOf cfg) in
  let username := userOf cfg in
  let password := passwordOf cfg in
  if negb (truthy host) || negb (truthy password) then Ok None
  else Ok (Some {| host := host; port := portOf cfg;
                   username := username; password := password |}).

Definition missing_host : string :=
  "Missing printer host/IP. Set PRINTER_IP (recommended) or PRINTERIP in user-config.js".

Definition missing_password : string :=
  "Missing printer password. Set PASSWORD in user-config.js".

(* getPrinterConfig of scp.js: the settings and the remote directory *)
Definition getUploadConfig (cfg : obj) : result (settings * JSValue) :=
  let host := hostOf cfg in
  let* _ := ToNumber_effect (portOf cfg) in
  let username := userOf cfg in
  let password := passwordOf cfg in
  let remoteDir := or_else (get (JObj cfg) "REMOTE_SYNC_DIR") (JStr "/usr/share/Filament-Sync") in
  if negb (truthy host) then Throw (Error missing_host)
  else if negb (truthy password) then Throw (Error missing_password)
  else Ok ({| host := host; port := portOf cfg;
              username := username; password := password |}, remoteDir).

End Printer.

(* ===================================================================== *)
(** ** tools/ssh-util.js and the command lines of tools/scp.js            *)
(* ===================================================================== *)

Module SshUtil.
Import JS.

Definition apostrophe : ascii := "'"%char.

(* s.replace(/'/g, "'\''"): every apostrophe becomes the four characters
   apostrophe, backslash, apostrophe, apostrophe *)
Fixpoint escapeQuotes (s : string) : string :=
  match s with
  | EmptyString => ""
  | String c r =>
      if Ascii.eqb c apostrophe
      then String apostrophe (String bslash (String apostrophe (String apostrophe
             (escapeQuotes r))))
      else String c (escapeQuotes r)
  end.

(* shellQuote on a string *)
Definition quoted (s : string) : string :=
  String apostrophe (escapeQuotes s +:+ String apostrophe "").

Definition shellQuote (v : JSValue) : result string :=
  let* s := ToString v in Ok (quoted s).

(* the command line that exec hands to the connection *)
Definition execLine (command : string) : string := "sh -c " +:+ quoted command.

(* the command of readRemoteFile *)
Definition readCommand (remotePath : string) : string := "cat " +:+ quoted remotePath.

Fixpoint no_slash (s : string) : bool :=
  match s with
  | EmptyString => true
  | String c r => negb (Ascii.eqb c "/") && no_slash r
  end.

(* remotePath.replace(/\/[^/]+$/, ''): the leftmost slash that is followed,
   up to the end, by one or more characters other than a slash is removed
   with what follows it *)
Fixpoint dirOf (remotePath : string) : string :=
  match remotePath with
  | EmptyString => ""
  | String c r =>
      if Ascii.eqb c "/" && negb (String.eqb r "") && no_slash r then ""
      else String c (dirOf r)
  end.

Definition tmpOf (remotePath : string) : string := remotePath +:+ ".tmp".

(* the command of writeRemoteFileAtomic *)
Definition writeCommand (remotePath umask : string) : string :=
  "set -e; umask " +:+ umask +:+ "; mkdir -p " +:+ quoted (dirOf remotePath)
    +:+ "; cat > " +:+ quoted (tmpOf remotePath)
    +:+ "; mv -f " +:+ quoted (tmpOf remotePath) +:+ " " +:+ quoted remotePath +:+ ";".

(** The remote shell: what the connection answers to a command line, or the
    exception with which the promise is rejected. *)
Record answer : Type := {
  stdout : string;
  stderr : string;
  exitCode : JSValue  (* res.code: the exit status, or null *)
}.

Section WithConnection.

Variable conn : string -> result answer.

Definition exec (command : string) : result answer := conn (execLine command).

(* res.stderr || res.stdout || `Exit code ${res.code}` *)
Definition failureText (res : answer) : result string :=
  if negb (String.eqb (stderr res) "") then Ok (stderr res)
  else if negb (String.eqb (stdout res) "") then Ok (stdout res)
  else let* c := ToString (exitCode res) in Ok ("Exit code " +:+ c).

Definition newline : string := String (chr 10) "".

(* res.code !== 0 *)
Definition failed (res : answer) : bool :=
  match exitCode res with
  | JNum 0 => false
  | _ => true
  end.

Definition readRemoteFile (remotePath : string) : result string :=
  let* res := exec (readCommand remotePath) in
  if failed res then
    let* msg := failureText res in
    Throw (Error ("Failed to read remote file: " +:+ remotePath +:+ newline +:+ msg))
  else Ok (stdout res).

End WithConnection.

End SshUtil.

Module Scp.
Import JS.

(* `mkdir -p '${remoteDir.replace(/'/g, "'\\''")}'` *)
Definition mkdirCommand (remoteDir : string) : string :=
  "mkdir -p '" +:+ SshUtil.escapeQuotes remoteDir +:+ "'".

(* `${remoteDir}/${name}` *)
Definition remotePathOf (remoteDir name : string) : string :=
  remoteDir +:+ "/" +:+ name.

(* `ls -l '${remotePath.replace(/'/g, "'\\''")}' || true` *)
Definition verifyCommand (remotePath : string) : string :=
  "ls -l '" +:+ SshUtil.escapeQuotes remotePath +:+ "' || true".

End Scp.

(* ===================================================================== *)
(** ** The preset check script                                            *)
(* ===================================================================== *)

Module CheckBase.
Import JS.

(* t !== '' && t !== '""' for t = text.trim() *)
Definition filled (text : string) : bool :=
  negb (String.eqb (trim text) "") && negb (String.eqb (trim text) empty_quotes).

(* the value of hasNotes for the parsed file [j]; [j.filament_notes] throws
   on null *)
Definition hasNotes (j : JSValue) : result bool :=
  match j with
  | JNull | JUndefined => Throw TypeError
  | _ =>
      let n := get j "filament_notes" in
      match n with
      | JStr s => Ok (filled s)
      | JArr l =>
          match l with
          | [] => Ok false
          | _ :: _ =>
              let* t := ToString (coalesce (first_elem l) (JStr "")) in
              Ok (filled t)
          end
      | _ => Ok false
      end
  end.

End CheckBase.

(* ===================================================================== *)
(** ** fix-creality-base-filaments.js: the pass over a version directory  *)
(* ===================================================================== *)

Module BaseFixRun.
Import JS BaseFix.

Record tally : Type := {
  built : Z;
  skipped : Z;
  warnings : Z
}.

Definition no_tally : tally := {| built := 0; skipped := 0; warnings := 0 |}.

(* the counters after one file *)
Definition count (t : tally) (o : outcome) : tally :=
  match o with
  | Skipped w =>
      {| built := built t; skipped := skipped t + 1; warnings := warnings t + w |}
  | Wrote _ _ w =>
      {| built := built t + 1; skipped := skipped t; warnings := warnings t + w |}
  end.

(* the loop over jsonFiles *)
Fixpoint processFiles (env : Env) (files : list string) (t : tally) : result tally :=
  match files with
  | [] => Ok t
  | fname :: rest =>
      let* o := processPreset env fname in
      processFiles env rest (count t o)
  end.

(* entries.filter(e => e.isFile() && e.name.toLowerCase().endsWith('.json'))
          .map(e => e.name); an entry is a name and whether it is a file *)
Definition jsonFiles (entries : list (string * bool)) : list string :=
  map fst (List.filter (fun e => snd e && ends_with ".json" (toLowerCase (fst e))) entries).

(** One version directory: whether the user filament directory and the
    system directory exist, the outcome of creating the output directory,
    the entries of the user filament directory (or the exception of
    readdirSync), and the files. *)
Record version : Type := {
  userDir : bool;
  systemDir : bool;
  makeBase : result unit;
  entries : result (list (string * bool));
  files : Env
}.

Definition processCrealityVersion (v : version) : result tally :=
  if negb (userDir v) then Ok no_tally
  else if negb (systemDir v) then Ok no_tally
  else
    let* _ := makeBase v in
    let* es := entries v in
    match jsonFiles es with
    | [] => Ok no_tally
    | fs => processFiles (files v) fs no_tally
    end.

End BaseFixRun.

(* ===================================================================== *)
(** ** main.js                                                            *)
(* ===================================================================== *)

Module Main.
Import JS.

Section WithTemplate.

Variable newMaterialTemplate : obj.

(** One run of main.js up to the upload: initData formats the profiles read
    from the preset folder and filters them, addToOptions and then
    addToDatabase build their documents from the kept profiles.  [slicer]
    is the lower-cased SLICER setting, [optionsBase] and [dbBase] are the
    baselines the two tools load, [now] is the time stamp.  The result is
    the pair of the documents written to data/material_option.json and
    data/material_database.json.  An exception ends the run with exit code
    1; the options document is written before addToDatabase starts, so a
    [Throw] does not say that nothing was written. *)
Definition sync (slicer : string) (profiles : list JSValue)
    (optionsBase dbBase : JSValue) (now : string) : result (JSValue * JSValue) :=
  let* loaded := ConfigLoad.formatProfiles slicer profiles in
  let* kept := Config.filterProfiles loaded in
  let* options := OptionsTool.addToOptions optionsBase kept in
  let* db := DatabaseTool.addToDatabase newMaterialTemplate dbBase kept now in
  Ok (options, db).

End WithTemplate.

End Main.

(* ===================================================================== *)
(** ** Notions used to state the properties                               *)
(* ===================================================================== *)

Module Spec.
Import JS.

(** The 32-bit FNV-1a hash over a sequence of code units: offset basis
    2166136261, prime 16777619, arithmetic modulo 2^32. *)
Definition fnv1a_32 (cs : list Z) : Z :=
  fold_left (fun h c => (Z.lxor h c * 16777619) mod 2 ^ 32) cs 2166136261.

(** The code units of a string. *)
Definition codeUnits (s : string) : list Z :=
  map (fun c => Z.of_nat (nat_of_ascii c)) (list_ascii_of_string s).

(** A 32-bit pattern read as a signed integer. *)
Definition signed32 (u : Z) : Z := if u <? 2 ^ 31 then u else u - 2 ^ 32.

(** The integer whose absolute value the id is taken from: the FNV-1a hash
    read as a signed 32-bit integer and, for the empty sequence, the offset
    basis as it stands. *)
Definition signedHash (cs : list Z) : Z :=
  match cs with
  | [] => 2166136261
  | _ :: _ => signed32 (fnv1a_32 cs)
  end.

(** The id as a number: the absolute value of the signed hash, reduced
    modulo 90000 and offset by 10000. *)
Definition derivedId (cs : list Z) : Z := Z.abs (signedHash cs) mod 90000 + 10000.

(** The FNV-1a hash itself reduced modulo 90000 and offset by 10000. *)
Definition hashModId (cs : list Z) : Z := fnv1a_32 cs mod 90000 + 10000.

Fixpoint string_forall (f : ascii -> bool) (s : string) : bool :=
  match s with
  | EmptyString => true
  | String c r => f c && string_forall f r
  end.

(** An inheritance name of the shape fdm_filament_<type>, up to case. *)
Definition fdm_shape (name type : string) : Prop :=
  toLowerCase name = "fdm_filament_" +:+ type
  /\ type <> ""
  /\ string_forall Config.is_type_char type = true.

(** The text fdm_filament_ followed by a letter, digit or underscore
    occurs nowhere in [s]. *)
Definition no_fdm_occurrence (s : string) : Prop :=
  forall pre c post,
    s = pre +:+ "fdm_filament_" +:+ String c post ->
    Config.is_type_char c = false.

(** The name under which a preset inherits, as a string. *)
Definition inheritanceName (profile : JSValue) (s : string) : Prop :=
  ToString (coalesce (Config.safeFirst (get profile "inherits")) (JStr "")) = Ok s.

Definition lacksType (profile : JSValue) : Prop :=
  truthy (Config.safeFirst (get profile "filament_type")) = false.

(** The four conditions of the classification of a truncated preset. *)
Definition declaresInheritance (p : JSValue) : Prop :=
  exists s, get p "inherits" = JStr s.
Definition declaresBaseTemplate (p : JSValue) : Prop :=
  exists s, get p "base_id" = JStr s.
Definition userAuthored (p : JSValue) : Prop :=
  exists s, get p "from" = JStr s /\ toLowerCase (trim s) = "user".
(** The keys of a preset, one per member of the object. *)
Definition keys (p : JSValue) : list string :=
  match p with
  | JObj o => map fst o
  | _ => []
  end.
Definition belowThreshold (p : JSValue) : Prop :=
  (length (keys p) < 120)%nat.

Definition truncated (p : JSValue) : Prop :=
  declaresInheritance p /\ declaresBaseTemplate p /\ userAuthored p /\ belowThreshold p.

(** A parser that consumes at least one character. *)
Definition consuming (pv : parser) : Prop :=
  forall s v r,
    pv s = Some (v, r) -> (String.length r < String.length s)%nat.

(** Own-property lookup. *)
Definition own (v : JSValue) (k : string) : option JSValue :=
  match v with
  | JObj o => obj_get o k
  | _ => None
  end.

(** The value a key has in the three layers, the user layer first. *)
Definition layered (rootN baseN userN : JSValue) (k : string) : option JSValue :=
  match own userN k with
  | Some v => Some v
  | None =>
      match own baseN k with
      | Some v => Some v
      | None => own rootN k
      end
  end.

(** The database document [d] with its version replaced. *)
Definition withVersion (d : JSValue) (now : string) : JSValue :=
  match d with
  | JObj o =>
      match obj_get o "result" with
      | Some (JObj r) =>
          JObj (obj_set o "result" (JObj (obj_set r "version" (JStr now))))
      | _ => d
      end
  | _ => d
  end.

(** The value at the path result.list of a database document. *)
Definition listAt (dbObj : JSValue) : JSValue := get (get dbObj "result") "list".

(** Notes that are usable: a non-empty text that parses. *)
Definition parseableNotes (p : JSValue) : Prop :=
  exists s v,
    Config.getNotesString p = Ok s
    /\ trim s <> "" /\ trim s <> empty_quotes
    /\ JSON_parse s = Ok v.

(** Notes that also carry the identity triple. *)
Definition completeNotes (p : JSValue) : Prop :=
  exists s v,
    Config.getNotesString p = Ok s
    /\ s <> ""
    /\ JSON_parse s = Ok v
    /\ truthy (get v "vendor") = true
    /\ truthy (get v "type") = true
    /\ truthy (get v "name") = true.

End Spec.

(* ===================================================================== *)
(** ** Reconciliation as a sequence of writes                             *)
(* ===================================================================== *)

Module Reconcile.
Import JS.

(* a write: the id under which a material is stored, and the material *)
Definition write : Type := (string * JSValue)%type.

(* replace the first entry that has the id, or append *)
Definition upsert (lst : list JSValue) (w : write) : result (list JSValue) :=
  let* idx := DatabaseTool.findById lst (fst w) in
  match idx with
  | Some i => Ok (<[i := snd w]> lst)
  | None => Ok (lst ++ [snd w])%list
  end.

Fixpoint run (ws : list write) (lst : list JSValue) : result (list JSValue) :=
  match ws with
  | [] => Ok lst
  | w :: rest => let* lst' := upsert lst w in run rest lst'
  end.

(* the document written by a successful run over the baseline object [o]
   with result object [r] *)
Definition written (o r : obj) (lst' : list JSValue) (now : string) : JSValue :=
  JObj (obj_set o "result"
          (JObj (obj_set
                   (obj_set (obj_set r "list" (JArr lst'))
                      "count" (JNum (Z.of_nat (length lst'))))
                   "version" (JStr now)))).

(* no exception raised with [new Error(...)] *)
Definition no_Error {A : Type} (r : result A) : Prop :=
  forall msg, r <> Throw (Error msg).

(* a material is stored under its own id *)
Definition wf_write (w : write) : Prop :=
  DatabaseTool.entryId (snd w) = Ok (fst w).

(* the ids of the entries, in order *)
Definition ids (lst : list JSValue) : list (result string) :=
  map DatabaseTool.entryId lst.

(* the entry is matched by [id] *)
Definition hasId (id : string) (e : JSValue) : bool :=
  match DatabaseTool.entryId e with
  | Ok k => String.eqb k id
  | Throw _ => false
  end.

(* the number of entries matched by [id] *)
Definition occurrences (id : string) (lst : list JSValue) : nat :=
  length (List.filter (hasId id) lst).

Section WithTemplate.

Variable newMaterialTemplate : obj.

(* what a preset contributes: nothing when it is skipped, else its write *)
Definition writeOf (p : JSValue) : result (option write) :=
  let* notesObj := DatabaseTool.parseNotes p in
  if DatabaseTool.skipsProfile notesObj then Ok None
  else
    let* id := ToString (get notesObj "id") in
    let* material :=
      DatabaseTool.buildMaterialFromProfile newMaterialTemplate p notesObj in
    Ok (Some (id, material)).

Fixpoint writesOf (profiles : list JSValue) : result (list write) :=
  match profiles with
  | [] => Ok []
  | p :: rest =>
      let* w := writeOf p in
      let* ws := writesOf rest in
      Ok (match w with
          | Some x => x :: ws
          | None => ws
          end)
  end.

(* the Notes id of a preset that is not skipped *)
Definition notesId (p : JSValue) (id : string) : Prop :=
  exists notesObj,
    DatabaseTool.parseNotes p = Ok notesObj
    /\ DatabaseTool.skipsProfile notesObj = false
    /\ ToString (get notesObj "id") = Ok id.

End WithTemplate.

End Reconcile.

(* ===================================================================== *)
(** ** Sample data                                                        *)
(* ===================================================================== *)

Module Sample.
Import JS.

Definition notesOnlyBraces : JSValue :=
  JObj [("name", JArr [JStr "Plain"]); ("filament_notes", JArr [JStr "{}"])].

Definition acmePetg : JSValue :=
  JObj [("name", JStr "Tough"); ("filament_vendor", JArr [JStr "Acme"]);
        ("inherits", JStr "fdm_filament_petg")].

Definition resinPreset : JSValue :=
  JObj [("name", JStr "Clear"); ("inherits", JStr "sla_filament_resin")].

Definition shortUserPreset : JSValue :=
  JObj [("from", JStr " User "); ("inherits", JStr "Generic PETG");
        ("base_id", JStr "GFSG99"); ("name", JStr "My PETG");
        ("nozzle_temperature", JNum 250)].

Definition systemPreset : JSValue :=
  JObj [("inherits", JStr "fdm_filament_petg"); ("name", JStr "Generic PETG");
        ("nozzle_temperature", JArr [JStr "240"]); ("fan", JArr [JStr "1"])].

Definition rootPreset : JSValue :=
  JObj [("name", JStr "fdm_filament_petg"); ("fan", JArr [JStr "0"]);
        ("from", JStr "system"); ("bed", JNum 70)].

Definition vendorPreset : JSValue :=
  JObj [("from", JStr "system"); ("name", JStr "Generic PLA")].

Definition env : BaseFix.Env :=
  {| BaseFix.FORCE := false;
     BaseFix.readJson := fun p =>
       if String.eqb p "user/u.json" then Ok shortUserPreset
       else if String.eqb p "user/v.json" then Ok vendorPreset
       else if String.eqb p "system/Generic PETG.json" then Ok systemPreset
       else if String.eqb p "system/fdm_filament_petg.json" then Ok rootPreset
       else Throw SyntaxError;
     BaseFix.isFile := fun _ => false;
     BaseFix.searchSystem := fun f => Some ("system/" +:+ f);
     BaseFix.srcPathOf := fun f => "user/" +:+ f;
     BaseFix.outPathOf := fun f => "base/" +:+ f;
     BaseFix.writeSucceeds := fun _ => true |}.

(* a record template, standing for sourcedata/newMaterial.json *)
Definition template : obj :=
  [("id", JArr [JStr ""]); ("kind", JStr "filament"); ("name", JArr [JStr ""])].

Definition oldEntry : JSValue :=
  JObj [("id", JArr [JStr "10001"]); ("name", JArr [JStr "Old"])].

Definition keptEntry : JSValue :=
  JObj [("id", JNum 30003); ("name", JArr [JStr "Kept"])].

Definition baseline : JSValue :=
  JObj [("result",
         JObj [("list", JArr [oldEntry; keptEntry]);
               ("count", JNum 2);
               ("version", JStr "1700000000")])].

Definition presetNew : JSValue :=
  JObj [("name", JStr "New"); ("nozzle_temperature", JNum 210);
        ("filament_notes",
         JArr [JStr (dq "{'id':'10001','vendor':'X','type':'PLA','name':'New'}")])].

(* notes that carry an id and nothing else *)
Definition presetIdOnly : JSValue :=
  JObj [("name", JStr "Bare");
        ("filament_notes", JArr [JStr (dq "{'id':'20002'}")])].

(* notes that carry the triple and no id *)
Definition presetNoId : JSValue :=
  JObj [("name", JStr "Loose");
        ("filament_notes",
         JArr [JStr (dq "{'vendor':'Acme','type':'PETG','name':'Loose'}")])].

(* notes whose id is an object with a toString member of its own *)
Definition presetOddId : JSValue :=
  JObj [("filament_notes", JArr [JStr (dq "{'id':{'toString':1}}")])].

Definition options : JSValue :=
  JObj [("X", JObj [("ABS", JStr "Tough ABS")])].

(* a user preset with [n] keys, for n >= 4: the four keys that classify it
   and the settings s4, s5, ... *)
Definition settings (n : nat) : obj :=
  map (fun i => ("s" +:+ Z_to_string (Z.of_nat i), JArr [JStr "0"])) (seq 4 (n - 4)).

Definition userPresetOf (n : nat) : JSValue :=
  JObj ([("from", JStr "User"); ("inherits", JStr "Generic PETG");
         ("base_id", JStr "GFSG99"); ("name", JStr "My PETG")] ++ settings n)%list.

(* a user directory whose file w.json holds a user preset of 120 keys *)
Definition envWide : BaseFix.Env :=
  {| BaseFix.FORCE := false;
     BaseFix.readJson := fun p =>
       if String.eqb p "user/w.json" then Ok (userPresetOf 120)
       else if String.eqb p "system/Generic PETG.json" then Ok systemPreset
       else if String.eqb p "system/fdm_filament_petg.json" then Ok rootPreset
       else Throw SyntaxError;
     BaseFix.isFile := fun _ => false;
     BaseFix.searchSystem := fun f => Some ("system/" +:+ f);
     BaseFix.srcPathOf := fun f => "user/" +:+ f;
     BaseFix.outPathOf := fun f => "base/" +:+ f;
     BaseFix.writeSucceeds := fun _ => true |}.

End Sample.

(* ===================================================================== *)
(** ** Statements that the code refutes                                   *)
(* ===================================================================== *)

Module Refuted.
Import JS.

(** Every preset kept by the filter carries notes with the full triple. *)
Definition filter_keeps_complete_notes : Prop :=
  forall loaded kept p,
    Config.filterProfiles loaded = Ok kept ->
    In p kept ->
    Spec.completeNotes p.

(** Every inheritance name <family>_filament_<type> yields the upper-cased
    type, whatever the family. *)
Definition any_family_yields_type : Prop :=
  forall family type profile,
    family <> "" -> Spec.string_forall Config.is_type_char family = true ->
    type <> "" -> Spec.string_forall Config.is_type_char type = true ->
    get profile "filament_type" = JUndefined ->
    get profile "inherits" = JStr (family +:+ "_filament_" +:+ type) ->
    Config.synthesizedType profile = Ok (JStr (toUpperCase type)).

(** The id is the FNV-1a hash reduced modulo 90000 and offset by 10000. *)
Definition id_is_hash_mod : Prop :=
  forall s : string,
    Config.stableFiveDigitId s = Z_to_string (Spec.hashModId (Spec.codeUnits s)).

(** A run is aborted by an exception exactly when the value at result.list
    is not a list. *)
Definition aborts_iff_not_list : Prop :=
  forall (tmpl : obj) (dbObj : JSValue) (ps : list JSValue) (now : string),
    (exists e, DatabaseTool.addToDatabase tmpl dbObj ps now = Throw e)
    <-> isArray (Spec.listAt dbObj) = false.

(** addToOptions requires what addToDatabase requires and, in addition, a
    truthy vendor, type and name. *)
Definition options_require_more : Prop :=
  forall notes : JSValue,
    OptionsTool.skipsProfile notes =
      DatabaseTool.skipsProfile notes
      || negb (truthy (get notes "vendor"))
      || negb (truthy (get notes "type"))
      || negb (truthy (get notes "name")).

End Refuted.
Module Json.
Import JS.

(* the keys are pairwise distinct *)
Fixpoint distinct (ks : list string) : bool :=
  match ks with
  | [] => true
  | k :: r => negb (existsb (String.eqb k) r) && distinct r
  end.

(** The values JSON.parse returns: no undefined inside, decimal fractions
    in lowest terms, the keys of an object pairwise distinct. *)
Fixpoint json_value (v : JSValue) : bool :=
  match v with
  | JUndefined => false
  | JNull | JBool _ | JNum _ | JStr _ => true
  | JDec m _ => negb (m mod 10 =? 0)
  | JArr l => forallb json_value l
  | JObj o => distinct (map fst o) && forallb (fun '(_, x) => json_value x) o
  end.

(** The values whose numbers JavaScript holds and prints as the model
    does: integers below 2^53 in absolute value, and decimal fractions of at
    most 15 significant digits that are at least 10^-6 in absolute value.
    A double holds such an integer exactly; it tells such fractions apart,
    prints each with the digits it was read from, and in plain notation. *)
Fixpoint plain (v : JSValue) : bool :=
  match v with
  | JNum z => Z.abs z <? 2 ^ 53
  | JDec m k => (Z.abs m <? 10 ^ 15) && (10 ^ Z.pos k <=? Z.abs m * 10 ^ 6)
  | JArr l => forallb plain l
  | JObj o => forallb (fun '(_, x) => plain x) o
  | _ => true
  end.

(* the text between the brackets of a stringified array *)
Fixpoint elements_text (l : list JSValue) : string :=
  match l with
  | [] => ""
  | x :: r =>
      default "null" (JSON_stringify x) +:+
      match r with
      | [] => ""
      | _ :: _ => "," +:+ elements_text r
      end
  end.

(* the text between the braces of a stringified object *)
Fixpoint members_text (o : obj) (first : bool) : string :=
  match o with
  | [] => ""
  | (k, x) :: r =>
      match JSON_stringify x with
      | None => members_text r first
      | Some sx =>
          (if first then "" else ",") +:+ quote k +:+ ":" +:+ sx
            +:+ members_text r false
      end
  end.

(* the text after a number does not continue the number *)
Definition number_end (r : string) : bool :=
  match r with
  | EmptyString => true
  | String c _ =>
      negb (is_digit c || (code c =? 46) || (code c =? 101) || (code c =? 69))
  end.

(** Parsing the text of [v], whatever follows it, gives [v] back. *)
Definition round_trips (v : JSValue) : Prop :=
  json_value v = true ->
  exists s, JSON_stringify v = Some s
    /\ forall r n,
         number_end r = true -> (String.length (s +:+ r) < n)%nat ->
         parse_value n (s +:+ r) = Some (v, r).

End Json.
(* ===================================================================== *)
(** ** The words of a shell command line                                  *)
(* ===================================================================== *)

Module Sh.
Import JS.

(** The token recognition of the POSIX shell on command lines made of
    plain words, words in single quotes, backslash escapes and the
    operators [;], [>] and [||].  A line that holds anything else outside
    quotes (an expansion, a substitution, a pattern, another operator, a
    line break) is not recognised: the result is [None]. *)

Inductive token : Type :=
| Word (w : string)
| Semi
| Great
| OrIf.

Definition is_blank (c : ascii) : bool :=
  (code c =? 32) || (code c =? 9).

(* letters, digits and - . / _ *)
Definition is_plain (c : ascii) : bool :=
  let n := code c in
  ((97 <=? n) && (n <=? 122)) || ((65 <=? n) && (n <=? 90))
  || ((48 <=? n) && (n <=? 57))
  || (n =? 45) || (n =? 46) || (n =? 47) || (n =? 95).

(* the word in progress, if any, is delimited *)
Definition flush (cur : option string) (acc : list token) : list token :=
  match cur with
  | Some w => (acc ++ [Word w])%list
  | None => acc
  end.

Definition push (cur : option string) (c : ascii) : option string :=
  Some (default "" cur +:+ String c "").

(* the character does not extend the operator > or ; *)
Definition ends_operator (r : string) : bool :=
  match r with
  | EmptyString => true
  | String c _ =>
      negb ((code c =? 62) || (code c =? 38) || (code c =? 124) || (code c =? 59)
            || (code c =? 40))
  end.

Fixpoint lex (s : string) (quoted : bool) (cur : option string) (acc : list token)
  : option (list token) :=
  match s with
  | EmptyString => if quoted then None else Some (flush cur acc)
  | String c r =>
      if quoted then
        if Ascii.eqb c "'" then lex r false cur acc
        else lex r true (push cur c) acc
      else if Ascii.eqb c "'" then lex r true (Some (default "" cur)) acc
      else if code c =? 92 then
        match r with
        | String e r' =>
            if code e =? 10 then None else lex r' false (push cur e) acc
        | EmptyString => None
        end
      else if is_blank c then lex r false None (flush cur acc)
      else if code c =? 59 then
        if ends_operator r then lex r false None (flush cur acc ++ [Semi])%list
        else None
      else if code c =? 62 then
        match cur with
        | Some _ => None
        | None =>
            if ends_operator r then lex r false None (acc ++ [Great])%list else None
        end
      else if code c =? 124 then
        match r with
        | String e r' =>
            if (code e =? 124) && ends_operator r'
            then lex r' false None (flush cur acc ++ [OrIf])%list
            else None
        | EmptyString => None
        end
      else if is_plain c then lex r false (push cur c) acc
      else None
  end.

Definition tokens (line : string) : option (list token) := lex line false None [].

End Sh.

(* ===================================================================== *)
(** ** Notions used to state the further properties                       *)
(* ===================================================================== *)

Module Notions.
Import JS.

(** The keys of a material that buildMaterialFromProfile sets from the
    notes. *)
Definition identityKeys : list string :=
  ["id"; "name"; "filament_id"; "filament_vendor"; "filament_type";
   "filament_settings_id"; "from"; "is_custom_defined"; "filament_notes"].

(** The record that buildMaterialFromProfile and autoGenerateNotes store as
    text in filament_notes. *)
Definition notesRecord (id vendor type name : JSValue) : obj :=
  [("id", id); ("vendor", vendor); ("type", type); ("name", name)].

(** An object preset as JSON.parse returns it. *)
Definition objectPreset (p : JSValue) : Prop :=
  (exists o, p = JObj o) /\ Json.json_value p = true.

(** The two forms of a value in a normalised preset: an array, or a string
    under one of the keys that are kept as strings. *)
Definition normalEntry (kv : string * JSValue) : bool :=
  match snd kv with
  | JArr _ => true
  | JStr _ => BaseFix.is_string_key (fst kv)
  | _ => false
  end.

Definition safeChar (c : ascii) : bool := negb (BaseFix.is_unsafe_char c).

(** The material written last under an id. *)
Fixpoint lastMaterial (ws : list Reconcile.write) (id : string) : option JSValue :=
  match ws with
  | [] => None
  | w :: rest =>
      match lastMaterial rest id with
      | Some m => Some m
      | None => if String.eqb (fst w) id then Some (snd w) else None
      end
  end.

(** A string, a number or a boolean. *)
Definition scalar (v : JSValue) : bool :=
  match v with
  | JBool _ | JNum _ | JDec _ _ | JStr _ => true
  | _ => false
  end.

(** The entries of an object with the scalars wrapped. *)
Definition wrapped (o : obj) : obj :=
  map (fun kv => (fst kv, ConfigLoad.wrapElement (snd kv))) o.

(** A number or a boolean. *)
Definition numberOrBoolean (v : JSValue) : bool :=
  match v with
  | JBool _ | JNum _ | JDec _ _ => true
  | _ => false
  end.

(** What JSON.parse reads from the text, if anything, has plain numbers
    only. *)
Definition readsPlain (t : string) : bool :=
  match JSON_parse t with
  | Ok v => Json.plain v
  | Throw _ => true
  end.

(** The texts that the model reads as JavaScript's JSON.parse does, as they
    stand and trimmed: a text without a backslash, so that no escape is
    read, whose numbers are plain. *)
Definition readable (t : string) : bool :=
  Spec.string_forall (fun c => negb (Ascii.eqb c bslash)) t
  && readsPlain t && readsPlain (trim t).

(** The notes of a preset are absent, or a readable text, bare or as the
    first element of an array. *)
Definition notesReadable (p : JSValue) : bool :=
  match get p "filament_notes" with
  | JUndefined => true
  | JStr s => readable s
  | JArr (JStr s :: _) => readable s
  | _ => false
  end.

(** The presets on which the model follows the program step by step: JSON
    objects with plain numbers and readable notes. *)
Definition modelled (p : JSValue) : Prop :=
  objectPreset p /\ Json.plain p = true /\ notesReadable p = true.

(** The name of a directory entry: it holds no separator and no colon. *)
Definition bareName (fname : string) : bool :=
  Spec.string_forall
    (fun c => negb (Ascii.eqb c "/" || Ascii.eqb c bslash || Ascii.eqb c ":")) fname.

End Notions.

(* ===================================================================== *)
(** ** The options document as a sequence of writes                       *)
(* ===================================================================== *)

Module OptionWrites.
Import JS.

(* a write: the vendor key, the type key and the name stored there *)
Definition write : Type := (string * string * JSValue)%type.

Definition vendorKey (w : write) : string := fst (fst w).
Definition typeKey (w : write) : string := snd (fst w).
Definition nameOf (w : write) : JSValue := snd w.

(* what a preset contributes: nothing when it is skipped, else its write *)
Definition writeOf (p : JSValue) : result (option write) :=
  let* notes := OptionsTool.parseNotes p in
  if OptionsTool.skipsProfile notes then Ok None
  else
    let* vk := ToString (get notes "vendor") in
    let* tk := ToString (get notes "type") in
    Ok (Some (vk, tk, get notes "name")).

Fixpoint writesOf (profiles : list JSValue) : result (list write) :=
  match profiles with
  | [] => Ok []
  | p :: rest =>
      let* w := writeOf p in
      let* ws := writesOf rest in
      Ok (match w with
          | Some x => x :: ws
          | None => ws
          end)
  end.

(* the types stored under a vendor, none when the vendor holds no object *)
Definition typesOf (o : obj) (vk : string) : obj :=
  match obj_get o vk with
  | Some (JObj i) => i
  | _ => []
  end.

Definition store (o : obj) (w : write) : obj :=
  obj_set o (vendorKey w) (JObj (obj_set (typesOf o (vendorKey w)) (typeKey w) (nameOf w))).

(* the keys can be written *)
Definition keysOk (w : write) : bool :=
  negb (String.eqb (vendorKey w) "__proto__") && negb (String.eqb (typeKey w) "__proto__").

(* the write can be carried out on [o] *)
Definition allowed (o : obj) (w : write) : bool :=
  keysOk w && negb (isArray (default JUndefined (obj_get o (vendorKey w)))).

Fixpoint run (ws : list write) (o : obj) : option obj :=
  match ws with
  | [] => Some o
  | w :: rest => if allowed o w then run rest (store o w) else None
  end.

(* the vendor holds an object that has the type *)
Definition present (o : obj) (w : write) : Prop :=
  exists i, obj_get o (vendorKey w) = Some (JObj i)
            /\ obj_get i (typeKey w) <> None.

Definition sameKeys (w w' : write) : Prop :=
  vendorKey w = vendorKey w' /\ typeKey w = typeKey w'.

(* the name written last under the pair of keys *)
Fixpoint lastWrite (ws : list write) (vk tk : string) : option JSValue :=
  match ws with
  | [] => None
  | w :: rest =>
      match lastWrite rest vk tk with
      | Some n => Some n
      | None =>
          if String.eqb (vendorKey w) vk && String.eqb (typeKey w) tk
          then Some (nameOf w) else None
      end
  end.

(* the own property [tk] of the own property [vk] *)
Definition own2 (v : JSValue) (vk tk : string) : option JSValue :=
  match Spec.own v vk with
  | Some x => Spec.own x tk
  | None => None
  end.

End OptionWrites.

(* ===================================================================== *)
(** ** Further sample data                                                *)
(* ===================================================================== *)

Module Samples.
Import JS.

(* a version directory with two preset files, a text file and a directory
   whose name ends in .json *)
Definition versionDir : BaseFixRun.version :=
  {| BaseFixRun.userDir := true;
     BaseFixRun.systemDir := true;
     BaseFixRun.makeBase := Ok tt;
     BaseFixRun.entries :=
       Ok [("u.json", true); ("V.JSON", true); ("notes.txt", true); ("old.json", false)];
     BaseFixRun.files := Sample.env |}.

(* a preset whose notes are a text that is not JSON *)
Definition presetPlainNotes : JSValue :=
  JObj [("name", JStr "Plain"); ("filament_notes", JStr "tough, matte")].

(* a preset as Creality Print exports it, with scalar values *)
Definition crealityPreset : obj :=
  [("name", JStr "New"); ("nozzle_temperature", JNum 210);
   ("filament_notes",
    JStr (dq "{'id':'10001','vendor':'X','type':'PLA','name':'New'}"))].

(* a user preset whose name is an array *)
Definition arrayNamePreset : JSValue :=
  JObj [("from", JStr "User"); ("inherits", JStr "Generic PLA");
        ("base_id", JStr "GFSL99"); ("name", JArr [JStr "My PLA"])].

(* a system preset without name and without inherits *)
Definition namelessSystemPreset : JSValue :=
  JObj [("from", JStr "system"); ("fan", JArr [JStr "1"])].

(* a user directory with the files n.json and .json, both holding the
   preset whose name is an array *)
Definition envArrayName : BaseFix.Env :=
  {| BaseFix.FORCE := false;
     BaseFix.readJson := fun p =>
       if String.eqb p "user/n.json" then Ok arrayNamePreset
       else if String.eqb p "user/.json" then Ok arrayNamePreset
       else if String.eqb p "system/Generic PLA.json" then Ok namelessSystemPreset
       else Throw SyntaxError;
     BaseFix.isFile := fun _ => false;
     BaseFix.searchSystem := fun f => Some ("system/" +:+ f);
     BaseFix.srcPathOf := fun f => "user/" +:+ f;
     BaseFix.outPathOf := fun f => "base/" +:+ f;
     BaseFix.writeSucceeds := fun _ => true |}.

(* a preset whose notes are the number 7 *)
Definition presetNumberNotes : obj :=
  [("name", JStr "Odd"); ("filament_notes", JNum 7)].

(* settings with a host and no password *)
Definition cfgNoPassword : obj :=
  [("PRINTER_IP", JStr "192.168.1.20"); ("PORT", JNum 22); ("USER", JStr "root")].

End Samples.

(* ===================================================================== *)
(** ** Properties                                                         *)
(* ===================================================================== *)

Import JS.

(** *** Objects and the exception monad *)

Lemma obj_get_set_eq (o : obj) (k : string) (v : JSValue) :
  obj_get (obj_set o k v) k = Some v.
Proof.
  induction o as [|[k' v'] o IH]; simpl.
  - now rewrite String.eqb_refl.
  - destruct (String.eqb_spec k' k) as [->|Hne]; simpl.
    + now rewrite String.eqb_refl.
    + destruct (String.eqb_spec k' k); [contradiction|exact IH].
Qed.

Lemma obj_get_set_ne (o : obj) (k k' : string) (v : JSValue) :
  k <> k' -> obj_get (obj_set o k v) k' = obj_get o k'.
Proof.
  intros Hne. induction o as [|[k0 v0] o IH]; simpl.
  - destruct (String.eqb_spec k k'); [contradiction|reflexivity].
  - destruct (String.eqb_spec k0 k) as [->|H0]; simpl.
    + destruct (String.eqb_spec k k'); [contradiction|reflexivity].
    + now rewrite IH.
Qed.

Lemma get_set_eq (o : obj) (k : string) (v : JSValue) :
  get (JObj (obj_set o k v)) k = v.
Proof. simpl. now rewrite obj_get_set_eq. Qed.

Lemma get_set_ne (o : obj) (k k' : string) (v : JSValue) :
  k <> k' -> get (JObj (obj_set o k v)) k' = get (JObj o) k'.
Proof. intros H. simpl. now rewrite obj_get_set_ne. Qed.

Lemma bind_Ok {A B : Type} (m : result A) (k : A -> result B) (b : B) :
  bind m k = Ok b <-> exists a, m = Ok a /\ k a = Ok b.
Proof.
  destruct m as [a|e]; simpl.
  - split; [eauto|]. now intros [a' [[= <-] H]].
  - split; [discriminate|]. now intros [a' [H _]].
Qed.

Lemma set_prop_Ok_obj (o : obj) (k : string) (v : JSValue) (r : JSValue) :
  set_prop (JObj o) k v = Ok r -> k <> "__proto__" /\ r = JObj (obj_set o k v).
Proof.
  unfold set_prop. destruct (String.eqb_spec k "__proto__"); [discriminate|].
  now intros [= <-].
Qed.

(** *** Identity derivation: the hash *)

Section Hash.
Import Config.

Lemma to_int32_mod (z : Z) : to_int32 z mod 2 ^ 32 = z mod 2 ^ 32.
Proof.
  unfold to_int32.
  rewrite Zminus_mod, Z.mod_mod by lia.
  rewrite <- Zminus_mod.
  replace (z + 2 ^ 31 - 2 ^ 31) with z by lia. reflexivity.
Qed.

Lemma lxor_mod_pow2 (a b n : Z) : 0 <= n ->
  Z.lxor a b mod 2 ^ n = Z.lxor (a mod 2 ^ n) (b mod 2 ^ n).
Proof.
  intros Hn. apply Z.bits_inj'. intros i Hi.
  rewrite Z.lxor_spec.
  destruct (Z.lt_ge_cases i n).
  - rewrite !Z.mod_pow2_bits_low by lia. now rewrite Z.lxor_spec.
  - rewrite !Z.mod_pow2_bits_high by lia. reflexivity.
Qed.

Lemma xor32_mod (h c : Z) :
  xor32 h c mod 2 ^ 32 = Z.lxor (h mod 2 ^ 32) (c mod 2 ^ 32).
Proof.
  unfold xor32. rewrite (lxor_mod_pow2 _ _ 32) by lia.
  now rewrite !to_int32_mod.
Qed.

Lemma imul_mod (a b : Z) : imul a b mod 2 ^ 32 = ((a mod 2 ^ 32) * b) mod 2 ^ 32.
Proof.
  unfold imul. rewrite to_int32_mod.
  rewrite Z.mul_mod by lia. rewrite !to_int32_mod.
  rewrite <- Z.mul_mod by lia.
  rewrite (Z.mul_mod a b) by lia.
  rewrite (Z.mul_mod (a mod 2 ^ 32) b) by lia.
  now rewrite Z.mod_mod by lia.
Qed.

Lemma hash_step_mod (h hs c : Z) :
  h mod 2 ^ 32 = hs -> 0 <= c < 2 ^ 32 ->
  imul (xor32 h c) 16777619 mod 2 ^ 32 = (Z.lxor hs c * 16777619) mod 2 ^ 32.
Proof.
  intros Hh Hc. rewrite imul_mod, xor32_mod, Hh.
  now rewrite (Z.mod_small c) by lia.
Qed.

Lemma fold_hash_fnv (cs : list Z) :
  Forall (fun c => 0 <= c < 2 ^ 32) cs ->
  forall h hs, h mod 2 ^ 32 = hs ->
  fold_left (fun h c => imul (xor32 h c) 0x01000193) cs h mod 2 ^ 32 =
  fold_left (fun h c => (Z.lxor h c * 16777619) mod 2 ^ 32) cs hs.
Proof.
  induction 1 as [|c cs Hc _ IH]; intros h hs H0; simpl.
  - exact H0.
  - apply IH. apply hash_step_mod; assumption.
Qed.

Lemma hash_codes_fnv (cs : list Z) :
  Forall (fun c => 0 <= c < 2 ^ 32) cs ->
  hash_codes cs mod 2 ^ 32 = Spec.fnv1a_32 cs.
Proof.
  intros H. unfold hash_codes, Spec.fnv1a_32. now apply fold_hash_fnv.
Qed.

Lemma charCodes_range (s : string) : Forall (fun c => 0 <= c < 2 ^ 32) (charCodes s).
Proof.
  induction s as [|a s IH]; simpl; constructor; [|exact IH].
  unfold code. pose proof (N_ascii_bounded a). lia.
Qed.

Lemma Z_to_string_5 (n : Z) :
  10000 <= n <= 99999 ->
  Z_to_string n =
    String (digit_char (n / 10000))
      (String (digit_char (n / 1000 mod 10))
         (String (digit_char (n / 100 mod 10))
            (String (digit_char (n / 10 mod 10))
               (String (digit_char (n mod 10)) "")))).
Proof.
  intros Hn. unfold Z_to_string.
  destruct (Z.ltb_spec n 0); [lia|].
  unfold nat_digits.
  assert (Hl : 13 <= Z.log2 n).
  { change 13 with (Z.log2 8192). apply Z.log2_le_mono. lia. }
  destruct (Z.to_nat (Z.log2 n)) as [|[|[|[|f]]]] eqn:E; try lia.
  cbn [digits_of].
  replace (n / 10 / 10) with (n / 100) by (rewrite Z.div_div by lia; reflexivity).
  replace (n / 100 / 10) with (n / 1000) by (rewrite Z.div_div by lia; reflexivity).
  replace (n / 1000 / 10) with (n / 10000) by (rewrite Z.div_div by lia; reflexivity).
  assert (1 <= n / 10000 < 10).
  { split; [apply Z.div_le_lower_bound; lia | apply Z.div_lt_upper_bound; lia]. }
  assert (10 <= n / 1000) by (apply Z.div_le_lower_bound; lia).
  assert (10 <= n / 100) by (apply Z.div_le_lower_bound; lia).
  assert (10 <= n / 10) by (apply Z.div_le_lower_bound; lia).
  destruct (Z.ltb_spec n 10); [lia|].
  destruct (Z.ltb_spec (n / 10) 10); [lia|].
  destruct (Z.ltb_spec (n / 100) 10); [lia|].
  destruct (Z.ltb_spec (n / 1000) 10); [lia|].
  destruct f; cbn [digits_of];
    rewrite (Z.mod_small (n / 10000) 10) by lia; [reflexivity|].
  destruct (Z.ltb_spec (n / 10000) 10); [reflexivity|lia].
Qed.

Lemma id_range (h : Z) : 10000 <= Z.rem (Z.abs h) 90000 + 10000 <= 99999.
Proof.
  pose proof (Z.rem_bound_pos (Z.abs h) 90000 ltac:(lia) ltac:(lia)). lia.
Qed.

Lemma to_int32_range (z : Z) : - 2 ^ 31 <= to_int32 z < 2 ^ 31.
Proof.
  unfold to_int32. pose proof (Z.mod_pos_bound (z + 2 ^ 31) (2 ^ 32) ltac:(lia)). lia.
Qed.

Lemma signed32_unique (z u : Z) :
  - 2 ^ 31 <= z < 2 ^ 31 -> z mod 2 ^ 32 = u -> z = Spec.signed32 u.
Proof.
  intros Hz Hu. unfold Spec.signed32.
  pose proof (Z.mod_pos_bound z (2 ^ 32) ltac:(lia)) as Hb.
  pose proof (Z.div_mod z (2 ^ 32) ltac:(lia)) as Hd.
  rewrite Hu in Hb, Hd.
  destruct (Z.ltb_spec u (2 ^ 31)); lia.
Qed.

Lemma hash_codes_snoc (cs : list Z) (c : Z) :
  hash_codes (cs ++ [c]) = imul (xor32 (hash_codes cs) c) 0x01000193.
Proof. unfold hash_codes. now rewrite fold_left_app. Qed.

(* after the first code unit the state of the loop is the hash as a signed
   32-bit integer; before it, the offset basis *)
Lemma hash_codes_signed (cs : list Z) :
  Forall (fun c => 0 <= c < 2 ^ 32) cs ->
  hash_codes cs = Spec.signedHash cs.
Proof.
  intros H. destruct cs as [|c0 cs0]; [reflexivity|].
  cbn [Spec.signedHash].
  apply signed32_unique; [|now apply hash_codes_fnv].
  destruct (exists_last (l := c0 :: cs0) ltac:(discriminate)) as [cs' [c ->]].
  rewrite hash_codes_snoc. unfold imul. apply to_int32_range.
Qed.

Lemma codeUnits_charCodes (s : string) : Spec.codeUnits s = charCodes s.
Proof.
  unfold Spec.codeUnits. induction s as [|a s IH]; [reflexivity|].
  cbn [list_ascii_of_string map charCodes]. rewrite IH. f_equal.
  unfold code, nat_of_ascii. apply N_nat_Z.
Qed.

Lemma stableFiveDigitId_codes_derived (cs : list Z) :
  Forall (fun c => 0 <= c < 2 ^ 32) cs ->
  stableFiveDigitId_codes cs = Z_to_string (Spec.derivedId cs).
Proof.
  intros H. unfold stableFiveDigitId_codes, Spec.derivedId.
  rewrite (hash_codes_signed cs H).
  rewrite Z.rem_mod_nonneg by lia. reflexivity.
Qed.

(** C4. The derived id is a function of the code units of the string: it is
    the decimal numeral of |h| mod 90000 + 10000, where h is the 32-bit
    FNV-1a hash of the code units read as a signed 32-bit integer (for the
    empty string, the offset basis as it stands); the number lies in
    10000..99999 and the id is its five-digit numeral.  The model's strings
    have code units below 256; the second part gives the same for every
    sequence of 16-bit code units. *)
Theorem C4_stableFiveDigitId_five_digits :
  (forall s : string,
      stableFiveDigitId s = Z_to_string (Spec.derivedId (Spec.codeUnits s)))
  /\ (forall cs : list Z,
        Forall (fun c => 0 <= c < 2 ^ 16) cs ->
        stableFiveDigitId_codes cs = Z_to_string (Spec.derivedId cs))
  /\ (forall cs : list Z,
        let id := Spec.derivedId cs in
        10000 <= id <= 99999
        /\ exists d4 d3 d2 d1 d0,
             1 <= d4 <= 9 /\ 0 <= d3 <= 9 /\ 0 <= d2 <= 9 /\ 0 <= d1 <= 9 /\ 0 <= d0 <= 9
             /\ id = 10000 * d4 + 1000 * d3 + 100 * d2 + 10 * d1 + d0
             /\ Z_to_string id =
                  String (digit_char d4) (String (digit_char d3) (String (digit_char d2)
                    (String (digit_char d1) (String (digit_char d0) ""))))).
Proof.
  split; [|split].
  - intros s. unfold stableFiveDigitId. rewrite codeUnits_charCodes.
    apply stableFiveDigitId_codes_derived, charCodes_range.
  - intros cs H. apply stableFiveDigitId_codes_derived.
    eapply Forall_impl; [exact H|]. cbn beta. intros c Hc. lia.
  - intros cs id.
    assert (Hr : 10000 <= id <= 99999).
    { unfold id, Spec.derivedId.
      pose proof (Z.mod_pos_bound (Z.abs (Spec.signedHash cs)) 90000 ltac:(lia)). lia. }
    split; [exact Hr|].
    exists (id / 10000), (id / 1000 mod 10), (id / 100 mod 10), (id / 10 mod 10), (id mod 10).
    assert (1 <= id / 10000 < 10).
    { split; [apply Z.div_le_lower_bound; lia | apply Z.div_lt_upper_bound; lia]. }
    pose proof (Z.mod_pos_bound (id / 1000) 10 ltac:(lia)).
    pose proof (Z.mod_pos_bound (id / 100) 10 ltac:(lia)).
    pose proof (Z.mod_pos_bound (id / 10) 10 ltac:(lia)).
    pose proof (Z.mod_pos_bound id 10 ltac:(lia)).
    repeat (split; [lia|]).
    split.
    + pose proof (Z.div_mod id 10 ltac:(lia)).
      pose proof (Z.div_mod (id / 10) 10 ltac:(lia)).
      pose proof (Z.div_mod (id / 100) 10 ltac:(lia)).
      pose proof (Z.div_mod (id / 1000) 10 ltac:(lia)).
      replace (id / 10 / 10) with (id / 100) in * by (rewrite Z.div_div by lia; reflexivity).
      replace (id / 100 / 10) with (id / 1000) in * by (rewrite Z.div_div by lia; reflexivity).
      replace (id / 1000 / 10) with (id / 10000) in * by (rewrite Z.div_div by lia; reflexivity).
      lia.
    + now apply Z_to_string_5.
Qed.

Lemma C4_witness :
  stableFiveDigitId "V|PLA|n7" = "19243"
  /\ stableFiveDigitId_codes [86; 124; 20320; 22909] = "70288".
Proof.
  split.
  - rewrite (proj1 C4_stableFiveDigitId_five_digits "V|PLA|n7").
    vm_compute. reflexivity.
  - rewrite (proj1 (proj2 C4_stableFiveDigitId_five_digits) [86; 124; 20320; 22909]).
    + vm_compute. reflexivity.
    + repeat constructor; lia.
Defined.

(* "V|PLA|n7" has the hash 2157638053, which reads -2137329243 as a signed
   32-bit integer: the code derives 19243 from the absolute value
   2137329243, the hash itself gives 78053 *)
Lemma C4_counterexample : ~ Refuted.id_is_hash_mod.
Proof.
  intros H. specialize (H "V|PLA|n7"). vm_compute in H. discriminate H.
Qed.

End Hash.

(** *** Classification of truncated presets *)

Section Classification.
Import BaseFix.

Lemma get_string_is_object (p : JSValue) (k s : string) :
  get p k = JStr s -> exists o, p = JObj o.
Proof. destruct p; simpl; try discriminate. eauto. Qed.

Lemma is_string_true (v : JSValue) : is_string v = true <-> exists s, v = JStr s.
Proof.
  split.
  - destruct v; simpl; try discriminate. eauto.
  - intros [s ->]. reflexivity.
Qed.

Lemma fromVal_user (p : JSValue) :
  String.eqb (fromVal p) "user" = true <-> Spec.userAuthored p.
Proof.
  unfold fromVal, Spec.userAuthored. split.
  - destruct (truthy p); [|discriminate].
    destruct (get p "from"); try discriminate.
    intros H. apply String.eqb_eq in H. eauto.
  - intros [s [Hs Hu]].
    destruct (get_string_is_object _ _ _ Hs) as [o ->].
    simpl truthy. cbv iota. rewrite Hs. now apply String.eqb_eq.
Qed.

Lemma countKeys_keys (o : obj) :
  countKeys (JObj o) = Z.of_nat (length (Spec.keys (JObj o))).
Proof. unfold countKeys. cbn. now rewrite length_map. Qed.

Lemma looksLikeTruncated_iff (p : JSValue) :
  looksLikeTruncatedUserPreset p = true <-> Spec.truncated p.
Proof.
  unfold looksLikeTruncatedUserPreset, Spec.truncated,
    Spec.declaresInheritance, Spec.declaresBaseTemplate, Spec.belowThreshold.
  rewrite !andb_true_iff, fromVal_user, !is_string_true, Z.ltb_lt.
  split.
  - intros [[[[[_ _] Hu] [s Hs]] Hb] Hc].
    destruct (get_string_is_object _ _ _ Hs) as [o ->].
    rewrite countKeys_keys in Hc. repeat split; eauto. lia.
  - intros [[s Hs] [Hb [Hu Hc]]].
    destruct (get_string_is_object _ _ _ Hs) as [o ->].
    rewrite countKeys_keys. repeat split; eauto. lia.
Qed.

(** C7. A preset is classified as truncated exactly when it declares an
    inheritance reference and a base-template reference (both strings), its
    from field reads user after trimming and lower-casing, and the number of
    its keys is below 120; a preset file that fails one of these is skipped
    by the pass. *)
Theorem C7_truncated_classification :
  (forall p, looksLikeTruncatedUserPreset p = true <-> Spec.truncated p)
  /\ (forall env fname p,
        readJson env (srcPathOf env fname) = Ok p ->
        ~ Spec.truncated p ->
        processPreset env fname = Ok (Skipped 0)).
Proof.
  split; [exact looksLikeTruncated_iff|].
  intros env fname p Hread Hnot.
  unfold processPreset. rewrite Hread.
  destruct (looksLikeTruncatedUserPreset p) eqn:E.
  - exfalso. apply Hnot. now apply looksLikeTruncated_iff.
  - reflexivity.
Qed.

(* the threshold at work: a user preset of 119 keys is classified as
   truncated, the same preset with one more key is not and its file is
   skipped; a preset that reads from system is skipped as well *)
Lemma C7_witness :
  looksLikeTruncatedUserPreset (Sample.userPresetOf 119) = true
  /\ ~ Spec.truncated (Sample.userPresetOf 120)
  /\ processPreset Sample.envWide "w.json" = Ok (Skipped 0)
  /\ ~ Spec.truncated Sample.vendorPreset
  /\ processPreset Sample.env "v.json" = Ok (Skipped 0).
Proof.
  assert (H119 : Spec.truncated (Sample.userPresetOf 119)).
  { split; [exists "Generic PETG"; reflexivity|].
    split; [exists "GFSG99"; reflexivity|].
    split; [exists "User"; split; reflexivity|].
    unfold Spec.belowThreshold. vm_compute. lia. }
  assert (H120 : ~ Spec.truncated (Sample.userPresetOf 120)).
  { intros (_ & _ & _ & H). unfold Spec.belowThreshold in H. vm_compute in H. lia. }
  assert (Hn : ~ Spec.truncated Sample.vendorPreset).
  { intros ([s H] & _). discriminate H. }
  split; [exact (proj2 (proj1 C7_truncated_classification _) H119)|].
  split; [exact H120|].
  split; [exact (proj2 C7_truncated_classification Sample.envWide "w.json"
                   (Sample.userPresetOf 120) eq_refl H120)|].
  split; [exact Hn|].
  exact (proj2 C7_truncated_classification Sample.env "v.json" Sample.vendorPreset
           eq_refl Hn).
Defined.

End Classification.

(** *** Type extraction from the inheritance name *)

Section TypeExtraction.
Import Config.

Lemma strip_prefix_app (p r : string) : strip_prefix p (p +:+ r) = Some r.
Proof.
  induction p as [|a p IH]; simpl; [now destruct r|].
  now rewrite Ascii.eqb_refl.
Qed.

Lemma strip_prefix_Some (p s r : string) : strip_prefix p s = Some r -> s = p +:+ r.
Proof.
  revert s. induction p as [|a p IH]; intros s; simpl.
  - destruct s; intros [= <-]; reflexivity.
  - destruct s as [|b s]; [discriminate|].
    destruct (Ascii.eqb_spec a b) as [->|]; [|discriminate].
    intros H. now rewrite (IH _ H).
Qed.

Lemma take_type_chars_all (t : string) :
  Spec.string_forall is_type_char t = true -> take_type_chars t = t.
Proof.
  induction t as [|c t IH]; simpl; [reflexivity|].
  intros H. apply andb_true_iff in H as [Hc Ht].
  rewrite Hc. now rewrite IH.
Qed.

Lemma take_type_chars_cons (s : string) (c : ascii) (g : string) :
  take_type_chars s = String c g -> exists r, s = String c r /\ is_type_char c = true.
Proof.
  destruct s as [|a s]; simpl; [discriminate|].
  destruct (is_type_char a) eqn:E; [|discriminate].
  intros [= <- _]. eauto.
Qed.

Lemma take_type_chars_nil (s : string) :
  take_type_chars s = "" -> s = "" \/ exists c r, s = String c r /\ is_type_char c = false.
Proof.
  destruct s as [|a s]; simpl; [now left|].
  destruct (is_type_char a) eqn:E; [discriminate|]. right; eauto.
Qed.

Lemma match_at_start (t : string) :
  t <> "" -> Spec.string_forall is_type_char t = true ->
  match_fdm_filament ("fdm_filament_" +:+ t) = Some t.
Proof.
  intros Hne Hall.
  change (match_fdm_filament ("fdm_filament_" +:+ t))
    with (match strip_prefix "fdm_filament_" ("fdm_filament_" +:+ t) with
          | Some rest =>
              match take_type_chars rest with
              | EmptyString => match_fdm_filament ("dm_filament_" +:+ t)
              | String c g => Some (String c g)
              end
          | None => match_fdm_filament ("dm_filament_" +:+ t)
          end).
  rewrite strip_prefix_app, take_type_chars_all by assumption.
  destruct t; [contradiction|reflexivity].
Qed.

Lemma match_none_iff (s : string) :
  match_fdm_filament s = None <-> Spec.no_fdm_occurrence s.
Proof.
  unfold Spec.no_fdm_occurrence. split.
  - intros Hm pre. revert s Hm.
    induction pre as [|a pre IH]; intros s Hm c post ->.
    + destruct (is_type_char c) eqn:Ec; [|reflexivity].
      exfalso. revert Hm.
      change (match_fdm_filament ("" +:+ "fdm_filament_" +:+ String c post))
        with (match strip_prefix "fdm_filament_" ("fdm_filament_" +:+ String c post) with
              | Some rest =>
                  match take_type_chars rest with
                  | EmptyString => match_fdm_filament ("dm_filament_" +:+ String c post)
                  | String c' g => Some (String c' g)
                  end
              | None => match_fdm_filament ("dm_filament_" +:+ String c post)
              end).
      rewrite strip_prefix_app. simpl take_type_chars. rewrite Ec. discriminate.
    + refine (IH (pre +:+ "fdm_filament_" +:+ String c post) _ c post eq_refl).
      revert Hm.
      change (String a pre +:+ "fdm_filament_" +:+ String c post)
        with (String a (pre +:+ "fdm_filament_" +:+ String c post)).
      cbn [match_fdm_filament].
      destruct (strip_prefix _ _) as [rest|]; [|tauto].
      destruct (take_type_chars rest); [tauto|discriminate].
  - induction s as [|a s IH]; intros H; [reflexivity|].
    assert (Hs : match_fdm_filament s = None).
    { apply IH. intros pre c post ->. apply (H (String a pre) c post). reflexivity. }
    cbn [match_fdm_filament].
    destruct (strip_prefix "fdm_filament_" (String a s)) as [rest|] eqn:E; [|exact Hs].
    destruct (take_type_chars rest) as [|c g] eqn:Et; [exact Hs|].
    apply take_type_chars_cons in Et as [r [-> Hc]].
    apply strip_prefix_Some in E.
    rewrite (H "" c r) in Hc; [discriminate|]. exact E.
Qed.

Lemma toUpperCase_nonempty (t : string) : t <> "" -> toUpperCase t <> "".
Proof. destruct t; [contradiction|discriminate]. Qed.

Lemma synthesizedType_unfold (profile : JSValue) (s : string) :
  Spec.lacksType profile -> Spec.inheritanceName profile s ->
  synthesizedType profile =
    Ok (or_else (JStr (match match_fdm_filament (toLowerCase s) with
                       | None => ""
                       | Some m1 => toUpperCase m1
                       end)) (JStr "CUSTOM")).
Proof.
  unfold Spec.lacksType, Spec.inheritanceName, synthesizedType, deriveTypeFromInherits.
  intros -> ->. simpl. now destruct (match_fdm_filament (toLowerCase s)).
Qed.

(** C6. When the notes are synthesized for a preset without a
    filament type, an inheritance name of the shape fdm_filament_<type>
    (up to case, <type> a non-empty run of letters, digits and underscores)
    gives the upper-cased <type>; a name in which fdm_filament_ followed by
    such a character occurs nowhere gives CUSTOM; the type is the one written
    into the notes, and the preset inheriting fdm_filament_petg with vendor
    Acme gets type PETG and the id of Acme|PETG|<name>. *)
Theorem C6_type_from_fdm_pattern :
  (forall profile s t,
      Spec.lacksType profile -> Spec.inheritanceName profile s ->
      Spec.fdm_shape s t ->
      synthesizedType profile = Ok (JStr (toUpperCase t)))
  /\ (forall profile s,
        Spec.lacksType profile -> Spec.inheritanceName profile s ->
        Spec.no_fdm_occurrence (toLowerCase s) ->
        synthesizedType profile = Ok (JStr "CUSTOM"))
  /\ (forall o ty,
        synthesizedType (JObj o) = Ok ty ->
        forall p', autoGenerateNotes (JObj o) = Ok p' ->
        exists id vendor name,
          get p' "filament_notes" =
            JArr [stringify_value
                    (JObj [("id", JStr id); ("vendor", vendor);
                           ("type", ty); ("name", name)])])
  /\ synthesizedType Sample.acmePetg = Ok (JStr "PETG")
  /\ get (match autoGenerateNotes Sample.acmePetg with Ok p' => p' | Throw _ => JNull end)
         "filament_notes" =
       JArr [stringify_value
               (JObj [("id", JStr (stableFiveDigitId (idKey "Acme" "PETG" "Tough")));
                      ("vendor", JStr "Acme"); ("type", JStr "PETG");
                      ("name", JStr "Tough")])].
Proof.
  split; [|split; [|split; [|split]]].
  - intros profile s t Hl Hi [Hs [Hne Hall]].
    rewrite (synthesizedType_unfold _ _ Hl Hi), Hs, match_at_start by assumption.
    unfold or_else. simpl truthy.
    destruct (String.eqb_spec (toUpperCase t) "") as [E|_]; [|reflexivity].
    now apply toUpperCase_nonempty in E.
  - intros profile s Hl Hi Hno.
    rewrite (synthesizedType_unfold _ _ Hl Hi).
    apply match_none_iff in Hno. now rewrite Hno.
  - intros o ty Hty p'. unfold autoGenerateNotes. rewrite Hty. cbn [bind].
    destruct (ToString (or_else _ (JStr "Custom"))) as [vs|]; [|discriminate].
    destruct (ToString ty) as [ts|]; [|discriminate].
    destruct (ToString (or_else _ (JStr "Custom Filament"))) as [ns|]; [|discriminate].
    cbn [bind]. unfold set_prop. cbn [String.eqb Ascii.eqb Bool.eqb].
    intros [= <-]. do 3 eexists. apply get_set_eq.
  - vm_compute. reflexivity.
  - vm_compute. reflexivity.
Qed.

Lemma C6_witness :
  Spec.lacksType Sample.acmePetg
  /\ Spec.inheritanceName Sample.acmePetg "fdm_filament_petg"
  /\ Spec.fdm_shape "fdm_filament_petg" "petg"
  /\ synthesizedType Sample.acmePetg = Ok (JStr (toUpperCase "petg")).
Proof.
  assert (H1 : Spec.lacksType Sample.acmePetg) by reflexivity.
  assert (H2 : Spec.inheritanceName Sample.acmePetg "fdm_filament_petg") by reflexivity.
  assert (H3 : Spec.fdm_shape "fdm_filament_petg" "petg").
  { split; [reflexivity|]. split; [discriminate|reflexivity]. }
  repeat (split; [assumption|]).
  exact (proj1 C6_type_from_fdm_pattern Sample.acmePetg _ _ H1 H2 H3).
Defined.

(** C6, the general reading: [Refuted.any_family_yields_type] does not
    hold.  The name sla_filament_resin has the shape <family>_filament_<type>
    and yields CUSTOM, not RESIN. *)
Lemma C6_counterexample : ~ Refuted.any_family_yields_type.
Proof.
  intros H.
  specialize (H "sla" "resin" Sample.resinPreset).
  assert (E : synthesizedType Sample.resinPreset = Ok (JStr "CUSTOM")) by reflexivity.
  rewrite E in H.
  discriminate H; (reflexivity || discriminate).
Qed.

End TypeExtraction.

(** *** The profile filter *)

Section Filter.
Import Config.

Lemma notesLooksEmpty_false (s : string) :
  notesLooksEmpty s = false <-> trim s <> "" /\ trim s <> empty_quotes.
Proof.
  unfold notesLooksEmpty. rewrite orb_false_iff.
  split; intros [H1 H2].
  - split; intros E; rewrite E in *; discriminate.
  - split; [destruct (String.eqb_spec (trim s) "") | destruct (String.eqb_spec (trim s) empty_quotes)];
      congruence.
Qed.

Lemma hasRequiredNotes_true (p : JSValue) :
  hasRequiredNotes p = Ok true <-> Spec.parseableNotes p.
Proof.
  unfold hasRequiredNotes, Spec.parseableNotes. split.
  - destruct (getNotesString p) as [s|]; [|discriminate]. cbn [bind].
    destruct (notesLooksEmpty s) eqn:E; [discriminate|].
    apply notesLooksEmpty_false in E as [E1 E2].
    destruct (JSON_parse s) as [v|] eqn:Ev; [|discriminate].
    intros _. exists s, v. auto.
  - intros [s [v [-> [E1 [E2 Ev]]]]]. cbn [bind].
    assert (E : notesLooksEmpty s = false) by now apply notesLooksEmpty_false.
    now rewrite E, Ev.
Qed.

Lemma filter_loop_keeps (loaded : list JSValue) :
  forall filtered kept,
    filter_loop loaded filtered = Ok kept ->
    Forall Spec.parseableNotes filtered ->
    Forall Spec.parseableNotes kept.
Proof.
  induction loaded as [|p rest IH]; intros filtered kept; simpl.
  - now intros [= <-].
  - intros H Hf.
    apply bind_Ok in H as [ok [Hok H]].
    destruct ok.
    + apply (IH _ _ H). apply Forall_app. split; [exact Hf|].
      constructor; [|constructor]. now apply hasRequiredNotes_true.
    + apply bind_Ok in H as [p' [Hp' H]].
      apply bind_Ok in H as [ok' [Hok' H]].
      destruct ok'.
      * apply (IH _ _ H). apply Forall_app. split; [exact Hf|].
        constructor; [|constructor]. now apply hasRequiredNotes_true.
      * now apply (IH _ _ H).
Qed.

(** C5. Every preset kept by the profile filter carries notes
    whose text is non-empty after trimming, is not the pair of quotes, and
    parses as JSON.  (The parsed value need not have a vendor, type or name.) *)
Theorem C5_filter_keeps_parseable_notes :
  forall loaded kept p,
    filterProfiles loaded = Ok kept ->
    In p kept ->
    Spec.parseableNotes p.
Proof.
  intros loaded kept p H Hin.
  assert (Hall : Forall Spec.parseableNotes kept).
  { unfold filterProfiles in H. destruct loaded as [|q rest]; [discriminate|].
    apply (filter_loop_keeps _ _ _ H). constructor. }
  rewrite List.Forall_forall in Hall. now apply Hall.
Qed.

Lemma C5_witness :
  filterProfiles [Sample.notesOnlyBraces] = Ok [Sample.notesOnlyBraces]
  /\ In Sample.notesOnlyBraces [Sample.notesOnlyBraces]
  /\ Spec.parseableNotes Sample.notesOnlyBraces.
Proof.
  assert (H1 : filterProfiles [Sample.notesOnlyBraces] = Ok [Sample.notesOnlyBraces])
    by reflexivity.
  assert (H2 : In Sample.notesOnlyBraces [Sample.notesOnlyBraces]) by (left; reflexivity).
  split; [exact H1|]. split; [exact H2|].
  exact (C5_filter_keeps_parseable_notes _ _ _ H1 H2).
Defined.

(** C5, the strong reading: [Refuted.filter_keeps_complete_notes] does not
    hold.  A preset whose notes are the text {} passes the filter, and its
    parsed notes have no vendor. *)
Lemma C5_counterexample : ~ Refuted.filter_keeps_complete_notes.
Proof.
  intros H.
  destruct (H [Sample.notesOnlyBraces] [Sample.notesOnlyBraces] Sample.notesOnlyBraces
              eq_refl (or_introl eq_refl))
    as [s [v [Hs [_ [Hv [Hvendor _]]]]]].
  vm_compute in Hs. injection Hs as <-.
  vm_compute in Hv. injection Hv as <-.
  discriminate Hvendor.
Qed.

End Filter.

(** *** Expansion of a truncated preset *)

Section Expansion.
Import BaseFix.

Lemma obj_get_None (o : obj) (k : string) :
  obj_get o k = None <-> ~ In k (obj_keys o).
Proof.
  induction o as [|[k' v] o IH]; simpl; [tauto|].
  destruct (String.eqb_spec k' k) as [->|Hne].
  - split; [discriminate|]. intros H. exfalso. apply H. now left.
  - rewrite IH. split; [intros H [E|E]; tauto | tauto].
Qed.

Lemma obj_keys_set (o : obj) (k : string) (v : JSValue) :
  obj_keys (obj_set o k v) =
    match obj_get o k with
    | Some _ => obj_keys o
    | None => (obj_keys o ++ [k])%list
    end.
Proof.
  induction o as [|[k' v'] o IH]; simpl; [reflexivity|].
  destruct (String.eqb_spec k' k) as [->|Hne]; simpl; [reflexivity|].
  rewrite IH. now destruct (obj_get o k).
Qed.

Lemma obj_set_NoDup (o : obj) (k : string) (v : JSValue) :
  List.NoDup (obj_keys o) -> List.NoDup (obj_keys (obj_set o k v)).
Proof.
  intros H. rewrite obj_keys_set.
  destruct (obj_get o k) eqn:E; [exact H|].
  apply obj_get_None in E.
  apply List.NoDup_rev in H. rewrite <- (List.rev_involutive (_ ++ _)).
  apply List.NoDup_rev. rewrite List.rev_app_distr. simpl.
  constructor; [|exact H]. now rewrite <- List.in_rev.
Qed.

Lemma normalize_entry_obj (o : obj) (k : string) (v out' : JSValue) :
  normalize_entry (JObj o) (k, v) = Ok out' ->
  List.NoDup (obj_keys o) ->
  exists o1, out' = JObj o1 /\ List.NoDup (obj_keys o1).
Proof.
  intros Hout Hnd.
  assert (Hset : forall x, set_prop (JObj o) k x = Ok out' ->
                 exists o1, out' = JObj o1 /\ List.NoDup (obj_keys o1)).
  { intros x Hx. apply set_prop_Ok_obj in Hx as [_ ->].
    eexists. split; [reflexivity|now apply obj_set_NoDup]. }
  unfold normalize_entry in Hout.
  destruct v;
    try (destruct (is_string_key k);
         apply bind_Ok in Hout as [str [_ Hout]]; exact (Hset _ Hout)).
  - injection Hout as <-. eauto.
  - exact (Hset _ Hout).
Qed.

(* the objects built by normalizePresetValues *)
Lemma normalize_loop_obj (es : list (string * JSValue)) :
  forall o r,
    normalize_loop es (JObj o) = Ok r ->
    List.NoDup (obj_keys o) ->
    exists o', r = JObj o' /\ List.NoDup (obj_keys o').
Proof.
  induction es as [|[k v] es IH]; intros o r; cbn [normalize_loop].
  - intros [= <-] H. eauto.
  - intros H Hnd. apply bind_Ok in H as [out' [Hout H]].
    destruct (normalize_entry_obj _ _ _ _ Hout Hnd) as [o1 [-> Hnd1]].
    now apply (IH _ _ H).
Qed.

Lemma normalizePresetValues_obj (preset r : JSValue) :
  normalizePresetValues preset = Ok r ->
  exists o, r = JObj o /\ List.NoDup (obj_keys o).
Proof.
  unfold normalizePresetValues. intros H.
  apply (normalize_loop_obj _ _ _ H). constructor.
Qed.

Lemma assign_loop_spec (es : list (string * JSValue)) :
  forall t r,
    assign_loop (JObj t) es = Ok r ->
    List.NoDup (obj_keys es) ->
    exists t', r = JObj t'
      /\ forall k, obj_get t' k =
           match obj_get es k with
           | Some v => Some v
           | None => obj_get t k
           end.
Proof.
  induction es as [|[k0 v0] es IH]; intros t r; simpl.
  - intros [= <-] _. eauto.
  - intros H Hnd. apply bind_Ok in H as [t1 [Hset H]].
    apply set_prop_Ok_obj in Hset as [_ ->].
    inversion Hnd as [|? ? Hnotin Hnd']; subst.
    destruct (IH _ _ H Hnd') as [t' [-> Hget]].
    exists t'. split; [reflexivity|]. intros k. rewrite Hget.
    destruct (String.eqb_spec k0 k) as [->|Hne].
    + apply obj_get_None in Hnotin. rewrite Hnotin. apply obj_get_set_eq.
    + destruct (obj_get es k); [reflexivity|]. now apply obj_get_set_ne.
Qed.

Lemma merge_spec (r b u : obj) (merged : JSValue) :
  List.NoDup (obj_keys r) -> List.NoDup (obj_keys b) -> List.NoDup (obj_keys u) ->
  merge (JObj r) (JObj b) (JObj u) = Ok merged ->
  forall k, Spec.own merged k = Spec.layered (JObj r) (JObj b) (JObj u) k.
Proof.
  intros Hr Hb Hu H k. unfold merge, assign in H. cbn [Object_entries] in H.
  apply bind_Ok in H as [m1 [H1 H]]. apply bind_Ok in H as [m2 [H2 H]].
  destruct (assign_loop_spec _ _ _ H1 Hr) as [t1 [-> G1]].
  destruct (assign_loop_spec _ _ _ H2 Hb) as [t2 [-> G2]].
  destruct (assign_loop_spec _ _ _ H Hu) as [t3 [-> G3]].
  unfold Spec.layered, Spec.own. rewrite G3, G2, G1. simpl.
  now destruct (obj_get u k), (obj_get b k), (obj_get r k).
Qed.

Lemma merge_obj (rootN baseN userN merged : JSValue) :
  merge rootN baseN userN = Ok merged -> exists m, merged = JObj m.
Proof.
  unfold merge, assign. intros H.
  apply bind_Ok in H as [m1 [H1 H]]. apply bind_Ok in H as [m2 [H2 H]].
  cbn [Object_entries] in H1.
  assert (G : forall es t r, assign_loop (JObj t) es = Ok r -> exists t', r = JObj t').
  { induction es as [|[k0 v0] es IH]; intros t r; simpl.
    - intros [= <-]. eauto.
    - intros G. apply bind_Ok in G as [t1 [Hset G]].
      apply set_prop_Ok_obj in Hset as [_ ->]. eauto. }
  destruct (G _ _ _ H1) as [t1 ->].
  destruct (G _ _ _ H2) as [t2 ->].
  exact (G _ _ _ H).
Qed.

Lemma forceInherits_spec (rootName : option string) (m : obj) (r : JSValue) :
  forceInherits rootName (JObj m) = Ok r ->
  exists m', r = JObj m'
    /\ (forall n, rootName = Some n -> n <> "" -> obj_get m' "inherits" = Some (JStr n))
    /\ (forall k, k <> "inherits" -> obj_get m' k = obj_get m k).
Proof.
  unfold forceInherits. destruct rootName as [n|].
  - destruct (String.eqb_spec n "") as [->|Hne].
    + intros [= <-]. exists m. split; [reflexivity|]. split; [|reflexivity].
      intros n [= <-] H. contradiction.
    + intros H. apply set_prop_Ok_obj in H as [_ ->].
      eexists. split; [reflexivity|]. split.
      * intros n' [= <-] _. apply obj_get_set_eq.
      * intros k Hk. apply obj_get_set_ne. congruence.
  - intros [= <-]. exists m. split; [reflexivity|]. split; [discriminate|reflexivity].
Qed.

Lemma ensureName_spec (fname : string) (m : obj) (r : JSValue) :
  ensureName fname (JObj m) = Ok r ->
  exists m', r = JObj m' /\ forall k, k <> "name" -> obj_get m' k = obj_get m k.
Proof.
  unfold ensureName.
  destruct (negb _ || negb _).
  - intros H. apply set_prop_Ok_obj in H as [_ ->].
    eexists. split; [reflexivity|]. intros k Hk. apply obj_get_set_ne. congruence.
  - intros [= <-]. eauto.
Qed.

Lemma expand_spec (fname : string) (rootName : option string)
    (rootPreset basePreset userPreset final : JSValue) :
  expand fname rootName rootPreset basePreset userPreset = Ok final ->
  exists rootN baseN userN merged,
    normalizePresetValues rootPreset = Ok rootN
    /\ normalizePresetValues basePreset = Ok baseN
    /\ normalizePresetValues userPreset = Ok userN
    /\ merge rootN baseN userN = Ok merged
    /\ (forall k, Spec.own merged k = Spec.layered rootN baseN userN k)
    /\ (forall n, rootName = Some n -> n <> "" -> get final "inherits" = JStr n)
    /\ (forall k, k <> "inherits" -> k <> "name" -> Spec.own final k = Spec.own merged k).
Proof.
  unfold expand. intros H.
  apply bind_Ok in H as [rootN [Hr H]]. apply bind_Ok in H as [baseN [Hb H]].
  apply bind_Ok in H as [userN [Hu H]]. apply bind_Ok in H as [merged [Hm H]].
  apply bind_Ok in H as [merged1 [Hf He]].
  exists rootN, baseN, userN, merged. repeat (split; [assumption|]).
  destruct (normalizePresetValues_obj _ _ Hr) as [r [-> Nr]].
  destruct (normalizePresetValues_obj _ _ Hb) as [b [-> Nb]].
  destruct (normalizePresetValues_obj _ _ Hu) as [u [-> Nu]].
  split; [now apply merge_spec|].
  destruct (merge_obj _ _ _ _ Hm) as [m ->].
  destruct (forceInherits_spec _ _ _ Hf) as [m1 [-> [Hin Hother]]].
  destruct (ensureName_spec _ _ _ He) as [m2 [-> Hother2]].
  split.
  - intros n Hn Hne. simpl. rewrite Hother2 by discriminate.
    now rewrite (Hin n Hn Hne).
  - intros k Hk1 Hk2. simpl. rewrite Hother2, Hother by assumption. reflexivity.
Qed.

Lemma loadRoot_name (env : Env) (basePreset : JSValue) :
  fst (fst (loadRoot env basePreset)) = inheritsName basePreset.
Proof.
  unfold loadRoot. destruct (inheritsName basePreset) as [n|]; [|reflexivity].
  destruct (String.eqb n ""); [reflexivity|].
  destruct (findSystemPresetPathByName env n); [|reflexivity].
  now destruct (readJson env s).
Qed.

(** C1. When a preset file is expanded, the three layers are normalized and
    merged so that every key of the merge has the value of the user layer if
    the user layer has the key, else that of the system layer, else that of
    the root layer; after the merge, inherits is the name under which the
    system template inherits whenever that name is a non-empty string, and
    the keys other than inherits and name keep their merged values. *)
Theorem C1_merge_precedence :
  forall env fname outPath final w,
    processPreset env fname = Ok (Wrote outPath final w) ->
    exists userPreset basePath basePreset rootPreset rootN baseN userN merged,
      readJson env (srcPathOf env fname) = Ok userPreset
      /\ findSystemPresetPathByName env (default "" (inheritsName userPreset))
           = Some basePath
      /\ readJson env basePath = Ok basePreset
      /\ fst (loadRoot env basePreset) = (inheritsName basePreset, rootPreset)
      /\ normalizePresetValues rootPreset = Ok rootN
      /\ normalizePresetValues basePreset = Ok baseN
      /\ normalizePresetValues userPreset = Ok userN
      /\ merge rootN baseN userN = Ok merged
      /\ (forall k, Spec.own merged k = Spec.layered rootN baseN userN k)
      /\ (forall n, inheritsName basePreset = Some n -> n <> "" ->
                    get final "inherits" = JStr n)
      /\ (forall k, k <> "inherits" -> k <> "name" ->
                    Spec.own final k = Spec.own merged k).
Proof.
  intros env fname outPath final w. unfold processPreset.
  destruct (readJson env (srcPathOf env fname)) as [userPreset|] eqn:Hu; [|discriminate].
  destruct (negb (looksLikeTruncatedUserPreset userPreset)); [discriminate|].
  destruct (isFile env _ && negb (FORCE env)); [discriminate|].
  destruct (findSystemPresetPathByName env _) as [basePath|] eqn:Hp0; [|discriminate].
  destruct (readJson env basePath) as [basePreset|] eqn:Hb; [|discriminate].
  pose proof (loadRoot_name env basePreset) as Hname.
  destruct (loadRoot env basePreset) as [[rootName rootPreset] w0] eqn:Hroot.
  simpl in Hname.
  intros H. apply bind_Ok in H as [merged' [Hexp H]].
  destruct (writeSucceeds env _); [|discriminate].
  injection H as <- <- <-.
  destruct (expand_spec _ _ _ _ _ _ Hexp)
    as [rootN [baseN [userN [merged [Hr [Hbn [Hun [Hm [Hp [Hi Ho]]]]]]]]]].
  exists userPreset, basePath, basePreset, rootPreset, rootN, baseN, userN, merged.
  split; [reflexivity|]. split; [exact Hp0|]. split; [exact Hb|].
  split; [rewrite Hroot; simpl; now rewrite Hname|].
  repeat (split; [assumption|]).
  split; [|exact Ho]. intros n Hn. apply Hi. congruence.
Qed.

Lemma C1_witness :
  exists final,
    processPreset Sample.env "u.json" = Ok (Wrote "base/u.json" final 1)
    /\ get final "inherits" = JStr "fdm_filament_petg"
    /\ Spec.own final "nozzle_temperature" = Some (JArr [JStr "250"])
    /\ Spec.own final "fan" = Some (JArr [JStr "1"])
    /\ Spec.own final "bed" = Some (JArr [JStr "70"]).
Proof.
  destruct (processPreset Sample.env "u.json") as [[|outPath final w]|] eqn:E;
    try (vm_compute in E; discriminate E).
  assert (E' := E). vm_compute in E'. injection E' as Ep Ef Ew.
  exists final. rewrite <- Ep, <- Ew.
  destruct (C1_merge_precedence _ _ _ _ _ E) as (u & bp & b & r & rn & bn & un & m & _).
  split; [reflexivity|]. rewrite <- Ef. repeat split; reflexivity.
Defined.

End Expansion.

(** *** Reconciliation: the list *)

Section Upsert.
Import DatabaseTool Reconcile.

Lemma findById_ids (l l' : list JSValue) (id : string) :
  ids l = ids l' -> findById l id = findById l' id.
Proof.
  revert l'. induction l as [|m l IH]; intros [|m' l']; simpl; try discriminate;
    [reflexivity|].
  intros [= Hm Hl]. rewrite Hm. destruct (entryId m') as [k|]; [|reflexivity].
  cbn [bind]. destruct (String.eqb k id); [reflexivity|].
  now rewrite (IH _ Hl).
Qed.

Lemma findById_Some (l : list JSValue) (id : string) (i : nat) :
  findById l id = Ok (Some i) ->
  exists e, l !! i = Some e /\ entryId e = Ok id.
Proof.
  revert i. induction l as [|m l IH]; intros i; simpl; [discriminate|].
  intros H. apply bind_Ok in H as [k [Hk H]].
  destruct (String.eqb_spec k id) as [->|Hne].
  - injection H as <-. exists m. auto.
  - apply bind_Ok in H as [r [Hr H]]. destruct r as [j|]; [|discriminate].
    injection H as <-. exact (IH _ Hr).
Qed.

Lemma findById_Some_before (l : list JSValue) (id : string) (i : nat) :
  findById l id = Ok (Some i) ->
  forall j e, (j < i)%nat -> l !! j = Some e -> exists k, entryId e = Ok k /\ k <> id.
Proof.
  revert i. induction l as [|m l IH]; intros i; simpl; [discriminate|].
  intros H. apply bind_Ok in H as [k [Hk H]].
  destruct (String.eqb_spec k id) as [->|Hne].
  - injection H as <-. intros j e Hj. lia.
  - apply bind_Ok in H as [r [Hr H]]. destruct r as [i'|]; [|discriminate].
    injection H as <-. intros [|j] e Hj; simpl.
    + intros [= <-]. eauto.
    + apply (IH _ Hr). lia.
Qed.

Lemma findById_None (l : list JSValue) (id : string) :
  findById l id = Ok None <->
  forall e, In e l -> exists k, entryId e = Ok k /\ k <> id.
Proof.
  induction l as [|m l IH]; simpl.
  - split; [intros _ e []|reflexivity].
  - split.
    + intros H. apply bind_Ok in H as [k [Hk H]].
      destruct (String.eqb_spec k id) as [->|Hne]; [discriminate|].
      apply bind_Ok in H as [r [Hr H]]. destruct r; [discriminate|].
      intros e [<-|He]; [eauto|]. now apply IH.
    + intros H. destruct (H m (or_introl eq_refl)) as [k [Hk Hne]].
      rewrite Hk. cbn [bind].
      destruct (String.eqb_spec k id); [contradiction|].
      assert (Hl : findById l id = Ok None) by (apply IH; intros e He; apply H; now right).
      now rewrite Hl.
Qed.

Lemma findById_app_Some (l l2 : list JSValue) (id : string) (i : nat) :
  findById l id = Ok (Some i) -> findById (l ++ l2) id = Ok (Some i).
Proof.
  revert i. induction l as [|m l IH]; intros i; simpl; [discriminate|].
  intros H. apply bind_Ok in H as [k [Hk H]]. rewrite Hk. cbn [bind].
  destruct (String.eqb k id); [exact H|].
  apply bind_Ok in H as [r [Hr H]]. destruct r as [j|]; [|discriminate].
  now rewrite (IH _ Hr).
Qed.

Lemma findById_snoc_None (l : list JSValue) (m : JSValue) (id k : string) :
  findById l id = Ok None -> entryId m = Ok k ->
  findById (l ++ [m]) id =
    Ok (if String.eqb k id then Some (length l) else None).
Proof.
  intros H Hm. induction l as [|m0 l IH]; simpl.
  - rewrite Hm. cbn [bind]. now destruct (String.eqb k id).
  - simpl in H. apply bind_Ok in H as [k0 [Hk0 H]]. rewrite Hk0. cbn [bind].
    destruct (String.eqb k0 id); [discriminate|].
    apply bind_Ok in H as [r [Hr H]]. destruct r; [discriminate|].
    rewrite (IH Hr). cbn [bind]. now destruct (String.eqb k id).
Qed.

Lemma ids_insert (l : list JSValue) (i : nat) (m e : JSValue) :
  l !! i = Some e -> entryId m = entryId e -> ids (<[i:=m]> l) = ids l.
Proof.
  intros Hl Hm. unfold ids.
  change (map entryId (<[i:=m]> l)) with (entryId <$> <[i:=m]> l).
  rewrite list_fmap_insert, Hm. apply list_insert_id.
  now rewrite list_lookup_fmap, Hl.
Qed.

(* the two ways an upsert can succeed *)
Lemma upsert_Ok (l l' : list JSValue) (w : write) :
  upsert l w = Ok l' ->
  (exists i, findById l (fst w) = Ok (Some i) /\ l' = <[i := snd w]> l)
  \/ (findById l (fst w) = Ok None /\ l' = (l ++ [snd w])%list).
Proof.
  unfold upsert. intros H. apply bind_Ok in H as [idx [Hidx H]].
  destruct idx as [i|]; injection H as <-; eauto.
Qed.

Lemma upsert_found (l : list JSValue) (w : write) (i : nat) :
  findById l (fst w) = Ok (Some i) -> upsert l w = Ok (<[i := snd w]> l).
Proof. unfold upsert. now intros ->. Qed.

Lemma upsert_missing (l : list JSValue) (w : write) :
  findById l (fst w) = Ok None -> upsert l w = Ok (l ++ [snd w])%list.
Proof. unfold upsert. now intros ->. Qed.

Lemma ids_replace (l : list JSValue) (w : write) (i : nat) :
  wf_write w -> findById l (fst w) = Ok (Some i) -> ids (<[i := snd w]> l) = ids l.
Proof.
  intros Hw Hf. destruct (findById_Some _ _ _ Hf) as [e [He Hk]].
  apply (ids_insert _ _ _ e He). now rewrite Hk.
Qed.

Lemma run_snoc (ws : list write) (w : write) (l : list JSValue) :
  run (ws ++ [w]) l = let* l' := run ws l in upsert l' w.
Proof.
  revert l. induction ws as [|w0 ws IH]; intros l; simpl.
  - now destruct (upsert l w).
  - destruct (upsert l w0) as [l0|]; [|reflexivity]. cbn [bind]. apply IH.
Qed.

Lemma upsert_length (l l' : list JSValue) (w : write) :
  upsert l w = Ok l' -> (length l <= length l')%nat.
Proof.
  intros H. apply upsert_Ok in H as [[i [_ ->]]|[_ ->]].
  - now rewrite length_insert.
  - rewrite length_app. lia.
Qed.

Lemma run_length (ws : list write) :
  forall l l', run ws l = Ok l' -> (length l <= length l')%nat.
Proof.
  induction ws as [|w ws IH]; intros l l'; simpl.
  - now intros [= <-].
  - intros H. apply bind_Ok in H as [l0 [H0 H]].
    apply upsert_length in H0. apply IH in H. lia.
Qed.

(* a replacement made before the run is overwritten or survives *)
Lemma run_after_replace (ws : list write) :
  Forall wf_write ws ->
  forall l lr i m id,
    run ws l = Ok lr ->
    findById l id = Ok (Some i) -> entryId m = Ok id ->
    exists l2,
      run ws (<[i:=m]> l) = Ok l2
      /\ <[i:=m]> l2 = <[i:=m]> lr
      /\ ids l2 = ids lr.
Proof.
  induction 1 as [|w ws Hw _ IH]; intros l lr i m id Hrun Hf Hm; simpl in *.
  - injection Hrun as <-. exists (<[i:=m]> l).
    split; [reflexivity|]. split; [apply list_insert_insert_eq|].
    destruct (findById_Some _ _ _ Hf) as [e [He Hk]].
    apply (ids_insert _ _ _ e He). now rewrite Hk.
  - apply bind_Ok in Hrun as [la [Hup Hrun]].
    destruct (findById_Some _ _ _ Hf) as [e [He Hk]].
    assert (Hids : ids (<[i:=m]> l) = ids l)
      by (apply (ids_insert _ _ _ e He); now rewrite Hk).
    apply upsert_Ok in Hup as [[j [Hj ->]]|[Hnone ->]].
    + (* the write replaces the entry at j *)
      rewrite (upsert_found _ _ j) by (now rewrite (findById_ids _ _ _ Hids)).
      cbn [bind].
      destruct (Nat.eq_dec j i) as [->|Hji].
      * rewrite list_insert_insert_eq. exists lr.
        split; [exact Hrun|]. split; reflexivity.
      * rewrite list_insert_insert_ne by exact Hji.
        apply (IH _ _ _ _ id Hrun); [|exact Hm].
        rewrite (findById_ids _ l); [exact Hf|]. now apply ids_replace.
    + (* the write appends *)
      rewrite upsert_missing by (now rewrite (findById_ids _ _ _ Hids)).
      cbn [bind].
      rewrite <- insert_app_l by (now apply lookup_lt_Some in He).
      apply (IH _ _ _ _ id Hrun); [|exact Hm].
      now apply findById_app_Some.
Qed.

(* an entry appended before a run without insertions stays last *)
Lemma run_after_append (ws : list write) :
  Forall wf_write ws ->
  forall l lr m id,
    run ws l = Ok lr -> length lr = length l ->
    findById l id = Ok None -> entryId m = Ok id ->
    run ws (l ++ [m]) = Ok (lr ++ [m])%list.
Proof.
  induction 1 as [|w ws Hw _ IH]; intros l lr m id Hrun Hlen Hf Hm; simpl in *.
  - now injection Hrun as <-.
  - apply bind_Ok in Hrun as [la [Hup Hrun]].
    pose proof (run_length _ _ _ Hrun) as Hl2.
    pose proof (upsert_length _ _ _ Hup) as Hl1.
    apply upsert_Ok in Hup as [[j [Hj ->]]|[Hnone ->]].
    + rewrite (upsert_found _ _ j) by (now apply findById_app_Some).
      cbn [bind].
      destruct (findById_Some _ _ _ Hj) as [e [He _]].
      rewrite insert_app_l by (now apply lookup_lt_Some in He).
      apply (IH _ _ _ id Hrun); [now rewrite length_insert| |exact Hm].
      rewrite (findById_ids _ l); [exact Hf|]. now apply ids_replace.
    + rewrite length_app in Hl2. simpl in Hl2. lia.
Qed.

Lemma run_idempotent (ws : list write) :
  Forall wf_write ws ->
  forall l l1, run ws l = Ok l1 -> run ws l1 = Ok l1.
Proof.
  induction ws as [|w ws IH] using rev_ind; intros Hws l l1.
  - simpl. now intros [= <-].
  - apply Forall_app in Hws as [Hws Hw]. inversion Hw as [|? ? Hw' _]; subst.
    rewrite !run_snoc. intros H. apply bind_Ok in H as [l' [Hrun Hup]].
    pose proof (IH Hws _ _ Hrun) as Hfix.
    apply upsert_Ok in Hup as [[i [Hi ->]]|[Hnone ->]].
    + destruct (run_after_replace ws Hws _ _ i (snd w) (fst w) Hfix Hi Hw')
        as [l2 [Hrun2 [Hins Hids]]].
      rewrite Hrun2. cbn [bind].
      rewrite (upsert_found _ _ i) by (now rewrite (findById_ids _ _ _ Hids)).
      now rewrite Hins.
    + rewrite (run_after_append ws Hws _ _ (snd w) (fst w) Hfix eq_refl Hnone Hw').
      cbn [bind].
      rewrite (upsert_found _ _ (length l')).
      * replace (length l') with (length l' + 0)%nat at 1 by lia.
        now rewrite insert_app_r.
      * rewrite (findById_snoc_None _ _ _ (fst w) Hnone Hw').
        now rewrite String.eqb_refl.
Qed.

(* entries whose id no write carries stay where they are *)
Lemma run_frame (ws : list write) :
  forall l lr,
    run ws l = Ok lr ->
    forall j e,
      l !! j = Some e ->
      (forall w, In w ws -> entryId e <> Ok (fst w)) ->
      lr !! j = Some e.
Proof.
  induction ws as [|w ws IH]; intros l lr; simpl.
  - now intros [= <-].
  - intros H j e He Hno. apply bind_Ok in H as [la [Hup Hrun]].
    apply (IH _ _ Hrun); [|intros w' Hw'; apply Hno; now right].
    apply upsert_Ok in Hup as [[i [Hi ->]]|[_ ->]].
    + destruct (findById_Some _ _ _ Hi) as [e' [He' Hk]].
      rewrite list_lookup_insert_ne; [exact He|].
      intros ->. rewrite He in He'. injection He' as <-.
      exact (Hno w (or_introl eq_refl) Hk).
    + now apply lookup_app_l_Some.
Qed.

Lemma upsert_NoDup (l l' : list JSValue) (w : write) :
  wf_write w -> upsert l w = Ok l' ->
  List.NoDup (ids l) -> List.NoDup (ids l').
Proof.
  intros Hw H Hnd. apply upsert_Ok in H as [[i [Hi ->]]|[Hnone ->]].
  - now rewrite ids_replace.
  - unfold ids. rewrite map_app. simpl. fold (ids l).
    apply List.NoDup_rev in Hnd. rewrite <- (List.rev_involutive (_ ++ _)).
    apply List.NoDup_rev. rewrite List.rev_app_distr. simpl.
    constructor; [|exact Hnd]. rewrite <- List.in_rev.
    unfold ids. rewrite in_map_iff. intros [e [Hk He]].
    destruct (proj1 (findById_None _ _) Hnone e He) as [k [Hk' Hne]].
    rewrite Hw in Hk. congruence.
Qed.

Lemma run_NoDup (ws : list write) :
  Forall wf_write ws ->
  forall l lr, run ws l = Ok lr -> List.NoDup (ids l) -> List.NoDup (ids lr).
Proof.
  induction 1 as [|w ws Hw _ IH]; intros l lr; simpl.
  - now intros [= <-].
  - intros H Hnd. apply bind_Ok in H as [la [Hup Hrun]].
    apply (IH _ _ Hrun). exact (upsert_NoDup _ _ _ Hw Hup Hnd).
Qed.

Lemma occurrences_insert (id : string) (m e : JSValue) :
  entryId m = entryId e ->
  forall l i, l !! i = Some e -> occurrences id (<[i:=m]> l) = occurrences id l.
Proof.
  intros Hm. unfold occurrences.
  induction l as [|x l IH]; intros [|i]; simpl; try discriminate.
  - intros [= ->].
    assert (Hh : hasId id m = hasId id e) by (unfold hasId; now rewrite Hm).
    rewrite Hh. now destruct (hasId id e).
  - intros H. specialize (IH _ H). destruct (hasId id x); simpl; congruence.
Qed.

Lemma occurrences_snoc (id : string) (l : list JSValue) (m : JSValue) :
  occurrences id (l ++ [m]) =
    (occurrences id l + if hasId id m then 1 else 0)%nat.
Proof.
  unfold occurrences. rewrite List.filter_app, length_app. simpl.
  now destruct (hasId id m).
Qed.

Lemma occurrences_none (id : string) (l : list JSValue) :
  findById l id = Ok None -> occurrences id l = 0%nat.
Proof.
  intros H. unfold occurrences.
  induction l as [|x l IH]; [reflexivity|].
  assert (Hx : hasId id x = false).
  { destruct (proj1 (findById_None _ _) H x (or_introl eq_refl)) as [k [Hk Hne]].
    unfold hasId. rewrite Hk. destruct (String.eqb_spec k id); [contradiction|reflexivity]. }
  simpl. rewrite Hx. apply IH. apply findById_None. intros e He.
  apply (proj1 (findById_None _ _) H). now right.
Qed.

(* a run never makes a second entry for an id *)
Lemma run_occurrences (ws : list write) :
  Forall wf_write ws ->
  forall l lr id,
    run ws l = Ok lr ->
    (occurrences id lr <= Nat.max 1 (occurrences id l))%nat.
Proof.
  induction 1 as [|w ws Hw _ IH]; intros l lr id; simpl.
  - intros [= <-]. lia.
  - intros H. apply bind_Ok in H as [la [Hup Hrun]].
    specialize (IH _ _ id Hrun).
    apply upsert_Ok in Hup as [[i [Hi ->]]|[Hnone ->]].
    + destruct (findById_Some _ _ _ Hi) as [e [He Hk]].
      rewrite (occurrences_insert id (snd w) e) in IH; [exact IH| |exact He].
      now rewrite Hk.
    + rewrite occurrences_snoc in IH. unfold hasId in IH. rewrite Hw in IH.
      destruct (String.eqb_spec (fst w) id) as [<-|Hne]; [|lia].
      rewrite (occurrences_none _ _ Hnone) in IH. simpl in IH.
      rewrite (occurrences_none _ _ Hnone). lia.
Qed.

End Upsert.

(** *** Reconciliation: materials and presets *)

Section Materials.
Import DatabaseTool Reconcile.

Lemma parse_members_obj (pv : parser) (fuel : nat) :
  forall s acc v r,
    parse_members pv fuel s acc = Some (v, r) -> exists o, v = JObj o.
Proof.
  induction fuel as [|f IH]; intros s acc v r; cbn [parse_members]; [discriminate|].
  destruct (skip_ws s) as [|q r0]; [discriminate|].
  destruct (code q =? 34); [|discriminate].
  destruct (parse_string_body r0 "") as [[k r1]|]; [|discriminate].
  destruct (skip_ws r1) as [|c1 r2]; [discriminate|].
  destruct (Ascii.ascii_dec c1 ":") as [->|Hc];
    [|destruct c1 as [[] [] [] [] [] [] [] []]; try discriminate; contradiction].
  destruct (pv r2) as [[v0 r3]|]; [|discriminate].
  destruct (skip_ws r3) as [|c r4]; [discriminate|].
  destruct (code c =? 44); [apply IH|].
  destruct (code c =? 125); [|discriminate].
  intros [= <- _]. eauto.
Qed.

Lemma JSON_parse_brace (x : string) (v : JSValue) :
  JSON_parse (String "{" x) = Ok v -> exists o, v = JObj o.
Proof.
  unfold JSON_parse.
  destruct (parse_value _ _) as [[v0 r]|] eqn:E; [|discriminate].
  destruct (skip_ws r); [|discriminate]. intros [= <-].
  revert E. cbn [parse_value String.length].
  change (skip_ws (String "{" x)) with (String "{" x).
  change (code "{" =? 123) with true. cbv iota.
  destruct (skip_ws x) as [|c r'] eqn:Ex.
  - apply parse_members_obj.
  - destruct (Ascii.ascii_dec c "}") as [->|Hc].
    + intros [= <- _]. eauto.
    + destruct c as [[] [] [] [] [] [] [] []];
        try apply parse_members_obj; contradiction.
Qed.

Lemma deepClone_obj (t : obj) (v : JSValue) :
  deepClone (JObj t) = Ok v -> exists o, v = JObj o.
Proof.
  unfold deepClone, parse_value_of, stringify_value.
  cbn [JSON_stringify]. cbn [ToString bind].
  apply JSON_parse_brace.
Qed.

Lemma copyProfileKeys_obj (es : list (string * JSValue)) :
  forall o r, copyProfileKeys es (JObj o) = Ok r -> exists o', r = JObj o'.
Proof.
  induction es as [|[k v] es IH]; intros o r; cbn [copyProfileKeys].
  - intros [= <-]. eauto.
  - intros H. apply bind_Ok in H as [m [Hm H]].
    apply set_prop_Ok_obj in Hm as [_ ->]. exact (IH _ _ H).
Qed.

Lemma obj_get_app (a b : obj) (k : string) :
  obj_get (a ++ b)%list k =
    match obj_get a k with
    | Some v => Some v
    | None => obj_get b k
    end.
Proof.
  induction a as [|[k' v'] a IH]; simpl; [reflexivity|].
  now destruct (String.eqb k' k).
Qed.

(* after a sequence of assignments a key holds the value assigned last *)
Lemma set_props_spec (kvs : list (string * JSValue)) :
  forall o r,
    set_props (JObj o) kvs = Ok r ->
    exists o', r = JObj o'
      /\ forall k, obj_get o' k =
           match obj_get (rev kvs) k with
           | Some v => Some v
           | None => obj_get o k
           end.
Proof.
  induction kvs as [|[k0 v0] kvs IH]; intros o r; cbn [set_props].
  - intros [= <-]. eauto.
  - intros H. apply bind_Ok in H as [m [Hm H]].
    apply set_prop_Ok_obj in Hm as [_ ->].
    destruct (IH _ _ H) as [o' [-> Hget]].
    exists o'. split; [reflexivity|]. intros k.
    rewrite Hget. simpl rev. rewrite obj_get_app.
    destruct (obj_get (rev kvs) k); [reflexivity|]. simpl.
    destruct (String.eqb_spec k0 k) as [->|Hne].
    + apply obj_get_set_eq.
    + now apply obj_get_set_ne.
Qed.

(* the identity fields of a material are those of the notes *)
Lemma buildMaterial_fields (tmpl : obj) (p notesObj mat : JSValue) :
  buildMaterialFromProfile tmpl p notesObj = Ok mat ->
  exists id name vendor type,
    ToString (get notesObj "id") = Ok id
    /\ ToString (get notesObj "name") = Ok name
    /\ ToString (get notesObj "vendor") = Ok vendor
    /\ ToString (get notesObj "type") = Ok type
    /\ get mat "id" = JArr [JStr id]
    /\ get mat "name" = JArr [JStr name]
    /\ get mat "filament_vendor" = JArr [JStr vendor]
    /\ get mat "filament_type" = JArr [JStr type].
Proof.
  unfold buildMaterialFromProfile. intros H.
  apply bind_Ok in H as [m0 [H0 H]]. apply bind_Ok in H as [m1 [H1 H]].
  apply bind_Ok in H as [id [Hid H]]. apply bind_Ok in H as [name [Hname H]].
  apply bind_Ok in H as [vendor [Hvendor H]]. apply bind_Ok in H as [type [Htype H]].
  destruct (deepClone_obj _ _ H0) as [o0 ->].
  destruct (copyProfileKeys_obj _ _ _ H1) as [o1 ->].
  destruct (set_props_spec _ _ _ H) as [o' [-> Hget]].
  exists id, name, vendor, type. repeat (split; [assumption|]).
  simpl get. rewrite !Hget. simpl. auto.
Qed.

Lemma entryId_wrapped (m : JSValue) (id : string) :
  get m "id" = JArr [JStr id] -> entryId m = Ok id.
Proof. unfold entryId. now intros ->. Qed.

Lemma writeOf_Some (tmpl : obj) (p : JSValue) (w : write) :
  writeOf tmpl p = Ok (Some w) ->
  wf_write w /\ notesId p (fst w).
Proof.
  unfold writeOf. intros H.
  apply bind_Ok in H as [notesObj [Hn H]].
  destruct (skipsProfile notesObj) eqn:Hs; [discriminate|].
  apply bind_Ok in H as [id [Hid H]]. apply bind_Ok in H as [mat [Hmat H]].
  injection H as <-. split.
  - destruct (buildMaterial_fields _ _ _ _ Hmat) as (id' & ? & ? & ? & Hid' & _ & _ & _ & Hg & _).
    unfold wf_write. simpl. apply entryId_wrapped. congruence.
  - exists notesObj. auto.
Qed.

Lemma writesOf_spec (tmpl : obj) (ps : list JSValue) :
  forall ws,
    writesOf tmpl ps = Ok ws ->
    Forall wf_write ws
    /\ forall w, In w ws -> exists p, In p ps /\ notesId p (fst w).
Proof.
  induction ps as [|p ps IH]; intros ws; cbn [writesOf].
  - intros [= <-]. split; [constructor|intros w []].
  - intros H. apply bind_Ok in H as [w0 [Hw0 H]]. apply bind_Ok in H as [ws0 [Hws0 H]].
    injection H as <-. destruct (IH _ Hws0) as [Hwf Hin].
    destruct w0 as [x|].
    + destruct (writeOf_Some _ _ _ Hw0) as [Hx Hid]. split.
      * now constructor.
      * intros w [<-|Hw]; [exists p; split; [now left|exact Hid]|].
        destruct (Hin _ Hw) as [q [Hq Hqid]]. exists q. split; [now right|exact Hqid].
    + split; [exact Hwf|]. intros w Hw.
      destruct (Hin _ Hw) as [q [Hq Hqid]]. exists q. split; [now right|exact Hqid].
Qed.

Lemma applyProfile_writeOf (tmpl : obj) (l l' : list JSValue) (p : JSValue) :
  applyProfile tmpl l p = Ok l' <->
  exists w, writeOf tmpl p = Ok w
    /\ match w with
       | None => l' = l
       | Some x => upsert l x = Ok l'
       end.
Proof.
  unfold applyProfile, writeOf, upsert.
  destruct (parseNotes p) as [notesObj|]; cbn [bind];
    [|split; [discriminate|intros [w [H _]]; discriminate]].
  destruct (skipsProfile notesObj).
  { split.
    - intros [= <-]. exists None. auto.
    - intros [w [[= <-] ->]]. reflexivity. }
  destruct (ToString (get notesObj "id")) as [id|]; cbn [bind];
    [|split; [discriminate|intros [w [H _]]; discriminate]].
  destruct (buildMaterialFromProfile tmpl p notesObj) as [mat|]; cbn [bind].
  - split.
    + intros H. exists (Some (id, mat)). split; [reflexivity|]. simpl.
      destruct (findById l id) as [[i|]|]; cbn [bind] in *; congruence.
    + intros [w [[= <-] H]]. simpl in H.
      destruct (findById l id) as [[i|]|]; cbn [bind] in *; congruence.
  - split.
    + destruct (findById l id); cbn [bind]; discriminate.
    + intros [w [H _]]; discriminate.
Qed.

Lemma applyProfiles_run (tmpl : obj) (ps : list JSValue) :
  forall l l',
    applyProfiles tmpl ps l = Ok l' <->
    exists ws, writesOf tmpl ps = Ok ws /\ run ws l = Ok l'.
Proof.
  induction ps as [|p ps IH]; intros l l'; cbn [applyProfiles writesOf].
  - split.
    + intros [= <-]. exists []. auto.
    + intros [ws [[= <-] H]]. exact H.
  - split.
    + intros H. apply bind_Ok in H as [la [Ha H]].
      apply applyProfile_writeOf in Ha as [w [Hw Ha]].
      apply IH in H as [ws [Hws Hrun]].
      rewrite Hw, Hws. cbn [bind]. eexists. split; [reflexivity|].
      destruct w as [x|]; [|now subst]. cbn [run]. now rewrite Ha.
    + intros [ws [H Hrun]].
      apply bind_Ok in H as [w [Hw H]]. apply bind_Ok in H as [ws0 [Hws0 H]].
      injection H as <-.
      destruct w as [x|].
      * cbn [run] in Hrun. apply bind_Ok in Hrun as [la [Ha Hrun]].
        assert (Hp : applyProfile tmpl l p = Ok la)
          by (apply applyProfile_writeOf; exists (Some x); auto).
        rewrite Hp. cbn [bind]. apply IH. eauto.
      * assert (Hp : applyProfile tmpl l p = Ok l)
          by (apply applyProfile_writeOf; exists None; auto).
        rewrite Hp. cbn [bind]. apply IH. eauto.
Qed.

End Materials.

(** *** Reconciliation: the database document *)

Section Database.
Import DatabaseTool Reconcile.

Lemma obj_set_same (o : obj) (k : string) (v : JSValue) :
  obj_get o k = Some v -> obj_set o k v = o.
Proof.
  induction o as [|[k' v'] o IH]; simpl; [discriminate|].
  destruct (String.eqb_spec k' k) as [->|Hne].
  - now intros [= ->].
  - intros H. now rewrite IH.
Qed.

Lemma obj_set_set (o : obj) (k : string) (v v' : JSValue) :
  obj_set (obj_set o k v) k v' = obj_set o k v'.
Proof.
  induction o as [|[k0 v0] o IH]; simpl.
  - now rewrite String.eqb_refl.
  - destruct (String.eqb_spec k0 k) as [->|Hne]; simpl.
    + now rewrite String.eqb_refl.
    + destruct (String.eqb_spec k0 k); [contradiction|]. now rewrite IH.
Qed.

Lemma getList_Ok (dbObj : JSValue) (lst : list JSValue) :
  getList dbObj = Ok lst <->
  exists o r, dbObj = JObj o
    /\ obj_get o "result" = Some (JObj r)
    /\ obj_get r "list" = Some (JArr lst).
Proof.
  unfold getList. split.
  - destruct dbObj as [| | | | | | |o]; simpl; try discriminate.
    destruct (obj_get o "result") as [[| | | | | | |r]|] eqn:Er; simpl; try discriminate.
    destruct (obj_get r "list") as [[| | | | | |l|]|] eqn:El; simpl; try discriminate.
    intros [= <-]. eauto.
  - intros [o [r [-> [Hr Hl]]]]. simpl. rewrite Hr. simpl. now rewrite Hl.
Qed.

Lemma getList_isArray (dbObj : JSValue) :
  (exists lst, getList dbObj = Ok lst) <-> isArray (Spec.listAt dbObj) = true.
Proof.
  unfold getList, Spec.listAt. split.
  - intros [lst H]. now destruct (get (get dbObj "result") "list").
  - destruct (get (get dbObj "result") "list"); try discriminate. eauto.
Qed.

Lemma addToDatabase_Ok (tmpl : obj) (dbObj : JSValue) (ps : list JSValue)
    (now : string) (out : JSValue) :
  addToDatabase tmpl dbObj ps now = Ok out <->
  exists o r lst lst',
    dbObj = JObj o
    /\ obj_get o "result" = Some (JObj r)
    /\ obj_get r "list" = Some (JArr lst)
    /\ ToNumber_effect (coalesce (get (JObj r) "count")
                          (JNum (Z.of_nat (length lst)))) = Ok tt
    /\ applyProfiles tmpl ps lst = Ok lst'
    /\ out = written o r lst' now.
Proof.
  unfold addToDatabase. split.
  - intros H. apply bind_Ok in H as [lst [Hl H]].
    apply getList_Ok in Hl as [o [r [-> [Hr Hl]]]].
    assert (Hres : get (JObj o) "result" = JObj r) by (simpl; now rewrite Hr).
    rewrite Hres in H.
    apply bind_Ok in H as [[] [Hn H]]. apply bind_Ok in H as [lst' [Hp H]].
    exists o, r, lst, lst'. repeat (split; [assumption || reflexivity|]).
    cbn [set_props set_prop String.eqb Ascii.eqb Bool.eqb bind] in H.
    now injection H as <-.
  - intros (o & r & lst & lst' & -> & Hr & Hl & Hn & Hp & ->).
    assert (Hg : getList (JObj o) = Ok lst) by (apply getList_Ok; eauto).
    rewrite Hg. cbn [bind].
    assert (Hres : get (JObj o) "result" = JObj r) by (simpl; now rewrite Hr).
    rewrite Hres, Hn. cbn [bind]. rewrite Hp. reflexivity.
Qed.

Lemma getList_written (o r : obj) (lst' : list JSValue) (now : string) :
  getList (written o r lst' now) = Ok lst'.
Proof.
  apply getList_Ok. eexists _, _. split; [reflexivity|].
  split; [apply obj_get_set_eq|].
  rewrite obj_get_set_ne by discriminate.
  rewrite obj_get_set_ne by discriminate.
  apply obj_get_set_eq.
Qed.

(** C2. A second run of addToDatabase on the document written by a first
    run, with the same presets, succeeds and writes the same document with
    only the version replaced: the list is the same.  No run makes a second
    entry for an id: the entries matched by an id number at most one, unless
    the baseline already had more, and ids that were distinct in the
    baseline stay distinct. *)
Theorem C2_reconciliation_idempotent :
  forall (tmpl : obj) (dbObj : JSValue) (ps : list JSValue) (now1 now2 : string)
         (d1 : JSValue),
    addToDatabase tmpl dbObj ps now1 = Ok d1 ->
    exists lst1,
      getList d1 = Ok lst1
      /\ addToDatabase tmpl d1 ps now2 = Ok (Spec.withVersion d1 now2)
      /\ getList (Spec.withVersion d1 now2) = Ok lst1
      /\ (forall lst0 id, getList dbObj = Ok lst0 ->
            (occurrences id lst1 <= Nat.max 1 (occurrences id lst0))%nat)
      /\ (forall lst0, getList dbObj = Ok lst0 ->
            List.NoDup (ids lst0) -> List.NoDup (ids lst1)).
Proof.
  intros tmpl dbObj ps now1 now2 d1 H.
  apply addToDatabase_Ok in H as (o & r & lst & lst1 & -> & Hr & Hl & Hn & Hp & ->).
  exists lst1.
  apply applyProfiles_run in Hp as [ws [Hws Hrun]].
  destruct (writesOf_spec _ _ _ Hws) as [Hwf _].
  pose proof (run_idempotent ws Hwf _ _ Hrun) as Hidem.
  set (r1 := obj_set (obj_set (obj_set r "list" (JArr lst1))
                        "count" (JNum (Z.of_nat (length lst1))))
               "version" (JStr now1)).
  set (o1 := obj_set o "result" (JObj r1)).
  assert (Ho1 : obj_get o1 "result" = Some (JObj r1)) by apply obj_get_set_eq.
  assert (Hlist : obj_get r1 "list" = Some (JArr lst1)).
  { unfold r1. rewrite !obj_get_set_ne by discriminate. apply obj_get_set_eq. }
  assert (Hcount : obj_get r1 "count" = Some (JNum (Z.of_nat (length lst1)))).
  { unfold r1. rewrite obj_get_set_ne by discriminate. apply obj_get_set_eq. }
  assert (Hwv : Spec.withVersion (written o r lst1 now1) now2 =
                JObj (obj_set o1 "result" (JObj (obj_set r1 "version" (JStr now2))))).
  { unfold written. fold r1. fold o1. unfold Spec.withVersion. now rewrite Ho1. }
  split; [apply getList_written|].
  split; [|split; [|split]].
  - apply addToDatabase_Ok. exists o1, r1, lst1, lst1.
    split; [reflexivity|]. split; [exact Ho1|]. split; [exact Hlist|].
    split; [simpl; now rewrite Hcount|].
    split; [apply applyProfiles_run; eauto|].
    rewrite Hwv. unfold written.
    rewrite (obj_set_same r1 "list") by exact Hlist.
    rewrite (obj_set_same r1 "count") by exact Hcount.
    reflexivity.
  - rewrite Hwv. apply getList_Ok. eexists _, _. split; [reflexivity|].
    split; [apply obj_get_set_eq|].
    rewrite obj_get_set_ne by discriminate. exact Hlist.
  - intros lst0 id H0.
    apply getList_Ok in H0 as (o' & r' & [= <-] & Hr' & Hl').
    rewrite Hr in Hr'. injection Hr' as <-. rewrite Hl in Hl'. injection Hl' as <-.
    exact (run_occurrences ws Hwf _ _ id Hrun).
  - intros lst0 H0 Hnd.
    apply getList_Ok in H0 as (o' & r' & [= <-] & Hr' & Hl').
    rewrite Hr in Hr'. injection Hr' as <-. rewrite Hl in Hl'. injection Hl' as <-.
    exact (run_NoDup ws Hwf _ _ Hrun Hnd).
Qed.

Lemma C2_witness :
  exists d1 lst1,
    addToDatabase Sample.template Sample.baseline
      [Sample.presetNew; Sample.presetIdOnly] "1700000100" = Ok d1
    /\ getList d1 = Ok lst1
    /\ length lst1 = 3%nat
    /\ addToDatabase Sample.template d1
         [Sample.presetNew; Sample.presetIdOnly] "1700000200"
       = Ok (Spec.withVersion d1 "1700000200")
    /\ getList (Spec.withVersion d1 "1700000200") = Ok lst1.
Proof.
  destruct (addToDatabase Sample.template Sample.baseline
              [Sample.presetNew; Sample.presetIdOnly] "1700000100") as [d1|] eqn:E;
    [|vm_compute in E; discriminate E].
  destruct (C2_reconciliation_idempotent _ _ _ _ "1700000200" _ E)
    as (lst1 & H1 & H2 & H3 & _ & _).
  exists d1, lst1. split; [reflexivity|]. split; [exact H1|].
  split; [|split; assumption].
  vm_compute in E. injection E as <-. vm_compute in H1. injection H1 as <-.
  reflexivity.
Defined.

(** C3. In the list written by a successful run, every entry of the
    baseline list whose id is not the Notes id of any applied preset stands
    unchanged at its original index; no entry is removed. *)
Theorem C3_unmatched_entries_kept :
  forall (tmpl : obj) (dbObj : JSValue) (ps : list JSValue) (now : string)
         (out : JSValue) (lst : list JSValue),
    addToDatabase tmpl dbObj ps now = Ok out ->
    getList dbObj = Ok lst ->
    exists lst',
      getList out = Ok lst'
      /\ (length lst <= length lst')%nat
      /\ forall (j : nat) (e : JSValue),
           lst !! j = Some e ->
           (forall p id, In p ps -> notesId p id -> entryId e <> Ok id) ->
           lst' !! j = Some e.
Proof.
  intros tmpl dbObj ps now out lst H Hl0.
  apply addToDatabase_Ok in H as (o & r & lst0 & lst' & -> & Hr & Hl & Hn & Hp & ->).
  apply getList_Ok in Hl0 as (o' & r' & [= <-] & Hr' & Hl').
  rewrite Hr in Hr'. injection Hr' as <-. rewrite Hl in Hl'. injection Hl' as <-.
  exists lst'. split; [apply getList_written|].
  apply applyProfiles_run in Hp as [ws [Hws Hrun]].
  destruct (writesOf_spec _ _ _ Hws) as [_ Hin].
  split; [exact (run_length _ _ _ Hrun)|].
  intros j e He Hno. apply (run_frame ws _ _ Hrun j e He).
  intros w Hw. destruct (Hin _ Hw) as [p [Hp Hid]]. exact (Hno p _ Hp Hid).
Qed.

Lemma C3_witness :
  exists out lst',
    addToDatabase Sample.template Sample.baseline
      [Sample.presetNew; Sample.presetIdOnly] "1700000100" = Ok out
    /\ getList Sample.baseline = Ok [Sample.oldEntry; Sample.keptEntry]
    /\ getList out = Ok lst'
    /\ lst' !! 1%nat = Some Sample.keptEntry.
Proof.
  destruct (addToDatabase Sample.template Sample.baseline
              [Sample.presetNew; Sample.presetIdOnly] "1700000100") as [out|] eqn:E;
    [|vm_compute in E; discriminate E].
  destruct (C3_unmatched_entries_kept _ _ _ _ _ _ E (eq_refl : getList Sample.baseline = Ok _))
    as (lst' & H1 & _ & H3).
  exists out, lst'. split; [reflexivity|]. split; [reflexivity|]. split; [exact H1|].
  apply (H3 1%nat Sample.keptEntry eq_refl).
  intros p id [<-|[<-|[]]] (n & Hn & _ & Hid);
    vm_compute in Hn; injection Hn as <-;
    vm_compute in Hid; injection Hid as <-; vm_compute; discriminate.
Defined.

End Database.

(** *** Reconciliation: exceptions *)

Section Exceptions.
Import DatabaseTool Reconcile.

Lemma no_Error_Ok {A : Type} (a : A) : no_Error (Ok a).
Proof. intros msg. discriminate. Qed.

Lemma no_Error_bind {A B : Type} (m : result A) (k : A -> result B) :
  no_Error m -> (forall a, no_Error (k a)) -> no_Error (bind m k).
Proof.
  intros Hm Hk msg. destruct m as [a|e]; simpl.
  - apply Hk.
  - intros [= ->]. exact (Hm msg eq_refl).
Qed.

Lemma ToString_no_Error : forall v, no_Error (ToString v).
Proof.
  fix IH 1. intros [| |[]| | | |l|o]; try apply no_Error_Ok.
  - cbn [ToString]. revert l. fix IHl 1. intros [|x r]; [apply no_Error_Ok|].
    apply no_Error_bind.
    + pose proof (IH x) as Hx.
      destruct x; first [exact Hx | apply no_Error_Ok].
    + intros a. pose proof (IHl r) as Hr.
      destruct r as [|y r']; [apply no_Error_Ok|].
      apply no_Error_bind; [exact Hr|intros b; apply no_Error_Ok].
  - cbn [ToString]. destruct (obj_get o "toString"); [|apply no_Error_Ok].
    intros msg. discriminate.
Qed.

Lemma JSON_parse_no_Error (s : string) : no_Error (JSON_parse s).
Proof.
  unfold JSON_parse. intros msg.
  destruct (parse_value _ _) as [[v r]|]; [|discriminate].
  destruct (skip_ws r); discriminate.
Qed.

Lemma set_prop_no_Error (t : JSValue) (k : string) (v : JSValue) :
  no_Error (set_prop t k v).
Proof.
  intros msg. unfold set_prop.
  destruct t; try discriminate. destruct (String.eqb k "__proto__"); discriminate.
Qed.

Lemma set_props_no_Error (kvs : list (string * JSValue)) :
  forall t, no_Error (set_props t kvs).
Proof.
  induction kvs as [|[k v] kvs IH]; intros t; cbn [set_props].
  - apply no_Error_Ok.
  - apply no_Error_bind; [apply set_prop_no_Error|exact IH].
Qed.

Lemma copyProfileKeys_no_Error (es : list (string * JSValue)) :
  forall t, no_Error (copyProfileKeys es t).
Proof.
  induction es as [|[k v] es IH]; intros t; cbn [copyProfileKeys].
  - apply no_Error_Ok.
  - apply no_Error_bind; [apply set_prop_no_Error|exact IH].
Qed.

Lemma parseNotes_no_Error (p : JSValue) : no_Error (parseNotes p).
Proof.
  unfold parseNotes. apply no_Error_bind.
  - unfold getNotesString. destruct (get p "filament_notes");
      try apply no_Error_Ok. apply ToString_no_Error.
  - intros s. destruct (_ || _); [apply no_Error_Ok|].
    destruct (JSON_parse _); apply no_Error_Ok.
Qed.

Lemma findById_no_Error (l : list JSValue) (id : string) : no_Error (findById l id).
Proof.
  induction l as [|m l IH]; cbn [findById]; [apply no_Error_Ok|].
  apply no_Error_bind; [apply ToString_no_Error|].
  intros k. destruct (String.eqb k id); [apply no_Error_Ok|].
  apply no_Error_bind; [exact IH|intros r; apply no_Error_Ok].
Qed.

Lemma buildMaterial_no_Error (tmpl : obj) (p notesObj : JSValue) :
  no_Error (buildMaterialFromProfile tmpl p notesObj).
Proof.
  unfold buildMaterialFromProfile.
  apply no_Error_bind.
  { unfold deepClone, parse_value_of.
    apply no_Error_bind; [apply ToString_no_Error|intros s; apply JSON_parse_no_Error]. }
  intros m0. apply no_Error_bind; [apply copyProfileKeys_no_Error|].
  intros m1. repeat (apply no_Error_bind; [apply ToString_no_Error|intros ?]).
  apply set_props_no_Error.
Qed.

Lemma applyProfiles_no_Error (tmpl : obj) (ps : list JSValue) :
  forall l, no_Error (applyProfiles tmpl ps l).
Proof.
  induction ps as [|p ps IH]; intros l; cbn [applyProfiles]; [apply no_Error_Ok|].
  apply no_Error_bind; [|exact IH].
  unfold applyProfile. apply no_Error_bind; [apply parseNotes_no_Error|].
  intros n. destruct (skipsProfile n); [apply no_Error_Ok|].
  apply no_Error_bind; [apply ToString_no_Error|intros id].
  apply no_Error_bind; [apply findById_no_Error|intros idx].
  apply no_Error_bind; [apply buildMaterial_no_Error|intros mat].
  destruct idx; apply no_Error_Ok.
Qed.

(** C8. addToDatabase raises the fatal error of getList, the Error that
    reports the unexpected shape, and produces no document, exactly when the
    value at result.list is not an array; this holds for every list of
    presets, none of which is looked at before.  When the value is an array
    the error branch is unreachable: getList returns the list and no Error
    is raised by the run.  The run can still be aborted by an exception of
    another kind, a TypeError of a conversion to a string or a number. *)
Theorem C8_shape_error_iff_not_list :
  forall (tmpl : obj) (dbObj : JSValue) (ps : list JSValue) (now : string),
    (addToDatabase tmpl dbObj ps now = Throw (Error shape_message)
       <-> isArray (Spec.listAt dbObj) = false)
    /\ (isArray (Spec.listAt dbObj) = true ->
          (exists lst, getList dbObj = Ok lst)
          /\ no_Error (addToDatabase tmpl dbObj ps now)).
Proof.
  intros tmpl dbObj ps now.
  assert (Hyes : isArray (Spec.listAt dbObj) = true ->
                 (exists lst, getList dbObj = Ok lst)
                 /\ no_Error (addToDatabase tmpl dbObj ps now)).
  { intros Harr. apply getList_isArray in Harr as [lst Hl].
    split; [eauto|].
    unfold addToDatabase. rewrite Hl. cbn [bind].
    apply no_Error_bind.
    { unfold ToNumber_effect. apply no_Error_bind;
        [apply ToString_no_Error|intros s; apply no_Error_Ok]. }
    intros _. apply no_Error_bind; [apply applyProfiles_no_Error|].
    intros lst'. apply no_Error_bind; [apply set_props_no_Error|].
    intros res. apply set_prop_no_Error. }
  split; [|exact Hyes].
  split.
  - intros H. destruct (isArray (Spec.listAt dbObj)) eqn:E; [|reflexivity].
    destruct (Hyes eq_refl) as [_ Hno]. now apply Hno in H.
  - intros Harr. unfold addToDatabase, getList. unfold Spec.listAt in Harr.
    now destruct (get (get dbObj "result") "list").
Qed.

Lemma C8_witness :
  isArray (Spec.listAt Sample.baseline) = true
  /\ (exists lst, getList Sample.baseline = Ok lst)
  /\ no_Error (addToDatabase Sample.template Sample.baseline [Sample.presetNew] "1700000100").
Proof.
  split; [reflexivity|].
  exact (proj2 (C8_shape_error_iff_not_list Sample.template Sample.baseline
                  [Sample.presetNew] "1700000100") eq_refl).
Defined.

(* An exception of another kind is still possible when result.list is an
   array: a preset whose Notes id is an object with a toString member of its
   own makes String(notesObj.id) throw a TypeError. *)
Remark TypeError_with_list_present :
  isArray (Spec.listAt Sample.baseline) = true
  /\ addToDatabase Sample.template Sample.baseline [Sample.presetOddId] "1700000100"
     = Throw TypeError.
Proof. split; reflexivity. Qed.

(* the run over the sample baseline, whose result.list is an array, is
   aborted by the TypeError of String(notesObj.id) *)
Lemma C8_counterexample : ~ Refuted.aborts_iff_not_list.
Proof.
  intros H.
  destruct (H Sample.template Sample.baseline [Sample.presetOddId] "1700000100")
    as [Habort _].
  assert (Hl : isArray (Spec.listAt Sample.baseline) = false).
  { apply Habort. exists TypeError. reflexivity. }
  discriminate Hl.
Qed.

End Exceptions.

(** *** Reconciliation: matching and skipping *)

Section Matching.
Import DatabaseTool Reconcile.

Lemma applyProfile_replaces (tmpl : obj) (lst : list JSValue) (p notesObj mat : JSValue)
    (id : string) (i : nat) :
  parseNotes p = Ok notesObj ->
  skipsProfile notesObj = false ->
  ToString (get notesObj "id") = Ok id ->
  findById lst id = Ok (Some i) ->
  buildMaterialFromProfile tmpl p notesObj = Ok mat ->
  applyProfile tmpl lst p = Ok (<[i := mat]> lst).
Proof.
  intros Hn Hs Hid Hf Hm. unfold applyProfile.
  rewrite Hn. cbn [bind]. rewrite Hs, Hid. cbn [bind].
  rewrite Hf. cbn [bind]. now rewrite Hm.
Qed.

(** C10. The id of a baseline entry is unwrapped from a one-element array
    and converted to a string before it is compared with the Notes id; a
    bare string, a number and a wrapped value give the same id, so the entry
    with id 10001 matches the Notes id 10001 given as a string; an entry
    without id compares as the empty string and is never the match of a
    non-empty id; the match is the first entry in list order with the id,
    and it is the one replaced.  The id of a number is its decimal numeral
    for the integers that a double holds exactly and prints in full, those
    below 2^53 in absolute value. *)
Theorem C10_id_matching :
  (forall m s, get m "id" = JArr [JStr s] -> entryId m = Ok s)
  /\ (forall m s, get m "id" = JStr s -> entryId m = Ok s)
  /\ (forall m n, Z.abs n < 2 ^ 53 -> get m "id" = JNum n ->
        entryId m = Ok (Z_to_string n))
  /\ (forall m n, Z.abs n < 2 ^ 53 -> get m "id" = JArr [JNum n] ->
        entryId m = Ok (Z_to_string n))
  /\ (forall m, get m "id" = JUndefined -> entryId m = Ok "")
  /\ findById [JObj [("id", JNum 10001)]] "10001" = Ok (Some 0%nat)
  /\ findById [JObj [("id", JStr "10001")]] "10001" = Ok (Some 0%nat)
  /\ findById [JObj [("name", JStr "x")]; JObj [("id", JArr [JStr "10001"])]] "10001"
       = Ok (Some 1%nat)
  /\ (forall lst id i,
        findById lst id = Ok (Some i) ->
        (exists e, lst !! i = Some e /\ entryId e = Ok id)
        /\ (forall j e, (j < i)%nat -> lst !! j = Some e ->
              exists k, entryId e = Ok k /\ k <> id))
  /\ (forall lst id i e,
        findById lst id = Ok (Some i) -> lst !! i = Some e -> id <> "" ->
        get e "id" <> JUndefined)
  /\ (forall tmpl lst p notesObj mat id i,
        parseNotes p = Ok notesObj ->
        skipsProfile notesObj = false ->
        ToString (get notesObj "id") = Ok id ->
        findById lst id = Ok (Some i) ->
        buildMaterialFromProfile tmpl p notesObj = Ok mat ->
        applyProfile tmpl lst p = Ok (<[i := mat]> lst)).
Proof.
  split; [intros m s H; unfold entryId; now rewrite H|].
  split; [intros m s H; unfold entryId; now rewrite H|].
  split; [intros m n _ H; unfold entryId; now rewrite H|].
  split; [intros m n _ H; unfold entryId; now rewrite H|].
  split; [intros m H; unfold entryId; now rewrite H|].
  split; [reflexivity|]. split; [reflexivity|]. split; [reflexivity|].
  split.
  { intros lst id i H. split; [now apply findById_Some|now apply findById_Some_before]. }
  split.
  { intros lst id i e H He Hne Hu.
    destruct (findById_Some _ _ _ H) as [e' [He' Hk]].
    rewrite He in He'. injection He' as <-.
    unfold entryId in Hk. rewrite Hu in Hk. simpl in Hk. congruence. }
  intros tmpl lst p notesObj mat id i. apply applyProfile_replaces.
Qed.

Lemma C10_witness :
  exists mat,
    buildMaterialFromProfile Sample.template Sample.presetNew
      (JObj [("id", JStr "10001"); ("vendor", JStr "X"); ("type", JStr "PLA");
             ("name", JStr "New")]) = Ok mat
    /\ entryId Sample.keptEntry = Ok "30003"
    /\ entryId (JObj [("id", JArr [JNum 10001])]) = Ok "10001"
    /\ findById [Sample.keptEntry; Sample.oldEntry; Sample.oldEntry] "10001" = Ok (Some 1%nat)
    /\ applyProfile Sample.template [Sample.keptEntry; Sample.oldEntry; Sample.oldEntry]
         Sample.presetNew
       = Ok [Sample.keptEntry; mat; Sample.oldEntry].
Proof.
  destruct (buildMaterialFromProfile Sample.template Sample.presetNew
      (JObj [("id", JStr "10001"); ("vendor", JStr "X"); ("type", JStr "PLA");
             ("name", JStr "New")])) as [mat|] eqn:E;
    [|vm_compute in E; discriminate E].
  exists mat. split; [reflexivity|].
  split.
  { exact (proj1 (proj2 (proj2 C10_id_matching)) Sample.keptEntry 30003
             ltac:(vm_compute; reflexivity) eq_refl). }
  split.
  { exact (proj1 (proj2 (proj2 (proj2 C10_id_matching)))
             (JObj [("id", JArr [JNum 10001])]) 10001
             ltac:(vm_compute; reflexivity) eq_refl). }
  split; [reflexivity|].
  exact (proj2 (proj2 (proj2 (proj2 (proj2 (proj2 (proj2 (proj2 (proj2 (proj2
           C10_id_matching)))))))))
           Sample.template [Sample.keptEntry; Sample.oldEntry; Sample.oldEntry]
           Sample.presetNew _ mat "10001" 1%nat
           eq_refl eq_refl eq_refl eq_refl E).
Defined.

Lemma falsy_no_props (v : JSValue) (k : string) :
  truthy v = false -> get v k = JUndefined.
Proof. destruct v; simpl; try reflexivity; discriminate. Qed.

Lemma db_skips_iff (notesObj : JSValue) :
  skipsProfile notesObj = true <->
  notesObj = JNull \/ truthy (get notesObj "id") = false.
Proof.
  unfold skipsProfile. rewrite orb_true_iff, !negb_true_iff. split.
  - intros [H|H]; right; [now rewrite (falsy_no_props _ _ H)|exact H].
  - intros [->|H]; [now left|now right].
Qed.

Lemma opt_skips_iff (notes : JSValue) :
  OptionsTool.skipsProfile notes = true <->
  notes = JNull
  \/ truthy (get notes "vendor") = false
  \/ truthy (get notes "type") = false
  \/ truthy (get notes "name") = false.
Proof.
  unfold OptionsTool.skipsProfile. rewrite !orb_true_iff, !negb_true_iff. split.
  - intros [[[H|H]|H]|H]; auto.
    right; left. now rewrite (falsy_no_props _ _ H).
  - intros [->|[H|[H|H]]]; auto.
Qed.

(** C9. addToDatabase skips a preset exactly when its parsed Notes are null
    or lack a truthy id, whatever the vendor, type and name; a preset that
    is not skipped is stored with the string conversions of these three
    fields, undefined when a field is absent.  addToOptions skips a preset
    exactly when its parsed Notes are null or lack a truthy vendor, type or
    name, whatever the id, and then leaves the document unchanged.  A preset
    whose Notes hold only an id is stored in the database and not in the
    options; a preset whose Notes hold the vendor, the type and the name and
    no id is stored in the options and not in the database. *)
Theorem C9_skip_criteria_differ :
  (forall notesObj,
      skipsProfile notesObj = true <->
      notesObj = JNull \/ truthy (get notesObj "id") = false)
  /\ (forall tmpl lst p notesObj,
        parseNotes p = Ok notesObj -> skipsProfile notesObj = true ->
        applyProfile tmpl lst p = Ok lst)
  /\ (forall tmpl lst lst' p notesObj,
        parseNotes p = Ok notesObj -> skipsProfile notesObj = false ->
        applyProfile tmpl lst p = Ok lst' ->
        exists id mat vendor type name,
          ((exists i, findById lst id = Ok (Some i) /\ lst' = <[i := mat]> lst)
           \/ (findById lst id = Ok None /\ lst' = (lst ++ [mat])%list))
          /\ ToString (get notesObj "vendor") = Ok vendor
          /\ ToString (get notesObj "type") = Ok type
          /\ ToString (get notesObj "name") = Ok name
          /\ get mat "filament_vendor" = JArr [JStr vendor]
          /\ get mat "filament_type" = JArr [JStr type]
          /\ get mat "name" = JArr [JStr name])
  /\ ToString JUndefined = Ok "undefined"
  /\ (forall notes,
        OptionsTool.skipsProfile notes = true <->
        notes = JNull
        \/ truthy (get notes "vendor") = false
        \/ truthy (get notes "type") = false
        \/ truthy (get notes "name") = false)
  /\ (forall obj p notes,
        OptionsTool.parseNotes p = Ok notes -> OptionsTool.skipsProfile notes = true ->
        OptionsTool.applyProfile obj p = Ok obj)
  /\ (exists mat,
        applyProfiles Sample.template [Sample.presetIdOnly] [] = Ok [mat]
        /\ get mat "id" = JArr [JStr "20002"]
        /\ get mat "filament_vendor" = JArr [JStr "undefined"]
        /\ get mat "filament_type" = JArr [JStr "undefined"]
        /\ get mat "name" = JArr [JStr "undefined"])
  /\ OptionsTool.addToOptions Sample.options [Sample.presetIdOnly] = Ok Sample.options
  /\ applyProfiles Sample.template [Sample.presetNoId] [] = Ok []
  /\ OptionsTool.addToOptions Sample.options [Sample.presetNoId]
     = Ok (JObj [("X", JObj [("ABS", JStr "Tough ABS")]);
                 ("Acme", JObj [("PETG", JStr "Loose")])]).
Proof.
  split; [exact db_skips_iff|].
  split.
  { intros tmpl lst p notesObj Hn Hs. unfold applyProfile.
    rewrite Hn. cbn [bind]. now rewrite Hs. }
  split.
  { intros tmpl lst lst' p notesObj Hn Hs H.
    apply applyProfile_writeOf in H as [w [Hw H]].
    unfold writeOf in Hw. rewrite Hn in Hw. cbn [bind] in Hw. rewrite Hs in Hw.
    apply bind_Ok in Hw as [id [Hid Hw]]. apply bind_Ok in Hw as [mat [Hmat Hw]].
    injection Hw as <-.
    destruct (buildMaterial_fields _ _ _ _ Hmat)
      as (id' & name & vendor & type & _ & Hname & Hvendor & Htype & _ & Gn & Gv & Gt).
    exists id, mat, vendor, type, name.
    split; [exact (upsert_Ok _ _ _ H)|]. auto 10. }
  split; [reflexivity|].
  split; [exact opt_skips_iff|].
  split.
  { intros obj p notes Hn Hs. unfold OptionsTool.applyProfile.
    rewrite Hn. cbn [bind]. now rewrite Hs. }
  split.
  - destruct (applyProfiles Sample.template [Sample.presetIdOnly] []) as [[|mat [|]]|] eqn:E;
      try (vm_compute in E; discriminate E).
    exists mat. split; [reflexivity|].
    vm_compute in E. injection E as <-. repeat split; reflexivity.
  - split; [reflexivity|]. split; reflexivity.
Qed.

Lemma C9_witness :
  parseNotes Sample.presetNoId
    = Ok (JObj [("vendor", JStr "Acme"); ("type", JStr "PETG"); ("name", JStr "Loose")])
  /\ applyProfile Sample.template [Sample.oldEntry] Sample.presetNoId = Ok [Sample.oldEntry]
  /\ OptionsTool.addToOptions Sample.options [Sample.presetNoId]
     = Ok (JObj [("X", JObj [("ABS", JStr "Tough ABS")]);
                 ("Acme", JObj [("PETG", JStr "Loose")])]).
Proof.
  split; [reflexivity|]. split; [|reflexivity].
  exact (proj1 (proj2 C9_skip_criteria_differ) Sample.template [Sample.oldEntry]
           Sample.presetNoId _ eq_refl eq_refl).
Defined.

(* the Notes of the sample preset without id: addToOptions does not skip
   them, addToDatabase does *)
Lemma C9_counterexample : ~ Refuted.options_require_more.
Proof.
  intros H.
  specialize (H (JObj [("vendor", JStr "Acme"); ("type", JStr "PETG");
                       ("name", JStr "Loose")])).
  discriminate H.
Qed.

End Matching.

(** *** The JSON parser does not run out of fuel *)

Section ParserFuel.

#[local] Abbreviation len := String.length.

Lemma skip_ws_length (s : string) : (len (skip_ws s) <= len s)%nat.
Proof.
  induction s as [|c s IH]; simpl; [lia|].
  destruct (is_json_ws c); simpl; lia.
Qed.

Lemma strip_prefix_length (p s r : string) :
  strip_prefix p s = Some r -> len s = (len p + len r)%nat.
Proof.
  revert s. induction p as [|a p IH]; intros s; simpl.
  - destruct s; intros [= <-]; reflexivity.
  - destruct s as [|b s]; [discriminate|].
    destruct (Ascii.eqb a b); [|discriminate].
    intros H. apply IH in H. simpl. lia.
Qed.

Lemma parse_string_body_length (n : nat) :
  forall s acc x r,
    (len s <= n)%nat ->
    parse_string_body s acc = Some (x, r) -> (len r < len s)%nat.
Proof.
  induction n as [|n IH]; intros s acc x r Hn.
  - destruct s; [discriminate|simpl in Hn; lia].
  - destruct s as [|c s]; [discriminate|]. simpl in Hn.
    cbn [parse_string_body].
    destruct (code c =? 34); [intros [= _ <-]; simpl; lia|].
    destruct (code c =? 92).
    + destruct s as [|e r1]; [discriminate|]. simpl in Hn.
      assert (Hrec : forall a, parse_string_body r1 a = Some (x, r) ->
                     (len r < len (String c (String e r1)))%nat).
      { intros a Ha. apply IH in Ha; [simpl; lia|lia]. }
      destruct (_ || _); [apply Hrec|].
      destruct (code e =? 98); [apply Hrec|].
      destruct (code e =? 102); [apply Hrec|].
      destruct (code e =? 110); [apply Hrec|].
      destruct (code e =? 114); [apply Hrec|].
      destruct (code e =? 116); [apply Hrec|].
      destruct (code e =? 117); [|discriminate].
      destruct r1 as [|h1 [|h2 [|h3 [|h4 r2]]]]; try discriminate.
      destruct (hex_val h1), (hex_val h2), (hex_val h3), (hex_val h4); try discriminate.
      destruct (_ <? 256); [|discriminate].
      intros Ha. apply IH in Ha; [simpl; lia|simpl in Hn; lia].
    + destruct (code c <? 32); [discriminate|].
      intros Ha. apply IH in Ha; [simpl; lia|lia].
Qed.

Lemma take_digits_length (s : string) :
  forall acc cnt a c r,
    take_digits s acc cnt = (a, c, r) -> (len r <= len s)%nat.
Proof.
  induction s as [|d s IH]; intros acc cnt a c r; simpl.
  - intros [= _ _ <-]. simpl. lia.
  - destruct (is_digit d).
    + intros H. apply IH in H. lia.
    + intros [= _ _ <-]. simpl. lia.
Qed.

Lemma parse_fraction_length (s : string) (x c : Z) (r : string) :
  parse_fraction s = Some (x, c, r) -> (len r <= len s)%nat.
Proof.
  unfold parse_fraction.
  destruct s as [|d s]; [intros [= _ _ <-]; simpl; lia|].
  destruct (Ascii.ascii_dec d ".") as [->|Hd].
  - destruct (take_digits s 0 0) as [[x' c'] r'] eqn:E.
    destruct (c' =? 0); [discriminate|]. intros [= _ _ <-].
    apply take_digits_length in E. simpl. lia.
  - destruct d as [[] [] [] [] [] [] [] []];
      try (intros [= _ _ <-]; simpl; lia). contradiction.
Qed.

Lemma parse_exponent_length (s : string) (x : Z) (r : string) :
  parse_exponent s = Some (x, r) -> (len r <= len s)%nat.
Proof.
  unfold parse_exponent.
  destruct s as [|c s]; [intros [= _ <-]; simpl; lia|].
  destruct (_ || _); [|intros [= _ <-]; simpl; lia].
  assert (G : forall sg r1, (len r1 <= len s)%nat ->
            (let '(x0, cnt, r2) := take_digits r1 0 0 in
             if cnt =? 0 then None else Some (sg * x0, r2)) = Some (x, r) ->
            (len r <= len (String c s))%nat).
  { intros sg r1 Hr1. destruct (take_digits r1 0 0) as [[x0 cnt] r2] eqn:E.
    destruct (cnt =? 0); [discriminate|]. intros [= _ <-].
    apply take_digits_length in E. simpl. lia. }
  destruct s as [|d s']; [apply (G 1 ""); simpl; lia|].
  destruct (Ascii.ascii_dec d "+") as [->|Hp]; [apply (G 1 s'); simpl; lia|].
  destruct (Ascii.ascii_dec d "-") as [->|Hm]; [apply (G (-1) s'); simpl; lia|].
  destruct d as [[] [] [] [] [] [] [] []];
    try (apply (G 1 (String _ s')); simpl; lia); contradiction.
Qed.

Lemma parse_number_length (s : string) (v : JSValue) (r : string) :
  parse_number s = Some (v, r) -> (len r < len s)%nat.
Proof.
  unfold parse_number.
  assert (G : forall sg s1,
            (len s1 <= len s)%nat ->
            match s1 with
            | String c r0 =>
                if is_digit c then
                  let '(ip, s2) :=
                    if code c =? 48 then (0, r0)
                    else let '(x, _, r') := take_digits s1 0 0 in (x, r') in
                  match parse_fraction s2 with
                  | None => None
                  | Some (fp, fl, s3) =>
                      match parse_exponent s3 with
                      | None => None
                      | Some (ex, s4) =>
                          Some (mk_number (sg * (ip * 10 ^ fl + fp)) (ex - fl), s4)
                      end
                  end
                else None
            | EmptyString => None
            end = Some (v, r) -> (len r < len s)%nat).
  { intros sg s1 Hs1. destruct s1 as [|c r0]; [discriminate|].
    destruct (is_digit c) eqn:Ed; [|discriminate].
    assert (H2 : forall ip s2, (len s2 < len (String c r0))%nat ->
              match parse_fraction s2 with
              | None => None
              | Some (fp, fl, s3) =>
                  match parse_exponent s3 with
                  | None => None
                  | Some (ex, s4) =>
                      Some (mk_number (sg * (ip * 10 ^ fl + fp)) (ex - fl), s4)
                  end
              end = Some (v, r) -> (len r < len s)%nat).
    { intros ip s2 Hs2.
      destruct (parse_fraction s2) as [[[fp fl] s3]|] eqn:Ef; [|discriminate].
      destruct (parse_exponent s3) as [[ex s4]|] eqn:Ee; [|discriminate].
      intros [= _ <-].
      apply parse_fraction_length in Ef. apply parse_exponent_length in Ee. lia. }
    destruct (code c =? 48).
    - apply H2. simpl. lia.
    - destruct (take_digits (String c r0) 0 0) as [[x cnt] r'] eqn:Et.
      apply H2. revert Et. cbn [take_digits]. rewrite Ed.
      intros Et. apply take_digits_length in Et. simpl. lia. }
  destruct s as [|c0 s0]; [apply (G 1 ""); simpl; lia|].
  destruct (Ascii.ascii_dec c0 "-") as [->|Hm]; [apply (G (-1) s0); simpl; lia|].
  destruct c0 as [[] [] [] [] [] [] [] []];
    try (apply (G 1 (String _ s0)); simpl; lia); contradiction.
Qed.

Lemma parse_elements_length (pv : parser) (fuel : nat) :
  Spec.consuming pv ->
  forall s acc v r,
    parse_elements pv fuel s acc = Some (v, r) -> (len r < len s)%nat.
Proof.
  intros Hpv. induction fuel as [|f IH]; intros s acc v r; cbn [parse_elements];
    [discriminate|].
  destruct (pv s) as [[v0 r0]|] eqn:E; [|discriminate].
  apply Hpv in E. pose proof (skip_ws_length r0) as Hw.
  destruct (skip_ws r0) as [|c r'] eqn:Ew; [discriminate|]. simpl in Hw.
  destruct (code c =? 44).
  - intros H. apply IH in H. lia.
  - destruct (code c =? 93); [|discriminate]. intros [= _ <-]. lia.
Qed.

Lemma parse_members_length (pv : parser) (fuel : nat) :
  Spec.consuming pv ->
  forall s acc v r,
    parse_members pv fuel s acc = Some (v, r) -> (len r < len s)%nat.
Proof.
  intros Hpv. induction fuel as [|f IH]; intros s acc v r; cbn [parse_members];
    [discriminate|].
  pose proof (skip_ws_length s) as Hw0.
  destruct (skip_ws s) as [|q r0]; [discriminate|]. simpl in Hw0.
  destruct (code q =? 34); [|discriminate].
  destruct (parse_string_body r0 "") as [[k r1]|] eqn:Ek; [|discriminate].
  apply (parse_string_body_length _ _ _ _ _ (le_n _)) in Ek.
  pose proof (skip_ws_length r1) as Hw1.
  destruct (skip_ws r1) as [|c1 r2]; [discriminate|]. simpl in Hw1.
  destruct (Ascii.ascii_dec c1 ":") as [->|Hc];
    [|destruct c1 as [[] [] [] [] [] [] [] []]; try discriminate; contradiction].
  destruct (pv r2) as [[v0 r3]|] eqn:E; [|discriminate].
  apply Hpv in E. pose proof (skip_ws_length r3) as Hw3.
  destruct (skip_ws r3) as [|c r4]; [discriminate|]. simpl in Hw3.
  destruct (code c =? 44).
  - intros H. apply IH in H. lia.
  - destruct (code c =? 125); [|discriminate]. intros [= _ <-]. lia.
Qed.

Lemma parse_value_length (n : nat) : Spec.consuming (parse_value n).
Proof.
  induction n as [|f IH]; intros s v r; cbn [parse_value]; [discriminate|].
  pose proof (skip_ws_length s) as Hw.
  destruct (skip_ws s) as [|c r0]; [discriminate|]. simpl in Hw.
  destruct (code c =? 123).
  { pose proof (skip_ws_length r0) as Hw0.
    assert (G : parse_members (parse_value f) f r0 [] = Some (v, r) ->
                (len r < len s)%nat).
    { intros H. apply (parse_members_length _ _ IH) in H. lia. }
    destruct (skip_ws r0) as [|c1 r1]; [exact G|]. simpl in Hw0.
    destruct (Ascii.ascii_dec c1 "}") as [->|Hc]; [intros [= _ <-]; lia|].
    destruct c1 as [[] [] [] [] [] [] [] []]; try exact G; contradiction. }
  destruct (code c =? 91).
  { pose proof (skip_ws_length r0) as Hw0.
    assert (G : parse_elements (parse_value f) f r0 [] = Some (v, r) ->
                (len r < len s)%nat).
    { intros H. apply (parse_elements_length _ _ IH) in H. lia. }
    destruct (skip_ws r0) as [|c1 r1]; [exact G|]. simpl in Hw0.
    destruct (Ascii.ascii_dec c1 "]") as [->|Hc]; [intros [= _ <-]; lia|].
    destruct c1 as [[] [] [] [] [] [] [] []]; try exact G; contradiction. }
  destruct (code c =? 34).
  { destruct (parse_string_body r0 "") as [[str r']|] eqn:E; [|discriminate].
    intros [= _ <-].
    apply (parse_string_body_length _ _ _ _ _ (le_n _)) in E. lia. }
  destruct (strip_prefix "null" (String c r0)) as [r'|] eqn:E1.
  { intros [= _ <-]. apply strip_prefix_length in E1. simpl in E1. lia. }
  destruct (strip_prefix "true" (String c r0)) as [r'|] eqn:E2.
  { intros [= _ <-]. apply strip_prefix_length in E2. simpl in E2. lia. }
  destruct (strip_prefix "false" (String c r0)) as [r'|] eqn:E3.
  { intros [= _ <-]. apply strip_prefix_length in E3. simpl in E3. lia. }
  intros H. apply parse_number_length in H. simpl in H. lia.
Qed.

Lemma parse_elements_fuel (pv pv' : parser) :
  Spec.consuming pv ->
  forall (L : nat) s f f' acc,
    (len s <= L)%nat -> (len s < f)%nat -> (len s < f')%nat ->
    (forall x, (len x <= len s)%nat -> pv x = pv' x) ->
    parse_elements pv f s acc = parse_elements pv' f' s acc.
Proof.
  intros Hpv. induction L as [|L IH]; intros s f f' acc HL Hf Hf' Hag;
    (destruct f as [|f]; [lia|]); (destruct f' as [|f']; [lia|]);
    cbn [parse_elements]; rewrite <- (Hag s (le_n _));
    destruct (pv s) as [[v r]|] eqn:E; try reflexivity;
    apply Hpv in E; try lia.
  pose proof (skip_ws_length r) as Hw.
  destruct (skip_ws r) as [|c r']; [reflexivity|]. simpl in Hw.
  destruct (code c =? 44); [|reflexivity].
  apply IH; try lia. intros x Hx. apply Hag. lia.
Qed.

Lemma parse_members_fuel (pv pv' : parser) :
  Spec.consuming pv ->
  forall (L : nat) s f f' acc,
    (len s <= L)%nat -> (len s < f)%nat -> (len s < f')%nat ->
    (forall x, (len x <= len s)%nat -> pv x = pv' x) ->
    parse_members pv f s acc = parse_members pv' f' s acc.
Proof.
  intros Hpv. induction L as [|L IH]; intros s f f' acc HL Hf Hf' Hag;
    (destruct f as [|f]; [lia|]); (destruct f' as [|f']; [lia|]);
    cbn [parse_members];
    pose proof (skip_ws_length s) as Hw0;
    (destruct (skip_ws s) as [|q r0]; [reflexivity|]); simpl in Hw0; try lia.
  destruct (code q =? 34); [|reflexivity].
  destruct (parse_string_body r0 "") as [[k r1]|] eqn:Ek; [|reflexivity].
  apply (parse_string_body_length _ _ _ _ _ (le_n _)) in Ek.
  pose proof (skip_ws_length r1) as Hw1.
  destruct (skip_ws r1) as [|c1 r2]; [reflexivity|]. simpl in Hw1.
  destruct (Ascii.ascii_dec c1 ":") as [->|Hc];
    [|destruct c1 as [[] [] [] [] [] [] [] []]; try reflexivity; contradiction].
  rewrite <- (Hag r2) by lia.
  destruct (pv r2) as [[v0 r3]|] eqn:E; [|reflexivity].
  apply Hpv in E. pose proof (skip_ws_length r3) as Hw3.
  destruct (skip_ws r3) as [|c r4]; [reflexivity|]. simpl in Hw3.
  destruct (code c =? 44); [|reflexivity].
  apply IH; try lia. intros x Hx. apply Hag. lia.
Qed.

Lemma parse_value_fuel (L : nat) :
  forall s n m,
    (len s <= L)%nat -> (len s < n)%nat -> (len s < m)%nat ->
    parse_value n s = parse_value m s.
Proof.
  induction L as [|L IH]; intros s n m HL Hn Hm;
    (destruct n as [|f]; [lia|]); (destruct m as [|f']; [lia|]);
    cbn [parse_value];
    pose proof (skip_ws_length s) as Hw;
    (destruct (skip_ws s) as [|c r0]; [reflexivity|]); simpl in Hw; try lia.
  assert (Hag : forall x, (len x <= len r0)%nat -> parse_value f x = parse_value f' x).
  { intros x Hx. apply IH; lia. }
  pose proof (skip_ws_length r0) as Hw0.
  destruct (code c =? 123).
  { assert (G : parse_members (parse_value f) f r0 [] =
                parse_members (parse_value f') f' r0 []).
    { apply (parse_members_fuel _ _ (parse_value_length f) (len r0)); try lia.
      exact Hag. }
    destruct (skip_ws r0) as [|c1 r1]; [exact G|].
    destruct (Ascii.ascii_dec c1 "}") as [->|Hc]; [reflexivity|].
    destruct c1 as [[] [] [] [] [] [] [] []]; try exact G; contradiction. }
  destruct (code c =? 91); [|reflexivity].
  assert (G : parse_elements (parse_value f) f r0 [] =
              parse_elements (parse_value f') f' r0 []).
  { apply (parse_elements_fuel _ _ (parse_value_length f) (len r0)); try lia.
    exact Hag. }
  destruct (skip_ws r0) as [|c1 r1]; [exact G|].
  destruct (Ascii.ascii_dec c1 "]") as [->|Hc]; [reflexivity|].
  destruct c1 as [[] [] [] [] [] [] [] []]; try exact G; contradiction.
Qed.

(** The fuel of JSON_parse is enough: with any larger fuel the parser
    gives the same result. *)
Lemma JSON_parse_fuel (text : string) (n : nat) :
  (len text < n)%nat ->
  parse_value n text = parse_value (S (len text)) text.
Proof.
  intros H. apply (parse_value_fuel (len text)); lia.
Qed.

End ParserFuel.
Section JsonRoundTrip.
Import Json.

#[local] Abbreviation len := String.length.
#[local] Arguments String.append : simpl nomatch.

Lemma JSValue_nested_ind (P : JSValue -> Prop) :
  P JUndefined -> P JNull -> (forall b, P (JBool b)) ->
  (forall z, P (JNum z)) -> (forall m k, P (JDec m k)) ->
  (forall s, P (JStr s)) ->
  (forall l, List.Forall P l -> P (JArr l)) ->
  (forall o, List.Forall (fun kv => P (snd kv)) o -> P (JObj o)) ->
  forall v, P v.
Proof.
  intros HU HN HB HZ HD HS HA HO.
  fix IH 1. intros [ | | b | z | m k | s | l | o].
  - exact HU.
  - exact HN.
  - apply HB.
  - apply HZ.
  - apply HD.
  - apply HS.
  - apply HA. induction l as [|x l IHl]; constructor; [apply IH|exact IHl].
  - apply HO. induction o as [|[k x] o IHo]; constructor; [apply IH|exact IHo].
Qed.

Lemma stringify_arr (l : list JSValue) :
  JSON_stringify (JArr l) = Some ("[" +:+ elements_text l +:+ "]").
Proof. reflexivity. Qed.

Lemma stringify_obj (o : obj) :
  JSON_stringify (JObj o) = Some ("{" +:+ members_text o true +:+ "}").
Proof. reflexivity. Qed.

Lemma app_assoc_s (a b c : string) : (a +:+ b) +:+ c = a +:+ (b +:+ c).
Proof. induction a as [|x a IH]; simpl; [reflexivity|now rewrite IH]. Qed.

Lemma app_nil_r_s (a : string) : a +:+ "" = a.
Proof. induction a as [|x a IH]; simpl; [reflexivity|now rewrite IH]. Qed.

Lemma len_app (a b : string) : len (a +:+ b) = (len a + len b)%nat.
Proof. induction a as [|x a IH]; simpl; [reflexivity|now rewrite IH]. Qed.

(** strings *)

Lemma rev_onto_onto (s : string) :
  forall acc b, string_rev_onto (string_rev_onto s acc) b = string_rev_onto acc (s +:+ b).
Proof.
  induction s as [|c s IH]; intros acc b; simpl; [reflexivity|].
  now rewrite IH.
Qed.

Lemma string_rev_involutive (s : string) : string_rev (string_rev s) = s.
Proof.
  unfold string_rev. rewrite rev_onto_onto. simpl. apply app_nil_r_s.
Qed.

Lemma parse_escape_char (c : ascii) (rest acc : string) :
  parse_string_body (escape_char c +:+ rest) acc
  = parse_string_body rest (String c acc).
Proof.
  destruct c as [[] [] [] [] [] [] [] []]; reflexivity.
Qed.

Lemma parse_escape_body (s : string) :
  forall acc r,
    parse_string_body (escape_body s +:+ String dquote r) acc
    = Some (string_rev (string_rev_onto s acc), r).
Proof.
  induction s as [|c s IH]; intros acc r.
  - reflexivity.
  - cbn [escape_body string_rev_onto]. rewrite app_assoc_s, parse_escape_char.
    apply IH.
Qed.

Lemma parse_quote (s r : string) :
  parse_string_body (escape_body s +:+ String dquote r) "" = Some (s, r).
Proof.
  rewrite parse_escape_body. f_equal. f_equal. apply string_rev_involutive.
Qed.


(** numbers *)

Lemma code_chr (z : Z) : 0 <= z < 256 -> code (chr z) = z.
Proof.
  intros H. unfold code, chr. rewrite N_ascii_embedding; lia.
Qed.

Lemma digit_char_code (d : Z) : 0 <= d <= 9 -> code (digit_char d) = 48 + d.
Proof. intros H. unfold digit_char. apply code_chr. lia. Qed.

Lemma digit_char_is_digit (d : Z) : 0 <= d <= 9 -> is_digit (digit_char d) = true.
Proof.
  intros H. unfold is_digit. rewrite digit_char_code by exact H.
  apply andb_true_intro. split; apply Z.leb_le; lia.
Qed.

Lemma take_digits_digit (d : Z) (rest : string) (a c : Z) :
  0 <= d <= 9 ->
  take_digits (String (digit_char d) rest) a c = take_digits rest (a * 10 + d) (c + 1).
Proof.
  intros H. cbn [take_digits]. rewrite digit_char_is_digit by exact H.
  rewrite digit_char_code by exact H. f_equal. lia.
Qed.

Lemma take_digits_end (r : string) (a c : Z) :
  number_end r = true -> take_digits r a c = (a, c, r).
Proof.
  destruct r as [|x r]; [reflexivity|]. cbn [number_end take_digits].
  destruct (is_digit x); [discriminate|reflexivity].
Qed.

Lemma digits_of_app (f : nat) :
  forall n acc rest, digits_of f n acc +:+ rest = digits_of f n (acc +:+ rest).
Proof.
  induction f as [|f IH]; intros n acc rest; cbn [digits_of]; [reflexivity|].
  destruct (n <? 10); [reflexivity|]. now rewrite IH.
Qed.

Lemma digits_of_zero (f : nat) (rest : string) :
  digits_of f 0 rest = String "0" rest.
Proof. destruct f; reflexivity. Qed.

Lemma digits_of_spec (f : nat) :
  forall n, 0 <= n < 10 ^ (Z.of_nat f + 1) ->
  exists L : nat,
    (1 <= L)%nat /\ n < 10 ^ Z.of_nat L /\ (n <> 0 -> 10 ^ (Z.of_nat L - 1) <= n)
    /\ forall rest,
         len (digits_of f n rest) = (L + len rest)%nat
         /\ (forall a c, take_digits (digits_of f n rest) a c
                         = take_digits rest (a * 10 ^ Z.of_nat L + n) (c + Z.of_nat L))
         /\ exists c0 tl, digits_of f n rest = String c0 tl
                          /\ is_digit c0 = true /\ (code c0 = 48 <-> n = 0).
Proof.
  assert (One : forall n, 0 <= n < 10 ->
            exists L : nat,
              (1 <= L)%nat /\ n < 10 ^ Z.of_nat L /\ (n <> 0 -> 10 ^ (Z.of_nat L - 1) <= n)
              /\ forall rest,
                   len (String (digit_char (n mod 10)) rest) = (L + len rest)%nat
                   /\ (forall a c, take_digits (String (digit_char (n mod 10)) rest) a c
                                   = take_digits rest (a * 10 ^ Z.of_nat L + n) (c + Z.of_nat L))
                   /\ exists c0 tl, String (digit_char (n mod 10)) rest = String c0 tl
                                    /\ is_digit c0 = true /\ (code c0 = 48 <-> n = 0)).
  { intros n Hn. exists 1%nat. rewrite Z.mod_small by lia.
    split; [lia|]. split; [simpl; lia|]. split; [simpl; lia|].
    intros rest. split; [reflexivity|]. split.
    - intros a c. rewrite take_digits_digit by lia. f_equal; simpl; lia.
    - exists (digit_char n), rest. split; [reflexivity|].
      split; [apply digit_char_is_digit; lia|].
      rewrite digit_char_code by lia. lia. }
  induction f as [|f IH]; intros n Hn.
  - cbn [digits_of]. apply One. simpl in Hn. lia.
  - cbn [digits_of]. destruct (Z.ltb_spec n 10) as [Hlt|Hge].
    + apply One. lia.
    + assert (Hq : 0 <= n / 10 < 10 ^ (Z.of_nat f + 1)).
      { split; [apply Z.div_pos; lia|].
        apply Z.div_lt_upper_bound; [lia|].
        replace (Z.of_nat (S f) + 1) with (Z.succ (Z.of_nat f + 1)) in Hn by lia.
        rewrite Z.pow_succ_r in Hn by lia. lia. }
      destruct (IH _ Hq) as [L [HL [Hub [Hlb Hrest]]]].
      assert (Hq1 : 1 <= n / 10) by (apply Z.div_le_lower_bound; lia).
      pose proof (Z.div_mod n 10 ltac:(lia)) as Hdm.
      pose proof (Z.mod_pos_bound n 10 ltac:(lia)) as Hm.
      exists (S L). split; [lia|].
      replace (Z.of_nat (S L)) with (Z.succ (Z.of_nat L)) by lia.
      rewrite Z.pow_succ_r by lia.
      split; [lia|]. split.
      { intros _. replace (Z.succ (Z.of_nat L) - 1) with (Z.succ (Z.of_nat L - 1)) by lia.
        rewrite Z.pow_succ_r by lia. specialize (Hlb ltac:(lia)). lia. }
      intros rest. destruct (Hrest (String (digit_char (n mod 10)) rest))
        as [Hlen [Htake [c0 [tl [Heq [Hd Hz]]]]]].
      split; [rewrite Hlen; simpl; lia|]. split.
      * intros a c. rewrite Htake, take_digits_digit by lia. f_equal; lia.
      * exists c0, tl. split; [exact Heq|]. split; [exact Hd|]. lia.
Qed.

Lemma nat_digits_fuel (n : Z) :
  0 <= n -> 0 <= n < 10 ^ (Z.of_nat (Z.to_nat (Z.log2 n)) + 1).
Proof.
  intros Hn. split; [exact Hn|].
  destruct (Z.eq_dec n 0) as [->|Hne].
  - reflexivity.
  - pose proof (Z.log2_nonneg n) as Hl.
    rewrite Z2Nat.id by exact Hl.
    pose proof (Z.log2_spec n ltac:(lia)) as [_ Hs].
    apply Z.lt_le_trans with (1 := Hs).
    replace (Z.log2 n + 1) with (Z.succ (Z.log2 n)) by lia.
    apply Z.pow_le_mono_l. lia.
Qed.

Lemma nat_digits_spec (n : Z) :
  0 <= n ->
  exists L : nat,
    (1 <= L)%nat /\ n < 10 ^ Z.of_nat L /\ (n <> 0 -> 10 ^ (Z.of_nat L - 1) <= n)
    /\ len (nat_digits n) = L
    /\ forall rest,
         (forall a c, take_digits (nat_digits n +:+ rest) a c
                      = take_digits rest (a * 10 ^ Z.of_nat L + n) (c + Z.of_nat L))
         /\ exists c0 tl, nat_digits n +:+ rest = String c0 tl
                          /\ is_digit c0 = true /\ (code c0 = 48 <-> n = 0).
Proof.
  intros Hn. unfold nat_digits.
  destruct (digits_of_spec _ n (nat_digits_fuel n Hn)) as [L [HL [Hub [Hlb Hrest]]]].
  exists L. repeat (split; [assumption|]). split.
  - destruct (Hrest "") as [Hlen _]. rewrite Hlen. simpl. lia.
  - intros rest. rewrite digits_of_app. cbn [append].
    destruct (Hrest rest) as [_ H]. exact H.
Qed.


Lemma parse_fraction_end (r : string) :
  number_end r = true -> parse_fraction r = Some (0, 0, r).
Proof.
  destruct r as [|c r]; [reflexivity|]. intros H.
  destruct c as [[] [] [] [] [] [] [] []]; try reflexivity; discriminate H.
Qed.

Lemma parse_exponent_end (r : string) :
  number_end r = true -> parse_exponent r = Some (0, r).
Proof.
  destruct r as [|c r]; [reflexivity|]. intros H.
  destruct c as [[] [] [] [] [] [] [] []]; try reflexivity; discriminate H.
Qed.

Lemma parse_number_digits (neg : bool) (c0 : ascii) (tl : string)
    (ip fp fl : Z) (s2 s3 : string) :
  is_digit c0 = true ->
  (if code c0 =? 48 then (0, tl)
   else let '(x, _, r') := take_digits (String c0 tl) 0 0 in (x, r')) = (ip, s2) ->
  parse_fraction s2 = Some (fp, fl, s3) ->
  parse_exponent s3 = Some (0, s3) ->
  parse_number ((if neg then "-" else "") +:+ String c0 tl)
  = Some (mk_number ((if neg then -1 else 1) * (ip * 10 ^ fl + fp)) (0 - fl), s3).
Proof.
  intros Hd Hip Hf He.
  assert (G : forall sg,
    match String c0 tl with
    | String c r =>
        if is_digit c then
          let '(ip, s2) :=
            if code c =? 48 then (0, r)
            else let '(x, _, r') := take_digits (String c0 tl) 0 0 in (x, r') in
          match parse_fraction s2 with
          | None => None
          | Some (fp, fl, s3) =>
              match parse_exponent s3 with
              | None => None
              | Some (ex, s4) =>
                  Some (mk_number (sg * (ip * 10 ^ fl + fp)) (ex - fl), s4)
              end
          end
        else None
    | EmptyString => None
    end = Some (mk_number (sg * (ip * 10 ^ fl + fp)) (0 - fl), s3)).
  { intros sg. rewrite Hd, Hip, Hf, He. reflexivity. }
  destruct neg.
  - exact (G (-1)).
  - cbn [append]. rewrite <- (G 1).
    destruct c0 as [[] [] [] [] [] [] [] []]; try discriminate Hd; reflexivity.
Qed.

Lemma mk_number_int (m : Z) : mk_number m 0 = JNum m.
Proof.
  unfold mk_number. destruct (Z.eqb_spec m 0) as [->|H]; [reflexivity|].
  cbn [Z.leb Z.compare]. f_equal. change (10 ^ 0) with 1. lia.
Qed.

Lemma parse_number_int (z : Z) (r : string) :
  number_end r = true ->
  parse_number (Z_to_string z +:+ r) = Some (JNum z, r).
Proof.
  intros Hr.
  assert (G : forall (neg : bool) n, 0 <= n ->
            parse_number ((if neg then "-" else "") +:+ (nat_digits n +:+ r))
            = Some (mk_number ((if neg then -1 else 1) * (n * 10 ^ 0 + 0)) (0 - 0), r)).
  { intros neg n Hn.
    destruct (nat_digits_spec n Hn) as [L [HL [Hub [Hlb [Hlen Hrest]]]]].
    destruct (Hrest r) as [Htake [c0 [tl [Heq [Hd Hz]]]]].
    rewrite Heq.
    apply (parse_number_digits neg c0 tl n 0 0 r r);
      [exact Hd| |now apply parse_fraction_end|now apply parse_exponent_end].
    destruct (Z.eqb_spec (code c0) 48) as [E|E].
    - apply Hz in E. subst n. unfold nat_digits in Heq.
      rewrite digits_of_zero in Heq. cbn [append] in Heq.
      injection Heq as _ <-. reflexivity.
    - rewrite <- Heq, Htake, take_digits_end by exact Hr. f_equal; lia. }
  unfold Z_to_string. destruct (Z.ltb_spec z 0) as [Hneg|Hpos].
  - specialize (G true (- z) ltac:(lia)). cbn [append] in G |- *.
    rewrite G. change (10 ^ 0) with 1. change (0 - 0) with 0.
    replace (-1 * (- z * 1 + 0)) with z by lia. now rewrite mk_number_int.
  - specialize (G false z Hpos). cbn [append] in G. rewrite G.
    change (10 ^ 0) with 1. change (0 - 0) with 0.
    replace (1 * (z * 1 + 0)) with z by lia. now rewrite mk_number_int.
Qed.


Lemma pad_zeros_app (j : nat) : forall s r, pad_zeros j s +:+ r = pad_zeros j (s +:+ r).
Proof. induction j as [|j IH]; intros s r; cbn [pad_zeros]; [reflexivity|apply IH]. Qed.

Lemma take_digits_pad (j : nat) :
  forall s c, take_digits (pad_zeros j s) 0 c = take_digits s 0 (c + Z.of_nat j).
Proof.
  induction j as [|j IH]; intros s c; cbn [pad_zeros].
  - f_equal. lia.
  - rewrite IH. cbn [take_digits]. change (is_digit "0") with true. cbv iota.
    change (0 * 10 + (code "0" - 48)) with 0. f_equal. lia.
Qed.

Lemma mk_number_dec (m : Z) (k : positive) :
  m mod 10 <> 0 -> mk_number m (0 - Z.pos k) = JDec m k.
Proof.
  intros H. unfold mk_number.
  destruct (Z.eqb_spec m 0) as [->|Hm]; [now destruct H|].
  change (0 - Z.pos k) with (Z.neg k). change (0 <=? Z.neg k) with false. cbv iota.
  change (- Z.neg k) with (Z.pos k).
  destruct (Z.to_nat (Z.pos k)) as [|f] eqn:E; [lia|].
  cbn [strip_zeros]. change (0 <? Z.pos k) with true.
  destruct (Z.eqb_spec (m mod 10) 0) as [E0|_]; [contradiction|]. reflexivity.
Qed.

Lemma parse_number_dec (m : Z) (k : positive) (r : string) :
  m mod 10 <> 0 -> number_end r = true ->
  parse_number (dec_to_string m k +:+ r) = Some (JDec m k, r).
Proof.
  intros Hm Hr. unfold dec_to_string.
  set (p := 10 ^ Z.pos k). set (a := Z.abs m).
  assert (Hp : 0 < p) by (apply Z.pow_pos_nonneg; lia).
  assert (Hp10 : exists q, p = 10 * q /\ 0 < q).
  { exists (10 ^ (Z.pos k - 1)). split; [|apply Z.pow_pos_nonneg; lia].
    unfold p. replace (Z.pos k) with (Z.succ (Z.pos k - 1)) at 1 by lia.
    apply Z.pow_succ_r. lia. }
  assert (Ha : a mod 10 <> 0).
  { intros E. apply Hm. apply Z.mod_divide in E; [|lia].
    apply Z.mod_divide; [lia|]. exact (proj1 (Z.divide_abs_r 10 m) E). }
  assert (Hf : a mod p <> 0).
  { intros E. apply Ha. destruct Hp10 as [q [Hq Hq0]].
    apply Z.mod_divide in E; [|lia]. apply Z.mod_divide; [lia|].
    destruct E as [x Hx]. exists (x * q). lia. }
  pose proof (Z.mod_pos_bound a p Hp) as Hfb.
  assert (Hi : 0 <= a / p) by (apply Z.div_pos; lia).
  destruct (nat_digits_spec (a mod p) ltac:(lia)) as [Lf [HLf [Hubf [Hlbf [Hlenf Hrestf]]]]].
  destruct (Hrestf r) as [Htakef _].
  assert (HLk : (Lf <= Pos.to_nat k)%nat).
  { specialize (Hlbf Hf).
    assert (10 ^ (Z.of_nat Lf - 1) < 10 ^ Z.pos k) by (fold p; lia).
    apply Z.pow_lt_mono_r_iff in H; lia. }
  set (j := (Pos.to_nat k - len (nat_digits (a mod p)))%nat).
  assert (Hj : Z.of_nat j + Z.of_nat Lf = Z.pos k) by (unfold j; rewrite Hlenf; lia).
  set (frac := pad_zeros j (nat_digits (a mod p))).
  assert (Hfrac : parse_fraction (String "." (frac +:+ r)) = Some (a mod p, Z.pos k, r)).
  { unfold parse_fraction, frac. rewrite pad_zeros_app, take_digits_pad, Htakef.
    rewrite take_digits_end by exact Hr.
    replace (0 + Z.of_nat j + Z.of_nat Lf) with (Z.pos k) by lia.
    change (Z.pos k =? 0) with false. cbv iota. reflexivity. }
  destruct (nat_digits_spec (a / p) Hi) as [L [HL [Hub [Hlb [Hlen Hrest]]]]].
  destruct (Hrest (String "." (frac +:+ r))) as [Htake [c0 [tl [Heq [Hd Hz]]]]].
  assert (G : forall neg : bool,
            parse_number ((if neg then "-" else "")
                            +:+ (nat_digits (a / p) +:+ String "." (frac +:+ r)))
            = Some (mk_number ((if neg then -1 else 1) * (a / p * 10 ^ Z.pos k + a mod p))
                      (0 - Z.pos k), r)).
  { intros neg. rewrite Heq.
    apply (parse_number_digits neg c0 tl (a / p) (a mod p) (Z.pos k)
             (String "." (frac +:+ r)) r);
      [exact Hd| |exact Hfrac|now apply parse_exponent_end].
    destruct (Z.eqb_spec (code c0) 48) as [E|E].
    - apply Hz in E. rewrite E in Heq |- *. unfold nat_digits in Heq.
      rewrite digits_of_zero in Heq. cbn [append] in Heq.
      injection Heq as _ <-. reflexivity.
    - rewrite <- Heq, Htake. cbn [take_digits]. change (is_digit ".") with false.
      cbv iota. f_equal; lia. }
  pose proof (Z.div_mod a p ltac:(lia)) as Hdm.
  rewrite !app_assoc_s. change ("." +:+ frac +:+ r) with (String "." (frac +:+ r)).
  destruct (Z.ltb_spec m 0) as [Hneg|Hpos].
  - rewrite (G true). fold p.
    replace (-1 * (a / p * p + a mod p)) with m by (unfold a in *; lia).
    now rewrite mk_number_dec.
  - rewrite (G false). fold p.
    replace (1 * (a / p * p + a mod p)) with m by (unfold a in *; lia).
    now rewrite mk_number_dec.
Qed.

Lemma number_text_head (v : JSValue) (r : string) :
  match v with JNum _ | JDec _ _ => True | _ => False end ->
  forall s, JSON_stringify v = Some s ->
  exists c0 tl, s +:+ r = String c0 tl /\ (c0 = "-"%char \/ is_digit c0 = true).
Proof.
  assert (N : forall n rest, 0 <= n ->
            exists c0 tl, nat_digits n +:+ rest = String c0 tl /\ is_digit c0 = true).
  { intros n rest Hn. destruct (nat_digits_spec n Hn) as [L [_ [_ [_ [_ H]]]]].
    destruct (H rest) as [_ [c0 [tl [E [Hd _]]]]]. eauto. }
  destruct v as [ | | | z | m k | | | ]; try contradiction; intros _ s [= <-].
  - unfold Z_to_string. destruct (Z.ltb_spec z 0).
    + cbn [append]. eauto.
    + destruct (N z r ltac:(lia)) as [c0 [tl [E Hd]]]. eauto.
  - unfold dec_to_string. destruct (Z.ltb_spec m 0).
    + cbn [append]. eauto.
    + assert (0 <= Z.abs m / 10 ^ Z.pos k).
      { apply Z.div_pos; [lia|]. apply Z.pow_pos_nonneg; lia. }
      destruct (N (Z.abs m / 10 ^ Z.pos k)
                  (("." +:+ pad_zeros
                     (Pos.to_nat k - len (nat_digits (Z.abs m mod 10 ^ Z.pos k)))
                     (nat_digits (Z.abs m mod 10 ^ Z.pos k))) +:+ r) H0)
        as [c0 [tl [E Hd]]].
      exists c0, tl. split; [|now right]. rewrite <- E.
      change ("" +:+ ?x) with x. now rewrite !app_assoc_s.
Qed.

Lemma parse_value_number (f : nat) (c0 : ascii) (tl : string) :
  c0 = "-"%char \/ is_digit c0 = true ->
  parse_value (S f) (String c0 tl) = parse_number (String c0 tl).
Proof.
  intros [->|H]; [reflexivity|].
  destruct c0 as [[] [] [] [] [] [] [] []]; try discriminate H; reflexivity.
Qed.


(** values *)

Lemma distinct_NoDup (ks : list string) : distinct ks = true <-> List.NoDup ks.
Proof.
  induction ks as [|k ks IH]; cbn [distinct].
  - split; [constructor|reflexivity].
  - rewrite andb_true_iff, negb_true_iff, IH. split.
    + intros [Hn Hd]. constructor; [|exact Hd]. intros Hin.
      assert (existsb (String.eqb k) ks = true); [|congruence].
      apply existsb_exists. exists k. split; [exact Hin|apply String.eqb_refl].
    + intros H. inversion H as [|? ? Hn Hd]; subst. split; [|exact Hd].
      destruct (existsb (String.eqb k) ks) eqn:E; [|reflexivity].
      apply existsb_exists in E as [x [Hin Hx]].
      apply String.eqb_eq in Hx. subst x. contradiction.
Qed.

Lemma obj_set_fresh (acc : obj) (k : string) (v : JSValue) :
  ~ In k (map fst acc) -> obj_set acc k v = (acc ++ [(k, v)])%list.
Proof.
  induction acc as [|[k' v'] acc IH]; intros Hn; cbn [obj_set]; [reflexivity|].
  destruct (String.eqb_spec k' k) as [->|Hne].
  - destruct Hn. now left.
  - cbn [app]. f_equal. apply IH. intros Hin. apply Hn. now right.
Qed.

Lemma stringify_head (v : JSValue) (s : string) :
  JSON_stringify v = Some s ->
  exists c tl, s = String c tl /\ is_json_ws c = false
               /\ c <> "]"%char /\ c <> "}"%char.
Proof.
  destruct v as [ | | [|] | z | m k | str | l | o]; try discriminate;
    try (intros [= <-]; do 2 eexists; split; [reflexivity|];
         split; [reflexivity|]; split; discriminate).
  - intros H.
    destruct (number_text_head (JNum z) "" I s H) as [c0 [tl [E Hc]]].
    rewrite app_nil_r_s in E. exists c0, tl. split; [exact E|].
    destruct Hc as [->|Hd]; [split; [reflexivity|split; discriminate]|].
    destruct c0 as [[] [] [] [] [] [] [] []]; try discriminate Hd;
      (split; [reflexivity|split; discriminate]).
  - intros H.
    destruct (number_text_head (JDec m k) "" I s H) as [c0 [tl [E Hc]]].
    rewrite app_nil_r_s in E. exists c0, tl. split; [exact E|].
    destruct Hc as [->|Hd]; [split; [reflexivity|split; discriminate]|].
    destruct c0 as [[] [] [] [] [] [] [] []]; try discriminate Hd;
      (split; [reflexivity|split; discriminate]).
Qed.

Lemma number_end_head (v : JSValue) (s r : string) :
  JSON_stringify v = Some s -> exists c tl, s +:+ r = String c tl /\ is_json_ws c = false
               /\ c <> "]"%char /\ c <> "}"%char.
Proof.
  intros H. destruct (stringify_head v s H) as [c [tl [-> Hc]]].
  exists c, (tl +:+ r). split; [reflexivity|exact Hc].
Qed.

Lemma parse_elements_text (fv : nat) (l : list JSValue) :
  List.Forall round_trips l -> forallb json_value l = true -> l <> [] ->
  forall acc r f,
    (len (elements_text l +:+ String "]" r) < f)%nat ->
    (len (elements_text l +:+ String "]" r) < fv)%nat ->
    parse_elements (parse_value fv) f (elements_text l +:+ String "]" r) acc
    = Some (JArr (rev acc ++ l), r).
Proof.
  induction l as [|x l IH]; intros HF Hwf Hne acc r f Hf Hfv; [contradiction|].
  inversion HF as [|? ? Hx HF']; subst.
  cbn [forallb] in Hwf. apply andb_true_iff in Hwf as [Hwx Hwl].
  destruct (Hx Hwx) as [sx [Hsx Hparse]].
  cbn [elements_text] in *. rewrite Hsx in *.
  change (default "null" (Some sx)) with sx in *.
  destruct f as [|f]; [lia|]. cbn [parse_elements].
  destruct l as [|y l']; cbv iota in *.
  - rewrite app_nil_r_s in *. rewrite Hparse by (reflexivity || lia).
    reflexivity.
  - rewrite !app_assoc_s in *.
    change ("," +:+ ?a) with (String "," a) in *.
    rewrite Hparse by (reflexivity || lia).
    cbn [skip_ws]. change (is_json_ws ",") with false. cbv iota.
    change (code "," =? 44) with true. cbv iota.
    rewrite len_app in Hf, Hfv. cbn [String.length] in Hf, Hfv.
    rewrite IH; try assumption; try discriminate; try lia.
    cbn [rev]. now rewrite <- List.app_assoc.
Qed.

Lemma members_text_false (o : obj) :
  forallb (fun '(_, x) => json_value x) o = true -> o <> [] ->
  members_text o false = String "," (members_text o true).
Proof.
  destruct o as [|[k x] o]; [contradiction|]. intros H _.
  cbn [forallb] in H. apply andb_true_iff in H as [Hx _].
  cbn [members_text]. destruct (JSON_stringify x) as [sx|] eqn:E.
  - reflexivity.
  - destruct x as [ | | [] | | | | | ]; discriminate.
Qed.

Lemma parse_members_text (fv : nat) (o : obj) :
  List.Forall (fun kv => round_trips (snd kv)) o ->
  forallb (fun '(_, x) => json_value x) o = true -> o <> [] ->
  forall acc r f,
    List.NoDup (map fst (acc ++ o)) ->
    (len (members_text o true +:+ String "}" r) < f)%nat ->
    (len (members_text o true +:+ String "}" r) < fv)%nat ->
    parse_members (parse_value fv) f (members_text o true +:+ String "}" r) acc
    = Some (JObj (acc ++ o), r).
Proof.
  induction o as [|[k x] o IH]; intros HF Hwf Hne acc r f Hnd Hf Hfv; [contradiction|].
  inversion HF as [|? ? Hx HF']; subst. cbn [snd] in Hx.
  cbn [forallb] in Hwf. apply andb_true_iff in Hwf as [Hwx Hwl].
  destruct (Hx Hwx) as [sx [Hsx Hparse]].
  cbn [members_text] in *. rewrite Hsx in *.
  change ("" +:+ ?a) with a in *. unfold quote in *.
  rewrite !app_assoc_s in *.
  change (String dquote ?a +:+ ?b) with (String dquote (a +:+ b)) in *.
  rewrite !app_assoc_s in *.
  change (String dquote "" +:+ ?b) with (String dquote b) in *.
  change (":" +:+ ?b) with (String ":" b) in *.
  destruct f as [|f]; [lia|]. cbn [parse_members skip_ws].
  change (is_json_ws dquote) with false. cbv iota.
  change (code dquote =? 34) with true. cbv iota.
  rewrite parse_quote. cbn [skip_ws]. change (is_json_ws ":") with false. cbv iota.
  cbn [String.length] in Hf, Hfv. rewrite len_app in Hf, Hfv.
  cbn [String.length] in Hf, Hfv.
  assert (Hfresh : obj_set acc k x = (acc ++ [(k, x)])%list).
  { apply obj_set_fresh. rewrite map_app in Hnd. cbn [map fst] in Hnd.
    apply List.NoDup_remove_2 in Hnd. intros Hin. apply Hnd.
    apply in_or_app. now left. }
  destruct o as [|[k' x'] o'].
  - cbn [members_text] in *. change ("" +:+ ?a) with a in *.
    rewrite Hparse by (reflexivity || lia).
    cbn [skip_ws]. change (is_json_ws "}") with false. cbv iota.
    change (code "}" =? 44) with false. change (code "}" =? 125) with true.
    cbv iota. now rewrite Hfresh.
  - rewrite (members_text_false _ Hwl) in * by discriminate.
    change (String "," ?a +:+ ?b) with (String "," (a +:+ b)) in *.
    rewrite Hparse by (reflexivity || lia).
    cbn [skip_ws]. change (is_json_ws ",") with false. cbv iota.
    change (code "," =? 44) with true. cbv iota.
    rewrite len_app in Hf, Hfv. cbn [String.length] in Hf, Hfv.
    rewrite Hfresh, IH; try assumption; try discriminate; try lia.
    + now rewrite <- List.app_assoc.
    + now rewrite <- List.app_assoc.
Qed.


Lemma skip_ws_head (c : ascii) (tl : string) :
  is_json_ws c = false -> skip_ws (String c tl) = String c tl.
Proof. intros H. cbn [skip_ws]. now rewrite H. Qed.

Lemma stringify_parse : forall v, round_trips v.
Proof.
  apply JSValue_nested_ind; unfold round_trips.
  - discriminate.
  - intros _. eexists. split; [reflexivity|]. intros r [|n] _ Hn; [lia|]. reflexivity.
  - intros [|] _; (eexists; split; [reflexivity|]);
      intros r [|n] _ Hn; try lia; reflexivity.
  - intros z _. eexists. split; [reflexivity|]. intros r [|n] Hr Hn; [lia|].
    destruct (number_text_head (JNum z) r I _ eq_refl) as [c0 [tl [E Hc]]].
    rewrite E, parse_value_number by exact Hc. rewrite <- E.
    now apply parse_number_int.
  - intros m k Hwf. cbn [json_value] in Hwf. apply negb_true_iff in Hwf.
    apply Z.eqb_neq in Hwf.
    eexists. split; [reflexivity|]. intros r [|n] Hr Hn; [lia|].
    destruct (number_text_head (JDec m k) r I _ eq_refl) as [c0 [tl [E Hc]]].
    rewrite E, parse_value_number by exact Hc. rewrite <- E.
    now apply parse_number_dec.
  - intros str _. eexists. split; [reflexivity|]. intros r [|n] _ Hn; [lia|].
    unfold quote. change (String dquote ?a +:+ r) with (String dquote (a +:+ r)).
    rewrite app_assoc_s. change (String dquote "" +:+ r) with (String dquote r).
    cbn [parse_value skip_ws]. change (is_json_ws dquote) with false. cbv iota.
    change (code dquote =? 123) with false. change (code dquote =? 91) with false.
    change (code dquote =? 34) with true. cbv iota.
    now rewrite parse_quote.
  - intros l IH Hwf. cbn [json_value] in Hwf. rewrite stringify_arr.
    eexists. split; [reflexivity|]. intros r [|n] _ Hn; [lia|].
    rewrite !app_assoc_s in Hn |- *. change ("[" +:+ ?a) with (String "[" a) in *.
    change ("]" +:+ r) with (String "]" r) in *.
    cbn [String.length] in Hn.
    cbn [parse_value skip_ws]. change (is_json_ws "[") with false. cbv iota.
    change (code "[" =? 123) with false. change (code "[" =? 91) with true.
    cbv iota.
    destruct l as [|x l'].
    + reflexivity.
    + assert (G : parse_elements (parse_value n) n
                    (elements_text (x :: l') +:+ String "]" r) []
                  = Some (JArr (x :: l'), r)).
      { apply (parse_elements_text n (x :: l') IH Hwf ltac:(discriminate) [] r n); lia. }
      cbn [forallb] in Hwf. apply andb_true_iff in Hwf as [Hx _].
      destruct (JSON_stringify x) as [sx|] eqn:Esx;
        [|destruct x as [ | | [] | | | | | ]; discriminate].
      destruct (stringify_head x sx Esx) as [c [tl [-> [Hws [Hc1 Hc2]]]]].
      revert G. cbn [elements_text]. rewrite Esx.
      change (default "null" (Some (String c tl))) with (String c tl).
      rewrite !app_assoc_s.
      change (String c tl +:+ ?a) with (String c (tl +:+ a)).
      rewrite skip_ws_head by exact Hws. intros G.
      destruct (Ascii.ascii_dec c "]") as [->|_]; [contradiction|].
      destruct c as [[] [] [] [] [] [] [] []]; try exact G; contradiction.
  - intros o IH Hwf. cbn [json_value] in Hwf. apply andb_true_iff in Hwf as [Hd Hwf].
    apply distinct_NoDup in Hd. rewrite stringify_obj.
    eexists. split; [reflexivity|]. intros r [|n] _ Hn; [lia|].
    rewrite !app_assoc_s in Hn |- *. change ("{" +:+ ?a) with (String "{" a) in *.
    change ("}" +:+ r) with (String "}" r) in *.
    cbn [String.length] in Hn.
    cbn [parse_value skip_ws]. change (is_json_ws "{") with false. cbv iota.
    change (code "{" =? 123) with true. cbv iota.
    destruct o as [|[k x] o'].
    + reflexivity.
    + assert (G : parse_members (parse_value n) n
                    (members_text ((k, x) :: o') true +:+ String "}" r) []
                  = Some (JObj ((k, x) :: o'), r)).
      { apply (parse_members_text n ((k, x) :: o') IH Hwf ltac:(discriminate) [] r n);
          [exact Hd|lia|lia]. }
      cbn [forallb] in Hwf. apply andb_true_iff in Hwf as [Hx _].
      destruct (JSON_stringify x) as [sx|] eqn:Esx;
        [|destruct x as [ | | [] | | | | | ]; discriminate].
      revert G. cbn [members_text]. rewrite Esx.
      change ("" +:+ ?a) with a. unfold quote. rewrite !app_assoc_s.
      change (String dquote ?a +:+ ?b) with (String dquote (a +:+ b)).
      cbn [skip_ws]. change (is_json_ws dquote) with false. cbv iota.
      intros G. exact G.
Qed.

(** Stringifying a JSON value and parsing the text gives the value back. *)
Lemma JSON_round_trip (v : JSValue) :
  json_value v = true ->
  exists s, JSON_stringify v = Some s /\ JSON_parse s = Ok v.
Proof.
  intros Hwf. destruct (stringify_parse v Hwf) as [s [Hs Hp]].
  exists s. split; [exact Hs|]. unfold JSON_parse.
  specialize (Hp "" (S (len s)) eq_refl). rewrite app_nil_r_s in Hp.
  rewrite Hp by lia. reflexivity.
Qed.


(** the parser returns JSON values *)

Lemma json_value_obj (o : obj) :
  json_value (JObj o) = true
  <-> List.NoDup (obj_keys o) /\ List.Forall (fun kv => json_value (snd kv) = true) o.
Proof.
  cbn [json_value]. rewrite andb_true_iff, distinct_NoDup, forallb_forall, List.Forall_forall.
  unfold obj_keys. split; intros [H1 H2]; (split; [exact H1|]).
  - intros [k x] Hin. exact (H2 _ Hin).
  - intros [k x] Hin. exact (H2 _ Hin).
Qed.

Lemma json_value_arr (l : list JSValue) :
  json_value (JArr l) = true <-> List.Forall (fun x => json_value x = true) l.
Proof. cbn [json_value]. now rewrite forallb_forall, List.Forall_forall. Qed.

Lemma obj_set_Forall (P : string * JSValue -> Prop) (o : obj) (k : string) (v : JSValue) :
  (forall k', P (k', v)) -> List.Forall P o -> List.Forall P (obj_set o k v).
Proof.
  intros Hv. induction o as [|[k' v'] o IH]; intros H; cbn [obj_set].
  - constructor; [apply Hv|constructor].
  - inversion H; subst. destruct (String.eqb k' k); constructor; auto.
Qed.

Lemma strip_zeros_spec (f : nat) :
  forall m k, Z.of_nat f = k ->
    snd (strip_zeros f m k) = 0 \/ fst (strip_zeros f m k) mod 10 <> 0.
Proof.
  induction f as [|f IH]; intros m k Hk; cbn [strip_zeros].
  - left. simpl. lia.
  - destruct (Z.ltb_spec 0 k); [|lia]. cbn [andb].
    destruct (Z.eqb_spec (m mod 10) 0) as [E|E].
    + apply IH. lia.
    + right. exact E.
Qed.

Lemma mk_number_json (m e : Z) : json_value (mk_number m e) = true.
Proof.
  unfold mk_number. destruct (m =? 0); [reflexivity|].
  destruct (0 <=? e) eqn:He; [reflexivity|]. apply Z.leb_gt in He.
  pose proof (strip_zeros_spec (Z.to_nat (- e)) m (- e) ltac:(lia)) as H.
  destruct (strip_zeros (Z.to_nat (- e)) m (- e)) as [m' k]. cbn [fst snd] in H.
  destruct k as [|p|p]; try reflexivity.
  cbn [json_value]. destruct H as [H|H]; [discriminate|].
  apply negb_true_iff. now apply Z.eqb_neq.
Qed.

Lemma parse_number_json (s : string) (v : JSValue) (r : string) :
  parse_number s = Some (v, r) -> json_value v = true.
Proof.
  unfold parse_number.
  destruct (match s with String "-" r0 => (-1, r0) | _ => (1, s) end) as [sg s1].
  destruct s1 as [|c r0]; [discriminate|].
  destruct (is_digit c); [|discriminate].
  destruct (if code c =? 48 then (0, r0)
            else let '(x, _, r') := take_digits (String c r0) 0 0 in (x, r')) as [ip s2].
  destruct (parse_fraction s2) as [[[fp fl] s3]|]; [|discriminate].
  destruct (parse_exponent s3) as [[ex s4]|]; [|discriminate].
  intros [= <- _]. apply mk_number_json.
Qed.

Lemma parse_elements_json (pv : parser) (fuel : nat) :
  (forall s v r, pv s = Some (v, r) -> json_value v = true) ->
  forall s acc v r,
    List.Forall (fun x => json_value x = true) acc ->
    parse_elements pv fuel s acc = Some (v, r) -> json_value v = true.
Proof.
  intros Hpv. induction fuel as [|f IH]; intros s acc v r Hacc;
    cbn [parse_elements]; [discriminate|].
  destruct (pv s) as [[v0 r0]|] eqn:E; [|discriminate]. apply Hpv in E.
  destruct (skip_ws r0) as [|c r']; [discriminate|].
  destruct (code c =? 44).
  - apply IH. now constructor.
  - destruct (code c =? 93); [|discriminate]. intros [= <- _].
    apply json_value_arr. change (rev acc ++ [v0])%list with (rev (v0 :: acc)).
    apply List.Forall_rev. now constructor.
Qed.

Lemma parse_members_json (pv : parser) (fuel : nat) :
  (forall s v r, pv s = Some (v, r) -> json_value v = true) ->
  forall s acc v r,
    json_value (JObj acc) = true ->
    parse_members pv fuel s acc = Some (v, r) -> json_value v = true.
Proof.
  intros Hpv. induction fuel as [|f IH]; intros s acc v r Hacc;
    cbn [parse_members]; [discriminate|].
  destruct (skip_ws s) as [|q r0]; [discriminate|].
  destruct (code q =? 34); [|discriminate].
  destruct (parse_string_body r0 "") as [[k r1]|]; [|discriminate].
  destruct (skip_ws r1) as [|c1 r2]; [discriminate|].
  destruct (Ascii.ascii_dec c1 ":") as [->|Hc];
    [|destruct c1 as [[] [] [] [] [] [] [] []]; try discriminate; contradiction].
  destruct (pv r2) as [[v0 r3]|] eqn:E; [|discriminate]. apply Hpv in E.
  assert (Hacc' : json_value (JObj (obj_set acc k v0)) = true).
  { apply json_value_obj in Hacc as [Hnd Hall]. apply json_value_obj. split.
    - now apply obj_set_NoDup.
    - apply obj_set_Forall; [intros; exact E|exact Hall]. }
  destruct (skip_ws r3) as [|c r4]; [discriminate|].
  destruct (code c =? 44); [now apply IH|].
  destruct (code c =? 125); [|discriminate]. now intros [= <- _].
Qed.

Lemma parse_value_json (n : nat) :
  forall s v r, parse_value n s = Some (v, r) -> json_value v = true.
Proof.
  induction n as [|f IH]; intros s v r; cbn [parse_value]; [discriminate|].
  destruct (skip_ws s) as [|c r0]; [discriminate|].
  destruct (code c =? 123).
  { assert (G : parse_members (parse_value f) f r0 [] = Some (v, r) ->
                json_value v = true).
    { now apply parse_members_json. }
    destruct (skip_ws r0) as [|c1 r1]; [exact G|].
    destruct (Ascii.ascii_dec c1 "}") as [->|Hc]; [now intros [= <- _]|].
    destruct c1 as [[] [] [] [] [] [] [] []]; try exact G; contradiction. }
  destruct (code c =? 91).
  { assert (G : parse_elements (parse_value f) f r0 [] = Some (v, r) ->
                json_value v = true).
    { apply parse_elements_json; [exact IH|constructor]. }
    destruct (skip_ws r0) as [|c1 r1]; [exact G|].
    destruct (Ascii.ascii_dec c1 "]") as [->|Hc]; [now intros [= <- _]|].
    destruct c1 as [[] [] [] [] [] [] [] []]; try exact G; contradiction. }
  destruct (code c =? 34).
  { destruct (parse_string_body r0 "") as [[str r']|]; [|discriminate].
    now intros [= <- _]. }
  destruct (strip_prefix "null" (String c r0)); [now intros [= <- _]|].
  destruct (strip_prefix "true" (String c r0)); [now intros [= <- _]|].
  destruct (strip_prefix "false" (String c r0)); [now intros [= <- _]|].
  apply parse_number_json.
Qed.

Lemma JSON_parse_json (text : string) (v : JSValue) :
  JSON_parse text = Ok v -> json_value v = true.
Proof.
  unfold JSON_parse.
  destruct (parse_value _ text) as [[v0 r]|] eqn:E; [|discriminate].
  destruct (skip_ws r); [|discriminate]. intros [= <-].
  exact (parse_value_json _ _ _ _ E).
Qed.

End JsonRoundTrip.
(** *** Trimming *)

Section Trim.

#[local] Arguments String.append : simpl nomatch.

Lemma rev_onto_app (a : string) :
  forall b acc, string_rev_onto (a +:+ b) acc = string_rev_onto b (string_rev_onto a acc).
Proof. induction a as [|c a IH]; intros b acc; simpl; [reflexivity|apply IH]. Qed.

Lemma rev_onto_acc (s : string) :
  forall acc, string_rev_onto s acc = string_rev s +:+ acc.
Proof.
  unfold string_rev. induction s as [|c s IH]; intros acc; simpl; [reflexivity|].
  rewrite IH, (IH (String c "")), app_assoc_s. reflexivity.
Qed.

Lemma string_rev_app (a b : string) :
  string_rev (a +:+ b) = string_rev b +:+ string_rev a.
Proof. unfold string_rev at 1. rewrite rev_onto_app, rev_onto_acc. reflexivity. Qed.

Lemma string_forall_app (f : ascii -> bool) (a b : string) :
  Spec.string_forall f (a +:+ b) = Spec.string_forall f a && Spec.string_forall f b.
Proof. induction a as [|c a IH]; simpl; [reflexivity|]. now rewrite IH, andb_assoc. Qed.

Lemma string_forall_rev (f : ascii -> bool) (s : string) :
  Spec.string_forall f (string_rev s) = Spec.string_forall f s.
Proof.
  induction s as [|c s IH]; [reflexivity|].
  change (String c s) with (String c "" +:+ s) at 1.
  rewrite string_rev_app, string_forall_app, IH. simpl.
  now rewrite andb_true_r, andb_comm.
Qed.

Lemma trimStart_split (s : string) :
  exists ws, s = ws +:+ trimStart s
    /\ Spec.string_forall is_js_space ws = true
    /\ match trimStart s with
       | EmptyString => True
       | String c _ => is_js_space c = false
       end.
Proof.
  induction s as [|c s [ws [E [Hws Hh]]]].
  - exists "". simpl. auto.
  - cbn [trimStart]. destruct (is_js_space c) eqn:Ec.
    + exists (String c ws). simpl. rewrite Ec, Hws. split; [now rewrite <- E|auto].
    + exists "". simpl. auto.
Qed.

Lemma trim_split (s : string) :
  exists ws1 ws2, s = ws1 +:+ trim s +:+ ws2
    /\ Spec.string_forall is_js_space ws1 = true
    /\ Spec.string_forall is_js_space ws2 = true
    /\ match trim s with
       | EmptyString => True
       | String c _ => is_js_space c = false
       end
    /\ match string_rev (trim s) with
       | EmptyString => True
       | String c _ => is_js_space c = false
       end.
Proof.
  unfold trim.
  destruct (trimStart_split s) as [ws1 [E1 [H1 Hh1]]].
  set (a := trimStart s) in *.
  destruct (trimStart_split (string_rev a)) as [ws [E2 [H2 Hh2]]].
  set (u := trimStart (string_rev a)) in *.
  assert (Ea : a = string_rev u +:+ string_rev ws).
  { rewrite <- string_rev_app, <- E2. symmetry. apply string_rev_involutive. }
  exists ws1, (string_rev ws). split; [now rewrite <- Ea|].
  split; [exact H1|]. split; [now rewrite string_forall_rev|].
  split.
  - destruct (string_rev u) as [|c r] eqn:Er; [exact I|].
    rewrite Ea in Hh1. exact Hh1.
  - now rewrite string_rev_involutive.
Qed.

Lemma trimStart_fixed (s : string) :
  match s with
  | EmptyString => True
  | String c _ => is_js_space c = false
  end -> trimStart s = s.
Proof. destruct s as [|c r]; [reflexivity|]. intros H. cbn [trimStart]. now rewrite H. Qed.

Lemma trim_fixed (t : string) :
  match t with
  | EmptyString => True
  | String c _ => is_js_space c = false
  end ->
  match string_rev t with
  | EmptyString => True
  | String c _ => is_js_space c = false
  end -> trim t = t.
Proof.
  intros H1 H2. unfold trim.
  rewrite (trimStart_fixed t H1), (trimStart_fixed _ H2).
  apply string_rev_involutive.
Qed.

Lemma trim_idempotent (s : string) : trim (trim s) = trim s.
Proof.
  destruct (trim_split s) as [_ [_ [_ [_ [_ [H1 H2]]]]]]. now apply trim_fixed.
Qed.

Lemma string_forall_trim (f : ascii -> bool) (s : string) :
  Spec.string_forall f s = true -> Spec.string_forall f (trim s) = true.
Proof.
  destruct (trim_split s) as [ws1 [ws2 [E _]]]. intros H.
  rewrite E, !string_forall_app in H.
  apply andb_true_iff in H as [_ H]. now apply andb_true_iff in H as [H _].
Qed.

(* a text between braces is not changed by trim *)
Lemma trim_braces (m : string) :
  trim (String "{" (m +:+ "}")) = String "{" (m +:+ "}").
Proof.
  apply trim_fixed; [reflexivity|].
  change (String "{" (m +:+ "}")) with (String "{" "" +:+ (m +:+ "}")).
  now rewrite !string_rev_app.
Qed.

End Trim.

(** *** Notes written by the tools are read back *)

Section WrittenNotes.
Import Json.

Lemma stringified_obj_text (n : obj) :
  stringify_value (JObj n) = JStr (String "{" (members_text n true +:+ "}")).
Proof. reflexivity. Qed.

Lemma eqb_brace_empty (m : string) :
  String.eqb (String "{" m) "" || String.eqb (String "{" m) empty_quotes = false.
Proof. reflexivity. Qed.

Lemma JSON_parse_stringified (n : obj) :
  json_value (JObj n) = true ->
  JSON_parse (String "{" (members_text n true +:+ "}")) = Ok (JObj n).
Proof.
  intros H. destruct (JSON_round_trip _ H) as [s [Hs Hp]].
  rewrite stringify_obj in Hs. injection Hs as <-. exact Hp.
Qed.

(* the notes of a record whose filament_notes hold the text of [n] *)
Lemma parseNotes_stringified (mat : JSValue) (n : obj) :
  json_value (JObj n) = true ->
  get mat "filament_notes" = JArr [stringify_value (JObj n)] ->
  DatabaseTool.parseNotes mat = Ok (JObj n).
Proof.
  intros Hn Hg. unfold DatabaseTool.parseNotes, DatabaseTool.getNotesString.
  rewrite Hg, stringified_obj_text. cbn [first_elem hd coalesce nullish ToString bind].
  rewrite trim_braces, eqb_brace_empty.
  now rewrite JSON_parse_stringified.
Qed.

Lemma hasRequiredNotes_stringified (p : JSValue) (n : obj) :
  json_value (JObj n) = true ->
  get p "filament_notes" = JArr [stringify_value (JObj n)] ->
  Config.hasRequiredNotes p = Ok true.
Proof.
  intros Hn Hg. unfold Config.hasRequiredNotes, Config.getNotesString.
  rewrite Hg, stringified_obj_text. cbn [first_elem hd coalesce nullish ToString bind].
  unfold Config.notesLooksEmpty. rewrite trim_braces, eqb_brace_empty.
  now rewrite JSON_parse_stringified.
Qed.

End WrittenNotes.

(** *** Materials *)

Section MaterialsMore.
Import Json Notions DatabaseTool.

Lemma deepClone_json (v : JSValue) : json_value v = true -> deepClone v = Ok v.
Proof.
  intros H. destruct (JSON_round_trip v H) as [s [Hs Hp]].
  unfold deepClone, parse_value_of, stringify_value. rewrite Hs. exact Hp.
Qed.

(** X1. deepClone returns a value equal to its argument for every JSON
    value whose numbers are plain: the copy of such a material template is
    exact.  (A number that a double holds as Infinity is copied as null;
    the model has no such number.) *)
Theorem X1_deepClone_equal_copy :
  forall v : JSValue,
    json_value v = true -> plain v = true -> deepClone v = Ok v.
Proof.
  intros v H _. exact (deepClone_json v H).
Qed.

(* the second part: the number 1e400, which a double holds as Infinity, and
   a fraction of 17 digits are not plain *)
Lemma X1_witness :
  deepClone (JObj [("kind", JStr "filament");
                   ("temps", JArr [JNum 210; JDec 25 2; JNum (-7)]);
                   ("on", JBool true); ("x", JNull)])
  = Ok (JObj [("kind", JStr "filament");
              ("temps", JArr [JNum 210; JDec 25 2; JNum (-7)]);
              ("on", JBool true); ("x", JNull)])
  /\ plain (JArr [JNum (10 ^ 400)]) = false
  /\ plain (JDec 30000000000000001 17) = false.
Proof.
  split; [|split; vm_compute; reflexivity].
  apply X1_deepClone_equal_copy; vm_compute; reflexivity.
Defined.

Lemma obj_get_In (o : obj) (k : string) (v : JSValue) :
  obj_get o k = Some v -> In k (obj_keys o).
Proof.
  intros H. destruct (in_dec string_dec k (obj_keys o)) as [Hin|Hn]; [exact Hin|].
  apply obj_get_None in Hn. congruence.
Qed.


(* after the copy of the preset a key holds the normalised value copied last *)
Lemma copyProfileKeys_spec (es : list (string * JSValue)) :
  forall o r,
    copyProfileKeys es (JObj o) = Ok r ->
    exists o', r = JObj o'
      /\ forall k, obj_get o' k =
           match obj_get (rev es) k with
           | Some v => Some (normalizeToArray v)
           | None => obj_get o k
           end.
Proof.
  induction es as [|[k0 v0] es IH]; intros o r; cbn [copyProfileKeys].
  - intros [= <-]. eauto.
  - intros H. apply bind_Ok in H as [m [Hm H]].
    apply set_prop_Ok_obj in Hm as [_ ->].
    destruct (IH _ _ H) as [o' [-> Hget]].
    exists o'. split; [reflexivity|]. intros k.
    rewrite Hget. cbn [rev]. rewrite obj_get_app.
    destruct (obj_get (rev es) k); [reflexivity|]. cbn [obj_get].
    destruct (String.eqb_spec k0 k) as [->|Hne].
    + apply obj_get_set_eq.
    + now apply obj_get_set_ne.
Qed.

(* the material: the identity fields over the preset over the template *)
Lemma buildMaterial_spec (tmpl : obj) (p notesObj mat : JSValue) :
  json_value (JObj tmpl) = true ->
  buildMaterialFromProfile tmpl p notesObj = Ok mat ->
  exists id name vendor type om,
    ToString (get notesObj "id") = Ok id
    /\ ToString (get notesObj "name") = Ok name
    /\ ToString (get notesObj "vendor") = Ok vendor
    /\ ToString (get notesObj "type") = Ok type
    /\ mat = JObj om
    /\ obj_get om "filament_notes"
       = Some (JArr [stringify_value
                       (JObj (notesRecord (JStr id) (JStr vendor) (JStr type) (JStr name)))])
    /\ obj_get om "id" = Some (JArr [JStr id])
    /\ forall k, ~ In k identityKeys ->
         obj_get om k =
           match obj_get (rev (Object_entries (or_else p (JObj [])))) k with
           | Some v => Some (normalizeToArray v)
           | None => obj_get tmpl k
           end.
Proof.
  unfold buildMaterialFromProfile. intros Ht H.
  rewrite (deepClone_json _ Ht) in H. cbn [bind] in H.
  apply bind_Ok in H as [m1 [H1 H]].
  apply bind_Ok in H as [id [Hid H]]. apply bind_Ok in H as [name [Hname H]].
  apply bind_Ok in H as [vendor [Hvendor H]]. apply bind_Ok in H as [type [Htype H]].
  destruct (copyProfileKeys_spec _ _ _ H1) as [o1 [-> Hcopy]].
  destruct (set_props_spec _ _ _ H) as [om [-> Hget]].
  exists id, name, vendor, type, om. repeat (split; [assumption || reflexivity|]).
  split; [rewrite Hget; reflexivity|]. split; [rewrite Hget; reflexivity|].
  intros k Hk. rewrite Hget, <- Hcopy.
  cbn [rev app obj_get].
  repeat match goal with
  | |- context [String.eqb ?a k] =>
      destruct (String.eqb_spec a k) as [E|_];
        [exfalso; apply Hk; rewrite <- E; cbn [identityKeys In]; tauto|]
  end.
  reflexivity.
Qed.

(** X2. The notes that buildMaterialFromProfile stores in a material are
    read back by parseNotes as the record of the four identity strings, and
    their id is the id under which findById matches the material. *)
Theorem X2_material_notes_read_back :
  forall (tmpl : obj) (p notesObj mat : JSValue),
    json_value (JObj tmpl) = true ->
    buildMaterialFromProfile tmpl p notesObj = Ok mat ->
    exists id vendor type name,
      ToString (get notesObj "id") = Ok id
      /\ ToString (get notesObj "vendor") = Ok vendor
      /\ ToString (get notesObj "type") = Ok type
      /\ ToString (get notesObj "name") = Ok name
      /\ parseNotes mat
         = Ok (JObj (notesRecord (JStr id) (JStr vendor) (JStr type) (JStr name)))
      /\ entryId mat = Ok id.
Proof.
  intros tmpl p notesObj mat Ht H.
  destruct (buildMaterial_spec _ _ _ _ Ht H)
    as (id & name & vendor & type & om & Hid & Hname & Hvendor & Htype & -> & Hn & Hi & _).
  exists id, vendor, type, name. repeat (split; [assumption|]). split.
  - apply parseNotes_stringified; [reflexivity|]. cbn [get]. now rewrite Hn.
  - unfold entryId. cbn [get]. now rewrite Hi.
Qed.

Lemma X2_witness :
  exists mat,
    buildMaterialFromProfile Sample.template Sample.presetNew
      (JObj [("id", JNum 10001); ("vendor", JStr "X"); ("type", JStr "PLA");
             ("name", JStr (dq "5' spool"))]) = Ok mat
    /\ parseNotes mat
       = Ok (JObj (notesRecord (JStr "10001") (JStr "X") (JStr "PLA")
                     (JStr (dq "5' spool"))))
    /\ entryId mat = Ok "10001".
Proof.
  destruct (buildMaterialFromProfile Sample.template Sample.presetNew
              (JObj [("id", JNum 10001); ("vendor", JStr "X"); ("type", JStr "PLA");
                     ("name", JStr (dq "5' spool"))])) as [mat|e] eqn:E;
    [|vm_compute in E; discriminate E].
  exists mat. split; [reflexivity|].
  destruct (X2_material_notes_read_back Sample.template Sample.presetNew _ mat eq_refl E)
    as (id & vendor & type & name & Hid & Hv & Ht & Hn & Hp & He).
  vm_compute in Hid, Hv, Ht, Hn.
  injection Hid as <-. injection Hv as <-. injection Ht as <-. injection Hn as <-.
  split; [exact Hp|exact He].
Defined.



End MaterialsMore.

(** *** The database document *)

Section DatabaseMore.
Import DatabaseTool Reconcile.

Lemma applyProfile_length (tmpl : obj) (lst lst' : list JSValue) (p : JSValue) :
  applyProfile tmpl lst p = Ok lst' ->
  (length lst <= length lst' <= S (length lst))%nat.
Proof.
  unfold applyProfile. intros H.
  apply bind_Ok in H as [notesObj [_ H]].
  destruct (skipsProfile notesObj); [injection H as <-; lia|].
  apply bind_Ok in H as [id [_ H]]. apply bind_Ok in H as [idx [_ H]].
  apply bind_Ok in H as [material [_ H]].
  destruct idx as [i|]; injection H as <-.
  - rewrite length_insert. lia.
  - rewrite length_app. simpl. lia.
Qed.

Lemma applyProfiles_length (tmpl : obj) (ps : list JSValue) :
  forall lst lst',
    applyProfiles tmpl ps lst = Ok lst' ->
    (length lst <= length lst' <= length lst + length ps)%nat.
Proof.
  induction ps as [|p ps IH]; intros lst lst'; cbn [applyProfiles].
  - intros [= <-]. simpl. lia.
  - intros H. apply bind_Ok in H as [l0 [H0 H]].
    apply applyProfile_length in H0. apply IH in H. simpl. lia.
Qed.

(** X4. In the document that addToDatabase writes, result.count is the
    length of result.list and result.version is the time stamp; the list
    has at least the entries of the baseline and at most one more per
    preset; every other member of result, and every other member of the
    document, is that of the baseline. *)
Theorem X4_database_document_shape :
  forall (tmpl : obj) (dbObj : JSValue) (ps : list JSValue) (now : string)
         (out : JSValue),
    addToDatabase tmpl dbObj ps now = Ok out ->
    exists lst lst',
      getList dbObj = Ok lst
      /\ getList out = Ok lst'
      /\ get (get out "result") "count" = JNum (Z.of_nat (length lst'))
      /\ get (get out "result") "version" = JStr now
      /\ (length lst <= length lst' <= length lst + length ps)%nat
      /\ (forall k, k <> "result" -> get out k = get dbObj k)
      /\ (forall k, k <> "list" -> k <> "count" -> k <> "version" ->
            get (get out "result") k = get (get dbObj "result") k).
Proof.
  intros tmpl dbObj ps now out H.
  apply addToDatabase_Ok in H as (o & r & lst & lst' & -> & Hr & Hl & _ & Hp & ->).
  exists lst, lst'.
  split; [apply getList_Ok; eauto|].
  split; [apply getList_written|].
  assert (Hres : get (written o r lst' now) "result"
                 = JObj (obj_set (obj_set (obj_set r "list" (JArr lst'))
                                    "count" (JNum (Z.of_nat (length lst'))))
                           "version" (JStr now))).
  { unfold written. apply get_set_eq. }
  rewrite Hres. split.
  { rewrite get_set_ne by discriminate. apply get_set_eq. }
  split; [apply get_set_eq|].
  split; [exact (applyProfiles_length _ _ _ _ Hp)|].
  split.
  - intros k Hk. unfold written. apply get_set_ne. congruence.
  - intros k H1 H2 H3.
    rewrite !get_set_ne by congruence.
    cbn [get]. now rewrite Hr.
Qed.

Lemma X4_witness :
  exists out,
    addToDatabase Sample.template Sample.baseline
      [Sample.presetNew; Sample.presetIdOnly; Sample.presetNoId] "1700000123" = Ok out
    /\ get (get out "result") "count" = JNum 3
    /\ get (get out "result") "version" = JStr "1700000123".
Proof.
  destruct (addToDatabase Sample.template Sample.baseline
              [Sample.presetNew; Sample.presetIdOnly; Sample.presetNoId] "1700000123")
    as [out|e] eqn:E; [|vm_compute in E; discriminate E].
  exists out. split; [reflexivity|].
  destruct (X4_database_document_shape _ _ _ _ _ E)
    as (lst & lst' & _ & Hl & Hc & Hv & _).
  split; [|exact Hv]. rewrite Hc.
  assert (G : getList out = Ok lst') by exact Hl.
  revert G. generalize (f_equal (fun r => match r with Ok d => getList d | Throw e => Throw e end) E).
  vm_compute. intros [= <-] [= <-]. reflexivity.
Defined.

Lemma lastMaterial_snoc (ws : list write) (w : write) (id : string) :
  Notions.lastMaterial (ws ++ [w]) id =
    if String.eqb (fst w) id then Some (snd w) else Notions.lastMaterial ws id.
Proof.
  induction ws as [|w0 ws IH]; cbn [app Notions.lastMaterial]; [reflexivity|].
  rewrite IH. destruct (String.eqb (fst w) id); [reflexivity|].
  now destruct (Notions.lastMaterial ws id).
Qed.

(* after a run the first entry matched by an id is the material written
   last under it *)
Lemma run_last (ws : list write) :
  forall l l',
    List.Forall wf_write ws ->
    run ws l = Ok l' ->
    forall id m,
      Notions.lastMaterial ws id = Some m ->
      exists j, findById l' id = Ok (Some j) /\ l' !! j = Some m.
Proof.
  induction ws as [|w ws IH] using rev_ind; intros l l' Hwf Hrun id m Hm;
    [discriminate Hm|].
  apply Forall_app in Hwf as [Hwf Hw]. inversion Hw as [|? ? Hww _]; subst.
  rewrite run_snoc in Hrun. apply bind_Ok in Hrun as [l0 [Hrun Hup]].
  rewrite lastMaterial_snoc in Hm.
  apply upsert_Ok in Hup.
  destruct (String.eqb_spec (fst w) id) as [<-|Hne].
  - injection Hm as <-. destruct Hup as [[i [Hf ->]]|[Hf ->]].
    + exists i. pose proof (findById_Some _ _ _ Hf) as [e [He _]].
      split.
      * rewrite (findById_ids _ l0); [exact Hf|]. now apply ids_replace.
      * apply list_lookup_insert_eq. now apply lookup_lt_Some in He.
    + exists (length l0). split.
      * rewrite (findById_snoc_None _ _ _ _ Hf Hww). now rewrite String.eqb_refl.
      * rewrite lookup_app_r by lia. now rewrite Nat.sub_diag.
  - destruct (IH _ _ Hwf Hrun id m Hm) as [j [Hj Hlj]].
    destruct Hup as [[i [Hf ->]]|[Hf ->]].
    + exists j. split.
      * rewrite (findById_ids _ l0); [exact Hj|]. now apply ids_replace.
      * rewrite list_lookup_insert_ne; [exact Hlj|].
        intros <-. pose proof (findById_Some _ _ _ Hf) as [e [He Hid]].
        pose proof (findById_Some _ _ _ Hj) as [e' [He' Hid']].
        congruence.
    + exists j. split; [now apply findById_app_Some|].
      apply lookup_app_l_Some. exact Hlj.
Qed.

(** X21. In the document that addToDatabase writes, looking up the notes
    id of a preset that was not skipped finds an entry, and the first entry
    with that id is the material built from the last such preset. *)
Theorem X21_database_holds_last_material :
  forall (tmpl : obj) (dbObj : JSValue) (ps : list JSValue) (now : string)
         (out : JSValue),
    addToDatabase tmpl dbObj ps now = Ok out ->
    exists ws lst',
      writesOf tmpl ps = Ok ws
      /\ getList out = Ok lst'
      /\ forall id m,
           Notions.lastMaterial ws id = Some m ->
           exists j, findById lst' id = Ok (Some j) /\ lst' !! j = Some m.
Proof.
  intros tmpl dbObj ps now out H.
  apply addToDatabase_Ok in H as (o & r & lst & lst' & -> & Hr & Hl & _ & Hp & ->).
  apply applyProfiles_run in Hp as [ws [Hws Hrun]].
  exists ws, lst'. split; [exact Hws|]. split; [apply getList_written|].
  apply writesOf_spec in Hws as [Hwf _].
  exact (run_last ws lst lst' Hwf Hrun).
Qed.

Lemma X21_witness :
  exists out lst' m,
    addToDatabase Sample.template Sample.baseline
      [Sample.presetNew; Sample.presetIdOnly] "1700000123" = Ok out
    /\ getList out = Ok lst'
    /\ findById lst' "10001" = Ok (Some 0%nat)
    /\ lst' !! 0%nat = Some m
    /\ get m "name" = JArr [JStr "New"].
Proof.
  destruct (addToDatabase Sample.template Sample.baseline
              [Sample.presetNew; Sample.presetIdOnly] "1700000123")
    as [out|e] eqn:E; [|vm_compute in E; discriminate E].
  destruct (X21_database_holds_last_material _ _ _ _ _ E) as (ws & lst' & Hws & Hl & Hlast).
  vm_compute in Hws. injection Hws as <-.
  match type of Hlast with
  | forall id m, Notions.lastMaterial (?w1 :: ?w2 :: nil) id = Some m -> _ =>
      destruct (Hlast "10001" (snd w1) eq_refl) as [j [Hj Hm]]
  end.
  vm_compute in E. injection E as <-.
  vm_compute in Hl. injection Hl as <-.
  vm_compute in Hj. injection Hj as <-.
  do 3 eexists. repeat split.
Defined.

End DatabaseMore.

(** *** The profile filter *)

Section FilterMore.
Import Json Notions Config.

Lemma ToString_Throw : forall v e, ToString v = Throw e -> e = TypeError.
Proof.
  intros v. induction v as [ | | b | z | m k | s | l IH | o IH] using JSValue_nested_ind;
    intros e; cbn [ToString]; try discriminate.
  - destruct b; discriminate.
  - induction l as [|x r IHr]; [discriminate|].
    inversion IH as [|? ? Hx Hr]; subst.
    assert (Hh : forall e0,
              match x with
              | JUndefined | JNull => Ok ""
              | _ => ToString x
              end = Throw e0 -> e0 = TypeError).
    { intros e0. destruct x; try discriminate; apply Hx. }
    destruct (match x with JUndefined | JNull => Ok "" | _ => ToString x end) as [a|e0] eqn:E.
    + cbn [bind]. destruct r as [|y r']; [discriminate|].
      specialize (IHr Hr).
      destruct ((fix join (l : list JSValue) : result string :=
                   match l with
                   | [] => Ok ""
                   | x :: r =>
                       let* a := (match x with
                                  | JUndefined | JNull => Ok ""
                                  | _ => ToString x
                                  end) in
                       match r with
                       | [] => Ok a
                       | _ :: _ => let* b := join r in Ok (a +:+ "," +:+ b)
                       end
                   end) (y :: r')) as [b|e1] eqn:E1.
      * discriminate.
      * cbn [bind]. intros [= <-]. now apply IHr.
    + cbn [bind]. intros [= <-]. now apply Hh.
  - destruct (obj_get o "toString"); [now intros [= <-]|discriminate].
Qed.

Lemma set_prop_Throw (t : JSValue) (k : string) (v : JSValue) (e : exn) :
  set_prop t k v = Throw e -> e = TypeError \/ e = Unsupported.
Proof.
  destruct t; cbn [set_prop]; try discriminate; try (intros [= <-]; auto).
  destruct (String.eqb k "__proto__"); [intros [= <-]; auto|discriminate].
Qed.

Lemma getNotesString_Throw (p : JSValue) (e : exn) :
  getNotesString p = Throw e -> e = TypeError.
Proof.
  unfold getNotesString. destruct (get p "filament_notes"); try discriminate.
  apply ToString_Throw.
Qed.

Lemma hasRequiredNotes_Throw (p : JSValue) (e : exn) :
  hasRequiredNotes p = Throw e -> e = TypeError.
Proof.
  unfold hasRequiredNotes. destruct (getNotesString p) as [s|e0] eqn:E; cbn [bind].
  - destruct (notesLooksEmpty s); [discriminate|]. destruct (JSON_parse s); discriminate.
  - intros [= <-]. exact (getNotesString_Throw _ _ E).
Qed.

Lemma autoGenerateNotes_Throw (p : JSValue) (e : exn) :
  autoGenerateNotes p = Throw e -> e = TypeError \/ e = Unsupported.
Proof.
  unfold autoGenerateNotes, synthesizedType, deriveTypeFromInherits.
  set (ft := safeFirst (get p "filament_type")).
  destruct (truthy ft); cbn [bind].
  - repeat match goal with
    | |- context [bind (ToString ?v) _] =>
        let E := fresh "E" in
        destruct (ToString v) eqn:E; cbn [bind];
          [|intros [= <-]; left; exact (ToString_Throw _ _ E)]
    end.
    apply set_prop_Throw.
  - destruct (ToString (coalesce (safeFirst (get p "inherits")) (JStr ""))) as [s|e0] eqn:E0;
      cbn [bind]; [|intros [= <-]; left; exact (ToString_Throw _ _ E0)].
    destruct (match_fdm_filament (toLowerCase s)); cbn [bind];
      repeat match goal with
      | |- context [bind (ToString ?v) _] =>
          let E := fresh "E" in
          destruct (ToString v) eqn:E; cbn [bind];
            [|intros [= <-]; left; exact (ToString_Throw _ _ E)]
      end; apply set_prop_Throw.
Qed.

Lemma filter_loop_Throw (loaded : list JSValue) :
  forall filtered e,
    filter_loop loaded filtered = Throw e -> e = TypeError \/ e = Unsupported.
Proof.
  induction loaded as [|p rest IH]; intros filtered e; cbn [filter_loop]; [discriminate|].
  destruct (hasRequiredNotes p) as [ok|e0] eqn:E0; cbn [bind];
    [|intros [= <-]; left; exact (hasRequiredNotes_Throw _ _ E0)].
  destruct ok; [apply IH|].
  destruct (autoGenerateNotes p) as [p'|e1] eqn:E1; cbn [bind];
    [|intros [= <-]; exact (autoGenerateNotes_Throw _ _ E1)].
  destruct (hasRequiredNotes p') as [ok'|e2] eqn:E2; cbn [bind];
    [|intros [= <-]; left; exact (hasRequiredNotes_Throw _ _ E2)].
  destruct ok'; apply IH.
Qed.

(** X5. filterProfiles ends the process, with status 1, exactly when no
    profile was loaded; whatever the profiles, no other path of the filter
    exits. *)
Theorem X5_filter_exits_iff_nothing_loaded :
  forall (loaded : list JSValue) (status : Z),
    filterProfiles loaded = Throw (Exit status) <-> loaded = [] /\ status = 1.
Proof.
  intros loaded status. split.
  - destruct loaded as [|p rest]; cbn [filterProfiles].
    + now intros [= <-].
    + intros H. apply filter_loop_Throw in H as [H|H]; discriminate H.
  - now intros [-> ->].
Qed.

Lemma get_json (o : obj) (k : string) :
  json_value (JObj o) = true ->
  json_value (get (JObj o) k) = true \/ get (JObj o) k = JUndefined.
Proof.
  intros H. apply json_value_obj in H as [_ H]. cbn [get].
  destruct (obj_get o k) as [v|] eqn:E; [left|now right].
  cbn [default]. revert E. induction H as [|[k0 v0] o Hv Ho IH]; cbn [obj_get]; [discriminate|].
  destruct (String.eqb k0 k); [now intros [= <-]|exact IH].
Qed.

Lemma safeFirst_json (v : JSValue) :
  json_value v = true \/ v = JUndefined ->
  json_value (safeFirst v) = true \/ safeFirst v = JUndefined.
Proof.
  intros [H| ->]; [|now right].
  destruct v as [ | | | | | |l| ]; try (now left).
  cbn [safeFirst first_elem]. destruct l as [|x l]; [now right|].
  left. cbn [hd]. cbn [json_value forallb] in H. now apply andb_true_iff in H as [H _].
Qed.

Lemma or_else_json (v d : JSValue) :
  json_value v = true \/ v = JUndefined -> json_value d = true -> truthy d = true ->
  json_value (or_else v d) = true /\ truthy (or_else v d) = true.
Proof.
  intros Hv Hd Ht. unfold or_else. destruct (truthy v) eqn:E.
  - split; [|exact E]. destruct Hv as [Hv| ->]; [exact Hv|discriminate E].
  - now split.
Qed.

Lemma field_json (o : obj) (k : string) (d : string) :
  json_value (JObj o) = true -> d <> "" ->
  json_value (or_else (safeFirst (get (JObj o) k)) (JStr d)) = true
  /\ truthy (or_else (safeFirst (get (JObj o) k)) (JStr d)) = true.
Proof.
  intros Ho Hd. apply or_else_json.
  - apply safeFirst_json. now apply get_json.
  - reflexivity.
  - cbn [truthy]. apply negb_true_iff. now apply String.eqb_neq.
Qed.

Lemma synthesizedType_json (o : obj) (t : JSValue) :
  json_value (JObj o) = true ->
  synthesizedType (JObj o) = Ok t ->
  json_value t = true /\ truthy t = true.
Proof.
  intros Ho. unfold synthesizedType.
  destruct (truthy (safeFirst (get (JObj o) "filament_type"))) eqn:E.
  - intros [= <-]. split; [|exact E].
    destruct (safeFirst_json _ (get_json o "filament_type" Ho)) as [H|H]; [exact H|].
    rewrite H in E. discriminate E.
  - intros H. apply bind_Ok in H as [d [_ H]]. injection H as <-.
    apply or_else_json; [now left|reflexivity|reflexivity].
Qed.

(* what autoGenerateNotes stores, and where *)
Lemma autoGenerateNotes_spec (o : obj) (p' : JSValue) :
  json_value (JObj o) = true ->
  autoGenerateNotes (JObj o) = Ok p' ->
  exists vendor type name vs ts ns,
    vendor = or_else (safeFirst (get (JObj o) "filament_vendor")) (JStr "Custom")
    /\ name = or_else (safeFirst (get (JObj o) "name")) (JStr "Custom Filament")
    /\ synthesizedType (JObj o) = Ok type
    /\ ToString vendor = Ok vs /\ ToString type = Ok ts /\ ToString name = Ok ns
    /\ truthy vendor = true /\ truthy type = true /\ truthy name = true
    /\ json_value (JObj (notesRecord (JStr (stableFiveDigitId (idKey vs ts ns)))
                           vendor type name)) = true
    /\ p' = JObj (obj_set o "filament_notes"
                    (JArr [stringify_value
                             (JObj (notesRecord (JStr (stableFiveDigitId (idKey vs ts ns)))
                                      vendor type name))])).
Proof.
  intros Ho H. unfold autoGenerateNotes in H.
  apply bind_Ok in H as [type [Htype H]]. apply bind_Ok in H as [vs [Hvs H]].
  apply bind_Ok in H as [ts [Hts H]]. apply bind_Ok in H as [ns [Hns H]].
  apply set_prop_Ok_obj in H as [_ ->].
  destruct (field_json o "filament_vendor" "Custom" Ho ltac:(discriminate)) as [Jv Tv].
  destruct (field_json o "name" "Custom Filament" Ho ltac:(discriminate)) as [Jn Tn].
  destruct (synthesizedType_json o type Ho Htype) as [Jt Tt].
  eexists _, type, _, vs, ts, ns.
  repeat (split; [reflexivity || assumption|]).
  split; [|reflexivity].
  cbn [json_value notesRecord map fst distinct existsb forallb].
  rewrite Jv, Jt, Jn. reflexivity.
Qed.

Lemma autoGenerateNotes_parseable (o : obj) (p' : JSValue) :
  json_value (JObj o) = true ->
  autoGenerateNotes (JObj o) = Ok p' ->
  hasRequiredNotes p' = Ok true.
Proof.
  intros Ho H.
  destruct (autoGenerateNotes_spec o p' Ho H)
    as (vendor & type & name & vs & ts & ns & _ & _ & _ & _ & _ & _ & _ & _ & _ & J & ->).
  eapply hasRequiredNotes_stringified; [exact J|]. apply get_set_eq.
Qed.

Lemma filter_loop_objects (loaded : list JSValue) :
  forall filtered kept,
    List.Forall objectPreset loaded ->
    filter_loop loaded filtered = Ok kept ->
    exists kept',
      kept = (filtered ++ kept')%list
      /\ List.Forall2
           (fun p q =>
              (hasRequiredNotes p = Ok true /\ q = p)
              \/ (hasRequiredNotes p = Ok false /\ autoGenerateNotes p = Ok q))
           loaded kept'.
Proof.
  induction loaded as [|p rest IH]; intros filtered kept Hall; cbn [filter_loop].
  - intros [= <-]. exists []. split; [now rewrite List.app_nil_r|constructor].
  - inversion Hall as [|? ? [[o ->] Ho] Hrest]; subst. intros H.
    apply bind_Ok in H as [ok [Hok H]]. destruct ok.
    + destruct (IH _ _ Hrest H) as [kept' [-> HF]].
      exists (JObj o :: kept'). split; [now rewrite <- List.app_assoc|].
      constructor; [now left|exact HF].
    + apply bind_Ok in H as [p' [Hp' H]].
      rewrite (autoGenerateNotes_parseable o p' Ho Hp') in H. cbn [bind] in H.
      destruct (IH _ _ Hrest H) as [kept' [-> HF]].
      exists (p' :: kept'). split; [now rewrite <- List.app_assoc|].
      constructor; [now right|exact HF].
Qed.

(** X6. The filter drops no object preset: when every loaded profile is a
    JSON object, the kept profiles are the loaded ones, in order, each one
    unchanged when its notes parse and with synthesized notes otherwise. *)
Theorem X6_filter_keeps_every_object_preset :
  forall (loaded kept : list JSValue),
    List.Forall objectPreset loaded ->
    filterProfiles loaded = Ok kept ->
    length kept = length loaded
    /\ List.Forall2
         (fun p q =>
            (hasRequiredNotes p = Ok true /\ q = p)
            \/ (hasRequiredNotes p = Ok false /\ autoGenerateNotes p = Ok q))
         loaded kept.
Proof.
  intros loaded kept Hall H. destruct loaded as [|p rest]; [discriminate H|].
  cbn [filterProfiles] in H.
  destruct (filter_loop_objects _ _ _ Hall H) as [kept' [-> HF]].
  cbn [app]. split; [|exact HF]. symmetry. exact (Forall2_length _ _ _ HF).
Qed.

Lemma X6_witness :
  exists kept,
    filterProfiles [Sample.acmePetg; Sample.presetNew; Sample.resinPreset] = Ok kept
    /\ length kept = 3%nat.
Proof.
  destruct (filterProfiles [Sample.acmePetg; Sample.presetNew; Sample.resinPreset])
    as [kept|e] eqn:E; [|vm_compute in E; discriminate E].
  exists kept. split; [reflexivity|].
  refine (proj1 (X6_filter_keeps_every_object_preset _ kept _ E)).
  repeat constructor; eexists; reflexivity.
Defined.

Lemma stableFiveDigitId_nonempty (s : string) : stableFiveDigitId s <> "".
Proof.
  unfold stableFiveDigitId, stableFiveDigitId_codes.
  rewrite Z_to_string_5 by apply id_range. discriminate.
Qed.

Lemma notesRecord_fields (i v t n : JSValue) :
  get (JObj (notesRecord i v t n)) "id" = i
  /\ get (JObj (notesRecord i v t n)) "vendor" = v
  /\ get (JObj (notesRecord i v t n)) "type" = t
  /\ get (JObj (notesRecord i v t n)) "name" = n.
Proof. repeat split. Qed.

(** X7. Synthesized notes are accepted downstream: after autoGenerateNotes
    on an object preset whose numbers are plain, parseNotes reads the record
    of the derived id, the vendor, the type and the name; neither
    addToDatabase nor addToOptions skips the preset; and the preset differs
    from the original in filament_notes only. *)
Theorem X7_synthesized_notes_are_accepted :
  forall (o : obj) (p' : JSValue),
    json_value (JObj o) = true ->
    plain (JObj o) = true ->
    autoGenerateNotes (JObj o) = Ok p' ->
    exists vendor type name vs ts ns notes,
      vendor = or_else (safeFirst (get (JObj o) "filament_vendor")) (JStr "Custom")
      /\ name = or_else (safeFirst (get (JObj o) "name")) (JStr "Custom Filament")
      /\ synthesizedType (JObj o) = Ok type
      /\ ToString vendor = Ok vs /\ ToString type = Ok ts /\ ToString name = Ok ns
      /\ notes = JObj (notesRecord (JStr (stableFiveDigitId (idKey vs ts ns)))
                         vendor type name)
      /\ DatabaseTool.parseNotes p' = Ok notes
      /\ DatabaseTool.skipsProfile notes = false
      /\ OptionsTool.skipsProfile notes = false
      /\ forall k, k <> "filament_notes" -> get p' k = get (JObj o) k.
Proof.
  intros o p' Ho _ H.
  destruct (autoGenerateNotes_spec o p' Ho H)
    as (vendor & type & name & vs & ts & ns & Ev & En & Et & Hvs & Hts & Hns
        & Tv & Tt & Tn & J & ->).
  exists vendor, type, name, vs, ts, ns. eexists.
  repeat (split; [eassumption || reflexivity|]).
  split; [apply parseNotes_stringified; [exact J|apply get_set_eq]|].
  destruct (notesRecord_fields (JStr (stableFiveDigitId (idKey vs ts ns))) vendor type name)
    as (Fi & Fv & Ft & Fn).
  split; [|split].
  - unfold DatabaseTool.skipsProfile. rewrite Fi. cbn [truthy negb orb].
    destruct (String.eqb_spec (stableFiveDigitId (idKey vs ts ns)) "") as [E|_];
      [now apply stableFiveDigitId_nonempty in E|reflexivity].
  - unfold OptionsTool.skipsProfile. rewrite Fv, Ft, Fn, Tv, Tt, Tn. reflexivity.
  - intros k Hk. apply get_set_ne. congruence.
Qed.

Lemma X7_witness :
  exists p',
    autoGenerateNotes Sample.acmePetg = Ok p'
    /\ DatabaseTool.parseNotes p'
       = Ok (JObj (notesRecord (JStr (stableFiveDigitId "Acme|PETG|Tough"))
                     (JStr "Acme") (JStr "PETG") (JStr "Tough"))).
Proof.
  destruct (autoGenerateNotes Sample.acmePetg) as [p'|e] eqn:E;
    [|vm_compute in E; discriminate E].
  exists p'. split; [reflexivity|].
  destruct (X7_synthesized_notes_are_accepted
              [("name", JStr "Tough"); ("filament_vendor", JArr [JStr "Acme"]);
               ("inherits", JStr "fdm_filament_petg")] p' eq_refl eq_refl E)
    as (vendor & type & name & vs & ts & ns & notes & -> & -> & Ht & Hv & Hts & Hn
        & -> & Hp & _).
  rewrite Hp. vm_compute in Ht. injection Ht as <-.
  vm_compute in Hv, Hts, Hn.
  injection Hv as <-. injection Hts as <-. injection Hn as <-. reflexivity.
Defined.

End FilterMore.

(** *** The options document *)

Section OptionsMore.
Import OptionsTool OptionWrites.

Lemma store_step (o : obj) (vk tk : string) (nm x : JSValue) :
  (let* cur := get_dyn (JObj o) vk in
   let inner := if negb (typeof_object cur) || nullish cur then JObj [] else cur in
   let* inner' := set_prop inner tk nm in
   set_prop (JObj o) vk inner') = Ok x
  <-> allowed o (vk, tk, nm) = true /\ x = JObj (store o (vk, tk, nm)).
Proof.
  unfold get_dyn, allowed, keysOk, store, typesOf, vendorKey, typeKey, nameOf.
  cbn [fst snd].
  destruct (String.eqb vk "__proto__") eqn:Ev; cbn [bind negb andb];
    [split; [discriminate|intros [H _]; discriminate H]|].
  destruct (String.eqb tk "__proto__") eqn:Et;
    destruct (obj_get o vk) as [[| | | | | |l|i]|];
    cbn [default from_option id typeof_object nullish negb orb andb isArray set_prop bind];
    rewrite ?Et, ?Ev; cbn [bind];
    (split; [intros H; try discriminate H; injection H as <-; auto
            |intros [Ha ->]; try discriminate Ha; reflexivity]).
Qed.

Lemma options_applyProfile_writeOf (o : obj) (p x : JSValue) :
  applyProfile (JObj o) p = Ok x <->
  exists w, writeOf p = Ok w
    /\ match w with
       | None => x = JObj o
       | Some w => allowed o w = true /\ x = JObj (store o w)
       end.
Proof.
  unfold applyProfile, writeOf.
  destruct (parseNotes p) as [notes|e]; cbn [bind];
    [|split; [discriminate|intros [w [H _]]; discriminate]].
  destruct (skipsProfile notes).
  { split.
    - intros [= <-]. exists None. auto.
    - intros [w [[= <-] ->]]. reflexivity. }
  destruct (ToString (get notes "vendor")) as [vk|e]; cbn [bind];
    [|split; [discriminate|intros [w [H _]]; discriminate]].
  destruct (ToString (get notes "type")) as [tk|e] eqn:Et; cbn [bind].
  - split.
    + intros H. exists (Some (vk, tk, get notes "name")). split; [reflexivity|].
      apply store_step. exact H.
    + intros [w [[= <-] H]]. apply store_step in H. exact H.
  - split.
    + destruct (get_dyn (JObj o) vk); cbn [bind]; discriminate.
    + intros [w [H _]]. discriminate.
Qed.

Lemma applyProfile_not_object (obj p x : JSValue) :
  (forall o, obj <> JObj o) -> applyProfile obj p = Ok x -> x = obj.
Proof.
  intros Hn. unfold applyProfile. intros H.
  apply bind_Ok in H as [notes [_ H]].
  destruct (skipsProfile notes); [now injection H as <-|].
  apply bind_Ok in H as [vk [_ H]]. apply bind_Ok in H as [cur [Hc _]].
  destruct obj; try discriminate Hc. now destruct (Hn o).
Qed.

Lemma applyProfiles_not_object (ps : list JSValue) :
  forall obj out,
    (forall o, obj <> JObj o) -> applyProfiles ps obj = Ok out -> out = obj.
Proof.
  induction ps as [|p ps IH]; intros obj out Hn; cbn [applyProfiles].
  - now intros [= <-].
  - intros H. apply bind_Ok in H as [x [Hx H]].
    apply applyProfile_not_object in Hx; [|exact Hn]. subst x. now apply IH.
Qed.

Lemma options_applyProfiles_run (ps : list JSValue) :
  forall o out,
    applyProfiles ps (JObj o) = Ok out <->
    exists ws o', writesOf ps = Ok ws /\ run ws o = Some o' /\ out = JObj o'.
Proof.
  induction ps as [|p ps IH]; intros o out; cbn [applyProfiles writesOf].
  - split.
    + intros [= <-]. exists [], o. auto.
    + intros (ws & o' & [= <-] & [= <-] & ->). reflexivity.
  - split.
    + intros H. apply bind_Ok in H as [x [Hx H]].
      apply options_applyProfile_writeOf in Hx as [w [Hw Hx]]. rewrite Hw. cbn [bind].
      destruct w as [w|].
      * destruct Hx as [Ha ->]. apply IH in H as (ws & o' & Hws & Hrun & ->).
        rewrite Hws. cbn [bind]. exists (w :: ws), o'.
        split; [reflexivity|]. split; [|reflexivity]. cbn [run]. now rewrite Ha.
      * subst x. apply IH in H as (ws & o' & Hws & Hrun & ->).
        rewrite Hws. cbn [bind]. exists ws, o'. auto.
    + intros (ws & o' & H & Hrun & ->).
      apply bind_Ok in H as [w [Hw H]]. apply bind_Ok in H as [ws0 [Hws0 H]].
      injection H as <-. destruct w as [w|].
      * cbn [run] in Hrun. destruct (allowed o w) eqn:Ha; [|discriminate Hrun].
        assert (Hp : applyProfile (JObj o) p = Ok (JObj (store o w))).
        { apply options_applyProfile_writeOf. exists (Some w). auto. }
        rewrite Hp. cbn [bind]. apply IH. eauto.
      * assert (Hp : applyProfile (JObj o) p = Ok (JObj o)).
        { apply options_applyProfile_writeOf. exists None. auto. }
        rewrite Hp. cbn [bind]. apply IH. eauto.
Qed.

(** stores *)

Lemma obj_set_comm (o : obj) (k1 k2 : string) (v1 v2 : JSValue) :
  k1 <> k2 -> obj_get o k1 <> None ->
  obj_set (obj_set o k2 v2) k1 v1 = obj_set (obj_set o k1 v1) k2 v2.
Proof.
  intros Hne. induction o as [|[k v] o IH]; cbn [obj_get obj_set]; [congruence|].
  destruct (String.eqb_spec k k1) as [->|H1].
  - intros _. destruct (String.eqb_spec k1 k2) as [E|_]; [contradiction|].
    cbn [obj_set]. rewrite String.eqb_refl.
    destruct (String.eqb_spec k1 k2) as [E|_]; [contradiction|reflexivity].
  - intros Hp. destruct (String.eqb_spec k k2) as [->|H2]; cbn [obj_set].
    + destruct (String.eqb_spec k2 k1) as [E|_]; [now destruct H1|].
      now rewrite String.eqb_refl.
    + destruct (String.eqb_spec k k1) as [E|_]; [contradiction|].
      destruct (String.eqb_spec k k2) as [E|_]; [contradiction|].
      now rewrite IH.
Qed.

Lemma typesOf_set (o : obj) (k k' : string) (i : obj) :
  typesOf (obj_set o k (JObj i)) k' = if String.eqb k k' then i else typesOf o k'.
Proof.
  unfold typesOf. destruct (String.eqb_spec k k') as [->|Hne].
  - now rewrite obj_get_set_eq.
  - now rewrite obj_get_set_ne.
Qed.

Lemma store_overwrite (t : obj) (w w1 : write) :
  sameKeys w w1 -> store (store t w) w1 = store t w1.
Proof.
  intros [Ev Et]. unfold store. rewrite <- Ev, <- Et.
  rewrite typesOf_set, String.eqb_refl, !obj_set_set. reflexivity.
Qed.

Lemma store_comm (t : obj) (w w1 : write) :
  present t w1 -> ~ sameKeys w w1 ->
  store (store t w) w1 = store (store t w1) w.
Proof.
  intros [i [Hi Ht]] Hne. unfold store.
  destruct (String.eqb_spec (vendorKey w) (vendorKey w1)) as [Ev|Ev].
  - assert (Etk : typeKey w1 <> typeKey w).
    { intros E. apply Hne. split; [exact Ev|now symmetry]. }
    rewrite <- Ev in *. rewrite !typesOf_set, String.eqb_refl, !obj_set_set.
    unfold typesOf. rewrite Hi. do 2 f_equal. now apply obj_set_comm.
  - rewrite !typesOf_set.
    destruct (String.eqb_spec (vendorKey w) (vendorKey w1)) as [E|_]; [contradiction|].
    destruct (String.eqb_spec (vendorKey w1) (vendorKey w)) as [E|_]; [now destruct Ev|].
    apply obj_set_comm; [congruence|]. now rewrite Hi.
Qed.

Lemma present_store_self (t : obj) (w : write) : present (store t w) w.
Proof.
  unfold present, store. eexists. split; [apply obj_get_set_eq|].
  now rewrite obj_get_set_eq.
Qed.

Lemma present_store (t : obj) (w w1 : write) :
  present t w1 -> present (store t w) w1.
Proof.
  intros [i [Hi Ht]]. unfold present, store.
  destruct (String.eqb_spec (vendorKey w) (vendorKey w1)) as [Ev|Ev].
  - rewrite <- Ev in *. eexists. split; [apply obj_get_set_eq|].
    unfold typesOf. rewrite Hi.
    destruct (String.eqb_spec (typeKey w) (typeKey w1)) as [Et|Et].
    + rewrite <- Et. now rewrite obj_get_set_eq.
    + now rewrite obj_get_set_ne.
  - exists i. split; [|exact Ht]. now rewrite obj_get_set_ne.
Qed.

Lemma sameKeys_dec (w w1 : write) : {sameKeys w w1} + {~ sameKeys w w1}.
Proof.
  unfold sameKeys.
  destruct (string_dec (vendorKey w) (vendorKey w1));
    destruct (string_dec (typeKey w) (typeKey w1)); tauto.
Qed.

Lemma fold_store_present (ws : list write) :
  forall t w, present t w -> present (fold_left store ws t) w.
Proof.
  induction ws as [|w0 ws IH]; intros t w H; cbn [fold_left]; [exact H|].
  apply IH. now apply present_store.
Qed.

Lemma fold_store_all_present (ws : list write) :
  forall t, List.Forall (present (fold_left store ws t)) ws.
Proof.
  induction ws as [|w ws IH]; intros t; cbn [fold_left]; constructor.
  - apply fold_store_present. apply present_store_self.
  - apply IH.
Qed.

(* a write made before a sequence of writes that are all present, and made
   again after it, might as well be made after it only *)
Lemma store_absorbed (ws : list write) :
  forall t w,
    List.Forall (present t) ws ->
    store (fold_left store ws (store t w)) w = store (fold_left store ws t) w.
Proof.
  induction ws as [|w1 ws IH]; intros t w Hall; cbn [fold_left].
  - apply store_overwrite. now split.
  - inversion Hall as [|? ? H1 Hrest]; subst.
    destruct (sameKeys_dec w w1) as [Hs|Hs].
    + now rewrite store_overwrite.
    + rewrite store_comm by assumption. apply IH.
      eapply List.Forall_impl; [|exact Hrest]. intros a. apply present_store.
Qed.

Lemma fold_store_idempotent (ws : list write) :
  forall t, fold_left store ws (fold_left store ws t) = fold_left store ws t.
Proof.
  induction ws as [|w ws IH] using rev_ind; intros t; [reflexivity|].
  rewrite !fold_left_app. cbn [fold_left].
  rewrite store_absorbed by apply fold_store_all_present.
  now rewrite IH.
Qed.

Lemma run_fold (ws : list write) :
  forall o o', run ws o = Some o' ->
    o' = fold_left store ws o /\ List.Forall (fun w => keysOk w = true) ws.
Proof.
  induction ws as [|w ws IH]; intros o o'; cbn [run fold_left].
  - intros [= <-]. split; [reflexivity|constructor].
  - destruct (allowed o w) eqn:Ha; [|discriminate]. intros H.
    destruct (IH _ _ H) as [-> Hk]. split; [reflexivity|].
    constructor; [|exact Hk]. unfold allowed in Ha. now apply andb_true_iff in Ha as [Ha _].
Qed.

Lemma run_present (ws : list write) :
  forall o,
    List.Forall (present o) ws -> List.Forall (fun w => keysOk w = true) ws ->
    run ws o = Some (fold_left store ws o).
Proof.
  induction ws as [|w ws IH]; intros o Hp Hk; cbn [run fold_left]; [reflexivity|].
  inversion Hp as [|? ? [i [Hi _]] Hp']; subst. inversion Hk as [|? ? Hkw Hk']; subst.
  unfold allowed. rewrite Hkw, Hi. cbn [default isArray negb andb].
  apply IH; [|exact Hk'].
  eapply List.Forall_impl; [|exact Hp']. intros a. apply present_store.
Qed.

(** X8. addToOptions is idempotent: run again on the document it wrote,
    with the same presets, it succeeds and writes the same document. *)
Theorem X8_options_idempotent :
  forall (obj : JSValue) (ps : list JSValue) (out : JSValue),
    addToOptions obj ps = Ok out -> addToOptions out ps = Ok out.
Proof.
  unfold addToOptions. intros obj ps out H.
  destruct obj as [ | | b | z | m k | s | l | o];
    try (match type of H with
         | applyProfiles _ ?v = _ =>
             assert (E : out = v)
               by (apply (applyProfiles_not_object ps v out); [intros; discriminate|exact H])
         end; subst out; exact H).
  apply options_applyProfiles_run in H as (ws & o' & Hws & Hrun & ->).
  apply options_applyProfiles_run. exists ws, o'. split; [exact Hws|]. split; [|reflexivity].
  apply run_fold in Hrun as [-> Hk].
  rewrite run_present; [now rewrite fold_store_idempotent| |exact Hk].
  apply fold_store_all_present.
Qed.

Lemma X8_witness :
  exists out,
    addToOptions Sample.options [Sample.presetNew; Sample.presetNoId; Sample.presetIdOnly]
    = Ok out
    /\ addToOptions out [Sample.presetNew; Sample.presetNoId; Sample.presetIdOnly] = Ok out.
Proof.
  destruct (addToOptions Sample.options
              [Sample.presetNew; Sample.presetNoId; Sample.presetIdOnly])
    as [out|e] eqn:E; [|vm_compute in E; discriminate E].
  exists out. split; [reflexivity|]. exact (X8_options_idempotent _ _ _ E).
Defined.

Lemma own2_store (o : obj) (w : write) (vk tk : string) :
  own2 (JObj (store o w)) vk tk =
    if String.eqb (vendorKey w) vk && String.eqb (typeKey w) tk
    then Some (nameOf w) else own2 (JObj o) vk tk.
Proof.
  unfold own2, store. cbn [Spec.own].
  destruct (String.eqb_spec (vendorKey w) vk) as [<-|Hv]; cbn [andb].
  - rewrite obj_get_set_eq. cbn [Spec.own].
    destruct (String.eqb_spec (typeKey w) tk) as [<-|Ht].
    + apply obj_get_set_eq.
    + rewrite obj_get_set_ne by exact Ht. unfold typesOf.
      now destruct (obj_get o (vendorKey w)) as [[]|].
  - now rewrite obj_get_set_ne.
Qed.

Lemma own2_fold (ws : list write) (vk tk : string) :
  forall o,
    own2 (JObj (fold_left store ws o)) vk tk =
      match lastWrite ws vk tk with
      | Some n => Some n
      | None => own2 (JObj o) vk tk
      end.
Proof.
  induction ws as [|w ws IH]; intros o; cbn [fold_left lastWrite]; [reflexivity|].
  rewrite IH. destruct (lastWrite ws vk tk); [reflexivity|]. rewrite own2_store.
  now destruct (String.eqb (vendorKey w) vk && String.eqb (typeKey w) tk).
Qed.

Lemma own_fold (ws : list write) (vk : string) :
  forall o,
    List.Forall (fun w => vendorKey w <> vk) ws ->
    obj_get (fold_left store ws o) vk = obj_get o vk.
Proof.
  induction ws as [|w ws IH]; intros o H; cbn [fold_left]; [reflexivity|].
  inversion H as [|? ? Hw Hr]; subst. rewrite (IH _ Hr). unfold store.
  now apply obj_get_set_ne.
Qed.

(** X9. In the document that addToOptions writes from an object, the name
    under a vendor and a type is the one of the last preset that is not
    skipped and has that vendor and type; every other pair of a vendor and
    a type is as in the baseline, and a vendor that no such preset names
    keeps its value. *)
Theorem X9_options_hold_last_name :
  forall (o : obj) (ps : list JSValue) (out : JSValue),
    addToOptions (JObj o) ps = Ok out ->
    exists ws,
      writesOf ps = Ok ws
      /\ (forall vk tk,
            own2 out vk tk =
              match lastWrite ws vk tk with
              | Some n => Some n
              | None => own2 (JObj o) vk tk
              end)
      /\ (forall vk,
            List.Forall (fun w => vendorKey w <> vk) ws ->
            Spec.own out vk = Spec.own (JObj o) vk).
Proof.
  unfold addToOptions. intros o ps out H.
  apply options_applyProfiles_run in H as (ws & o' & Hws & Hrun & ->).
  apply run_fold in Hrun as [-> _].
  exists ws. split; [exact Hws|]. split.
  - intros vk tk. apply own2_fold.
  - intros vk Hvk. cbn [Spec.own]. now apply own_fold.
Qed.

Lemma X9_witness :
  exists out,
    addToOptions Sample.options [Sample.presetNew; Sample.presetNoId] = Ok out
    /\ own2 out "X" "PLA" = Some (JStr "New")
    /\ own2 out "X" "ABS" = Some (JStr "Tough ABS")
    /\ own2 out "Acme" "PETG" = Some (JStr "Loose").
Proof.
  destruct (addToOptions Sample.options [Sample.presetNew; Sample.presetNoId])
    as [out|e] eqn:E; [|vm_compute in E; discriminate E].
  exists out. split; [reflexivity|].
  destruct (X9_options_hold_last_name [("X", JObj [("ABS", JStr "Tough ABS")])] _ _ E)
    as (ws & Hws & Hget & _).
  vm_compute in Hws. injection Hws as <-.
  rewrite !Hget. repeat split.
Defined.

End OptionsMore.

(** *** Preset expansion: normal forms, file names, outcomes *)

Section ExpansionMore.
Import BaseFix Notions.

#[local] Arguments String.append : simpl nomatch.

Lemma obj_set_Forall_key (P : string * JSValue -> Prop) (o : obj) (k : string)
    (v : JSValue) :
  P (k, v) -> List.Forall P o -> List.Forall P (obj_set o k v).
Proof.
  intros Hv. induction o as [|[k' v'] o IH]; intros H; cbn [obj_set].
  - constructor; [exact Hv|constructor].
  - inversion H; subst. destruct (String.eqb_spec k' k) as [->|_]; constructor; auto.
Qed.

Lemma normalize_entry_normal (o : obj) (k : string) (v out' : JSValue) :
  normalize_entry (JObj o) (k, v) = Ok out' ->
  List.Forall (fun kv => normalEntry kv = true /\ fst kv <> "__proto__") o ->
  exists o1, out' = JObj o1
    /\ List.Forall (fun kv => normalEntry kv = true /\ fst kv <> "__proto__") o1.
Proof.
  intros Hout Hall.
  assert (Hset : forall x, normalEntry (k, x) = true ->
                 set_prop (JObj o) k x = Ok out' ->
                 exists o1, out' = JObj o1
                   /\ List.Forall (fun kv => normalEntry kv = true /\ fst kv <> "__proto__") o1).
  { intros x Hn Hx. apply set_prop_Ok_obj in Hx as [Hk ->].
    eexists. split; [reflexivity|]. apply obj_set_Forall_key; [|exact Hall]. now split. }
  unfold normalize_entry in Hout.
  destruct v;
    try (destruct (is_string_key k) eqn:Ek;
         apply bind_Ok in Hout as [str [_ Hout]];
         refine (Hset _ _ Hout); unfold normalEntry; cbn [fst snd]; auto).
  - injection Hout as <-. eauto.
  - exact (Hset (JArr l) eq_refl Hout).
Qed.

Lemma normalize_loop_normal (es : list (string * JSValue)) :
  forall o r,
    normalize_loop es (JObj o) = Ok r ->
    List.Forall (fun kv => normalEntry kv = true /\ fst kv <> "__proto__") o ->
    exists o', r = JObj o'
      /\ List.Forall (fun kv => normalEntry kv = true /\ fst kv <> "__proto__") o'.
Proof.
  induction es as [|[k v] es IH]; intros o r; cbn [normalize_loop].
  - intros [= <-] H. eauto.
  - intros H Hall. apply bind_Ok in H as [out' [Hout H]].
    destruct (normalize_entry_normal _ _ _ _ Hout Hall) as [o1 [-> Hall1]].
    now apply (IH _ _ H).
Qed.

(* a normalised preset is rebuilt entry by entry *)
Lemma normalize_loop_rebuild (es : list (string * JSValue)) :
  forall acc,
    List.NoDup (obj_keys (acc ++ es)%list) ->
    List.Forall (fun kv => normalEntry kv = true /\ fst kv <> "__proto__") es ->
    normalize_loop es (JObj acc) = Ok (JObj (acc ++ es)%list).
Proof.
  induction es as [|[k v] es IH]; intros acc Hnd Hall; cbn [normalize_loop].
  - now rewrite List.app_nil_r.
  - inversion Hall as [|? ? [Hn Hk] Hrest]; subst. cbn [fst] in Hk.
    assert (Hfresh : obj_set acc k v = (acc ++ [(k, v)])%list).
    { apply obj_set_fresh. unfold obj_keys in Hnd. rewrite map_app in Hnd.
      cbn [map fst] in Hnd. apply List.NoDup_remove_2 in Hnd.
      intros Hin. apply Hnd. apply in_or_app. now left. }
    assert (Hstep : normalize_entry (JObj acc) (k, v) = Ok (JObj (acc ++ [(k, v)])%list)).
    { unfold normalize_entry, normalEntry in *. cbn [fst snd] in Hn.
      destruct v; try discriminate Hn.
      - rewrite Hn. cbn [ToString bind set_prop].
        destruct (String.eqb_spec k "__proto__"); [contradiction|]. now rewrite Hfresh.
      - cbn [set_prop].
        destruct (String.eqb_spec k "__proto__"); [contradiction|]. now rewrite Hfresh. }
    rewrite Hstep. cbn [bind]. rewrite IH; [|now rewrite <- List.app_assoc|exact Hrest].
    now rewrite <- List.app_assoc.
Qed.

(** X10. normalizePresetValues returns an object in which every value is
    an array, or a string under one of the ten keys that are kept as
    strings; applied to its own result it returns that result. *)
Theorem X10_normalize_normal_form :
  forall (preset r : JSValue),
    normalizePresetValues preset = Ok r ->
    exists o,
      r = JObj o
      /\ forallb normalEntry o = true
      /\ normalizePresetValues r = Ok r.
Proof.
  intros preset r H.
  destruct (normalizePresetValues_obj _ _ H) as [o [-> Hnd]].
  destruct (normalize_loop_normal _ _ _ H (List.Forall_nil _)) as [o' [[= <-] Hall]].
  exists o. split; [reflexivity|]. split.
  - apply forallb_forall. intros kv Hin.
    rewrite List.Forall_forall in Hall. now apply Hall.
  - unfold normalizePresetValues. change (or_else (JObj o) (JObj [])) with (JObj o).
    cbn [Object_entries]. exact (normalize_loop_rebuild o [] Hnd Hall).
Qed.

Lemma X10_witness :
  exists r,
    normalizePresetValues Sample.shortUserPreset = Ok r
    /\ get r "nozzle_temperature" = JArr [JStr "250"]
    /\ normalizePresetValues r = Ok r.
Proof.
  destruct (normalizePresetValues Sample.shortUserPreset) as [r|e] eqn:E;
    [|vm_compute in E; discriminate E].
  exists r. split; [reflexivity|].
  destruct (X10_normalize_normal_form _ _ E) as [o [-> [_ Hi]]].
  split; [|exact Hi]. vm_compute in E. injection E as <-. reflexivity.
Defined.

(** file names *)

Lemma string_map_length (f : ascii -> ascii) (s : string) :
  String.length (string_map f s) = String.length s.
Proof. induction s as [|c s IH]; simpl; [reflexivity|now rewrite IH]. Qed.

Lemma string_map_safe (s : string) :
  Spec.string_forall safeChar
    (string_map (fun c => if is_unsafe_char c then "_"%char else c) s) = true.
Proof.
  induction s as [|c s IH]; [reflexivity|]. cbn [string_map Spec.string_forall].
  rewrite IH, andb_true_r. unfold safeChar.
  destruct (is_unsafe_char c) eqn:E; [reflexivity|now rewrite E].
Qed.

Lemma string_map_fixed (s : string) :
  Spec.string_forall safeChar s = true ->
  string_map (fun c => if is_unsafe_char c then "_"%char else c) s = s.
Proof.
  induction s as [|c s IH]; [reflexivity|]. cbn [string_map Spec.string_forall].
  intros H. apply andb_true_iff in H as [Hc Hs]. rewrite (IH Hs).
  unfold safeChar in Hc. apply negb_true_iff in Hc. now rewrite Hc.
Qed.

Lemma trim_length (s : string) : (String.length (trim s) <= String.length s)%nat.
Proof.
  destruct (trim_split s) as [ws1 [ws2 [E _]]].
  rewrite E at 2. rewrite !len_app. lia.
Qed.

(** X11. sanitizeFilename returns a name without any of the characters
    it replaces (the separators, the reserved punctuation and the control
    characters), no longer than the given name, and it leaves its own
    results unchanged. *)
Theorem X11_sanitizeFilename_safe :
  forall name : string,
    Spec.string_forall safeChar (sanitizeFilename name) = true
    /\ (String.length (sanitizeFilename name) <= String.length name)%nat
    /\ sanitizeFilename (sanitizeFilename name) = sanitizeFilename name.
Proof.
  intros name. unfold sanitizeFilename.
  assert (Hs : Spec.string_forall safeChar
                 (trim (string_map (fun c => if is_unsafe_char c then "_"%char else c) name))
               = true).
  { apply string_forall_trim, string_map_safe. }
  split; [exact Hs|]. split.
  - rewrite <- (string_map_length (fun c => if is_unsafe_char c then "_"%char else c) name).
    apply trim_length.
  - rewrite (string_map_fixed _ Hs). apply trim_idempotent.
Qed.

(** outcomes *)

Lemma string_rev_onto_length (s : string) :
  forall acc, String.length (string_rev_onto s acc) = (String.length s + String.length acc)%nat.
Proof.
  induction s as [|c s IH]; intros acc; simpl; [reflexivity|].
  rewrite IH. simpl. lia.
Qed.

Lemma string_rev_length (s : string) : String.length (string_rev s) = String.length s.
Proof. unfold string_rev. rewrite string_rev_onto_length. simpl. lia. Qed.

Lemma substring_nonempty (n : nat) (s : string) :
  (0 < n)%nat -> s <> "" -> String.substring 0 n s <> "".
Proof.
  destruct n as [|n]; [lia|]. destruct s as [|c s]; [congruence|]. discriminate.
Qed.

Lemma basename_ext_nonempty (fname ext : string) :
  fname <> "" -> fname <> ext -> basename_ext fname ext <> "".
Proof.
  intros Hne Hd. unfold basename_ext, ends_with.
  destruct (String.eqb_spec fname ext) as [E|_]; [contradiction|].
  destruct (strip_prefix (string_rev ext) (string_rev fname)) as [r|] eqn:E;
    [|exact Hne].
  apply substring_nonempty; [|exact Hne].
  apply strip_prefix_Some in E.
  assert (Hl : String.length fname = (String.length ext + String.length r)%nat).
  { rewrite <- (string_rev_length fname), E, len_app, string_rev_length. reflexivity. }
  destruct r as [|c r].
  - exfalso. apply Hd. rewrite app_nil_r_s in E.
    rewrite <- (string_rev_involutive fname), E. apply string_rev_involutive.
  - simpl in Hl. lia.
Qed.

Lemma ensureName_name (fname : string) (m : obj) (r : JSValue) :
  ensureName fname (JObj m) = Ok r ->
  exists n, get r "name" = JStr n /\ (fname <> "" -> fname <> ".json" -> n <> "").
Proof.
  unfold ensureName.
  destruct (get (JObj m) "name") as [ | | | | |s| | ] eqn:En;
    cbn [truthy is_string negb orb];
    try (rewrite ?orb_true_r; intros H; apply set_prop_Ok_obj in H as [_ ->];
         eexists; split; [apply get_set_eq|apply basename_ext_nonempty]).
  destruct (String.eqb_spec s "") as [->|Hs]; cbn [negb orb].
  - intros H. apply set_prop_Ok_obj in H as [_ ->].
    eexists. split; [apply get_set_eq|apply basename_ext_nonempty].
  - intros [= <-]. exists s. split; [exact En|auto].
Qed.

Lemma expand_name (fname : string) (rootName : option string)
    (rootPreset basePreset userPreset final : JSValue) :
  expand fname rootName rootPreset basePreset userPreset = Ok final ->
  exists n, get final "name" = JStr n /\ (fname <> "" -> fname <> ".json" -> n <> "").
Proof.
  unfold expand. intros H.
  apply bind_Ok in H as [rootN [Hr H]]. apply bind_Ok in H as [baseN [Hb H]].
  apply bind_Ok in H as [userN [Hu H]]. apply bind_Ok in H as [merged [Hm H]].
  apply bind_Ok in H as [merged1 [Hf He]].
  destruct (normalizePresetValues_obj _ _ Hr) as [r [-> _]].
  destruct (normalizePresetValues_obj _ _ Hb) as [b [-> _]].
  destruct (normalizePresetValues_obj _ _ Hu) as [u [-> _]].
  destruct (merge_obj _ _ _ _ Hm) as [m ->].
  destruct (forceInherits_spec _ _ _ Hf) as [m1 [-> _]].
  exact (ensureName_name _ _ _ He).
Qed.

Lemma loadRoot_warnings (env : Env) (basePreset : JSValue) :
  0 <= snd (loadRoot env basePreset) <= 1.
Proof.
  unfold loadRoot. destruct (inheritsName basePreset) as [n|]; [|simpl; lia].
  destruct (String.eqb n ""); [simpl; lia|].
  destruct (findSystemPresetPathByName env n) as [pth|]; [|simpl; lia].
  destruct (readJson env pth); simpl; lia.
Qed.

(** X12. When the pass over a preset file, named as a directory entry is,
    writes, the output path is the one of the sanitized file name, no file
    was there unless --force was given, the written preset carries a string
    name, and at most two warnings were raised.  The name is not empty
    unless the file is named .json (or has the empty name): for that file a
    preset without a usable name is written with the empty name. *)
Theorem X12_written_preset :
  forall (env : Env) (fname path : string) (merged : JSValue) (w : Z),
    bareName fname = true ->
    processPreset env fname = Ok (Wrote path merged w) ->
    path = outPathOf env (sanitizeFilename fname)
    /\ (isFile env path = true -> FORCE env = true)
    /\ writeSucceeds env path = true
    /\ (exists n, get merged "name" = JStr n
                  /\ (fname <> "" -> fname <> ".json" -> n <> ""))
    /\ 0 <= w <= 2.
Proof.
  intros env fname path merged w _. unfold processPreset.
  destruct (readJson env (srcPathOf env fname)) as [user|]; [|discriminate].
  destruct (looksLikeTruncatedUserPreset user); cbn [negb]; [|discriminate].
  destruct (isFile env (outPathOf env (sanitizeFilename fname))
            && negb (FORCE env)) eqn:Ef; [discriminate|].
  destruct (findSystemPresetPathByName env _) as [basePath|]; [|discriminate].
  destruct (readJson env basePath) as [base|]; [|discriminate].
  pose proof (loadRoot_warnings env base) as Hw.
  destruct (loadRoot env base) as [[rootName rootPreset] w0]. cbn [snd] in Hw.
  destruct (expand fname rootName rootPreset base user) as [m|] eqn:Ex; cbn [bind];
    [|discriminate].
  destruct (writeSucceeds env (outPathOf env (sanitizeFilename fname))) eqn:Ews;
    [|discriminate].
  intros [= <- <- <-]. split; [reflexivity|]. split.
  { intros Hf. rewrite Hf in Ef. cbn [andb] in Ef. now apply negb_false_iff in Ef. }
  split; [exact Ews|]. split; [exact (expand_name _ _ _ _ _ _ Ex)|].
  destruct (countKeys m <? 120); lia.
Qed.

(* the preset whose name is an array, read from n.json, is written with the
   name n; read from .json, with the empty name *)
Lemma X12_witness :
  (exists merged w n,
     processPreset Samples.envArrayName "n.json" = Ok (Wrote "base/n.json" merged w)
     /\ get merged "name" = JStr n /\ n <> ""
     /\ 0 <= w <= 2)
  /\ (exists merged w,
        processPreset Samples.envArrayName ".json" = Ok (Wrote "base/.json" merged w)
        /\ get merged "name" = JStr "").
Proof.
  split.
  - destruct (processPreset Samples.envArrayName "n.json") as [[w0|path merged w]|e] eqn:E;
      try (vm_compute in E; discriminate E).
    destruct (X12_written_preset Samples.envArrayName "n.json" path merged w eq_refl E)
      as (Hp & _ & _ & (n & Hn & Hne) & Hw).
    assert (Hp' : path = "base/n.json") by (rewrite Hp; vm_compute; reflexivity).
    subst path. exists merged, w, n. split; [reflexivity|]. split; [exact Hn|].
    split; [apply Hne; discriminate|exact Hw].
  - destruct (processPreset Samples.envArrayName ".json") as [[w0|path merged w]|e] eqn:E;
      try (vm_compute in E; discriminate E).
    destruct (X12_written_preset Samples.envArrayName ".json" path merged w eq_refl E)
      as (Hp & _).
    assert (Hp' : path = "base/.json") by (rewrite Hp; vm_compute; reflexivity).
    subst path. exists merged, w. split; [reflexivity|].
    vm_compute in E. injection E as <- <-. reflexivity.
Defined.

Lemma processPreset_warnings (env : Env) (fname : string) (o : outcome) :
  processPreset env fname = Ok o ->
  match o with
  | Skipped w => 0 <= w <= 2
  | Wrote _ _ w => 0 <= w <= 2
  end.
Proof.
  unfold processPreset.
  destruct (readJson env (srcPathOf env fname)) as [user|]; [|intros [= <-]; lia].
  destruct (looksLikeTruncatedUserPreset user); cbn [negb]; [|intros [= <-]; lia].
  destruct (isFile env (outPathOf env (sanitizeFilename fname))
            && negb (FORCE env)); [intros [= <-]; lia|].
  destruct (findSystemPresetPathByName env _) as [basePath|]; [|intros [= <-]; lia].
  destruct (readJson env basePath) as [base|]; [|intros [= <-]; lia].
  pose proof (loadRoot_warnings env base) as Hw.
  destruct (loadRoot env base) as [[rootName rootPreset] w0]. cbn [snd] in Hw.
  destruct (expand fname rootName rootPreset base user) as [m|]; cbn [bind];
    [|discriminate].
  destruct (writeSucceeds env _); intros [= <-]; destruct (countKeys m <? 120); lia.
Qed.

End ExpansionMore.

(** *** The pass over a version directory *)

Section VersionPass.
Import BaseFix BaseFixRun.

Lemma processFiles_tally (env : Env) (fs : list string) :
  forall t t',
    processFiles env fs t = Ok t' ->
    built t' + skipped t' = built t + skipped t + Z.of_nat (length fs)
    /\ built t <= built t' /\ skipped t <= skipped t'
    /\ warnings t <= warnings t'
    /\ warnings t' - warnings t <= 2 * Z.of_nat (length fs).
Proof.
  induction fs as [|f fs IH]; intros t t'; cbn [processFiles].
  - intros [= <-]. simpl. lia.
  - intros H. apply bind_Ok in H as [o [Ho H]].
    apply processPreset_warnings in Ho. apply IH in H.
    destruct o; cbn [count built skipped warnings] in H;
      cbn [length]; lia.
Qed.

(** X13. The pass over a version directory counts every preset file once,
    as built or as skipped, and raises at most two warnings per file; when
    the user filament directory or the system directory is missing nothing
    is counted. *)
Theorem X13_every_file_counted_once :
  forall (v : version) (t : tally),
    processCrealityVersion v = Ok t ->
    0 <= built t /\ 0 <= skipped t
    /\ 0 <= warnings t <= 2 * (built t + skipped t)
    /\ (userDir v = true -> systemDir v = true ->
        forall es, entries v = Ok es ->
          built t + skipped t = Z.of_nat (length (jsonFiles es)))
    /\ (userDir v = false \/ systemDir v = false -> t = no_tally).
Proof.
  intros v t. unfold processCrealityVersion.
  destruct (userDir v); cbn [negb].
  2:{ intros [= <-]. cbn. repeat split; try lia; discriminate. }
  destruct (systemDir v); cbn [negb].
  2:{ intros [= <-]. cbn. repeat split; try lia; discriminate. }
  intros H. apply bind_Ok in H as [[] [_ H]]. apply bind_Ok in H as [es [Hes H]].
  assert (G : processFiles (files v) (jsonFiles es) no_tally = Ok t).
  { destruct (jsonFiles es); [exact H|exact H]. }
  apply processFiles_tally in G. cbn [no_tally built skipped warnings] in G.
  split; [lia|]. split; [lia|]. split; [lia|]. split.
  - intros _ _ es' Hes'. rewrite Hes in Hes'. injection Hes' as <-. lia.
  - intros [E|E]; discriminate E.
Qed.

Lemma X13_witness :
  exists t,
    processCrealityVersion Samples.versionDir = Ok t
    /\ built t = 1 /\ skipped t = 1.
Proof.
  destruct (processCrealityVersion Samples.versionDir) as [t|e] eqn:E;
    [|vm_compute in E; discriminate E].
  exists t.
  pose proof (X13_every_file_counted_once _ _ E) as H.
  vm_compute in E. injection E as <-. repeat split.
Defined.

End VersionPass.

(** *** Command lines *)

Section CommandLines.
Import SshUtil Sh.

#[local] Arguments String.append : simpl nomatch.

Lemma lex_quoted_body (s : string) :
  forall r cur acc,
    lex (escapeQuotes s +:+ String apostrophe r) true (Some cur) acc
    = lex r false (Some (cur +:+ s)) acc.
Proof.
  induction s as [|c s IH]; intros r cur acc.
  - cbn [escapeQuotes append lex]. change (Ascii.eqb apostrophe "'") with true.
    cbv iota. now rewrite app_nil_r_s.
  - cbn [escapeQuotes]. destruct (Ascii.eqb_spec c apostrophe) as [->|Hc].
    + cbn [append lex]. change (Ascii.eqb apostrophe "'") with true. cbv iota.
      change (Ascii.eqb bslash "'") with false. cbv iota.
      change (code bslash =? 92) with true. cbv iota.
      change (code apostrophe =? 10) with false. cbv iota.
      unfold push. cbn [default from_option id].
      rewrite IH. now rewrite app_assoc_s.
    + cbn [append lex].
      destruct (Ascii.eqb_spec c "'") as [E|_]; [contradiction|].
      unfold push. cbn [default from_option id].
      rewrite IH. now rewrite app_assoc_s.
Qed.

Lemma lex_quoted (s r : string) (cur : option string) (acc : list token) :
  lex (quoted s +:+ r) false cur acc
  = lex r false (Some (default "" cur +:+ s)) acc.
Proof.
  unfold quoted. cbn [append lex]. change (Ascii.eqb apostrophe "'") with true.
  cbv iota. rewrite app_assoc_s. cbn [append].
  apply lex_quoted_body.
Qed.

(** X14. shellQuote quotes for the shell: the text it returns for a
    string is read by the shell as one word, and that word is the
    string. *)
Theorem X14_shellQuote_one_word :
  forall s : string,
    shellQuote (JStr s) = Ok (quoted s)
    /\ tokens (quoted s) = Some [Word s].
Proof.
  intros s. split; [reflexivity|].
  unfold tokens. rewrite <- (app_nil_r_s (quoted s)), lex_quoted. reflexivity.
Qed.

Lemma writeCommand_tokens (p : string) :
  tokens (writeCommand p "022")
  = Some [Word "set"; Word "-e"; Semi; Word "umask"; Word "022"; Semi;
          Word "mkdir"; Word "-p"; Word (dirOf p); Semi;
          Word "cat"; Great; Word (tmpOf p); Semi;
          Word "mv"; Word "-f"; Word (tmpOf p); Word p; Semi].
Proof.
  unfold tokens, writeCommand.
  change (lex (quoted (dirOf p) +:+ "; cat > " +:+ quoted (tmpOf p) +:+ "; mv -f "
                 +:+ quoted (tmpOf p) +:+ " " +:+ quoted p +:+ ";") false None
            [Word "set"; Word "-e"; Semi; Word "umask"; Word "022"; Semi;
             Word "mkdir"; Word "-p"]
          = Some [Word "set"; Word "-e"; Semi; Word "umask"; Word "022"; Semi;
                  Word "mkdir"; Word "-p"; Word (dirOf p); Semi;
                  Word "cat"; Great; Word (tmpOf p); Semi;
                  Word "mv"; Word "-f"; Word (tmpOf p); Word p; Semi]).
  rewrite lex_quoted.
  change (lex (quoted (tmpOf p) +:+ "; mv -f " +:+ quoted (tmpOf p) +:+ " "
                 +:+ quoted p +:+ ";") false None
            [Word "set"; Word "-e"; Semi; Word "umask"; Word "022"; Semi;
             Word "mkdir"; Word "-p"; Word (dirOf p); Semi; Word "cat"; Great]
          = Some [Word "set"; Word "-e"; Semi; Word "umask"; Word "022"; Semi;
                  Word "mkdir"; Word "-p"; Word (dirOf p); Semi;
                  Word "cat"; Great; Word (tmpOf p); Semi;
                  Word "mv"; Word "-f"; Word (tmpOf p); Word p; Semi]).
  rewrite lex_quoted.
  change (lex (quoted (tmpOf p) +:+ " " +:+ quoted p +:+ ";") false None
            [Word "set"; Word "-e"; Semi; Word "umask"; Word "022"; Semi;
             Word "mkdir"; Word "-p"; Word (dirOf p); Semi; Word "cat"; Great;
             Word (tmpOf p); Semi; Word "mv"; Word "-f"]
          = Some [Word "set"; Word "-e"; Semi; Word "umask"; Word "022"; Semi;
                  Word "mkdir"; Word "-p"; Word (dirOf p); Semi;
                  Word "cat"; Great; Word (tmpOf p); Semi;
                  Word "mv"; Word "-f"; Word (tmpOf p); Word p; Semi]).
  rewrite lex_quoted.
  change (lex (quoted p +:+ ";") false None
            [Word "set"; Word "-e"; Semi; Word "umask"; Word "022"; Semi;
             Word "mkdir"; Word "-p"; Word (dirOf p); Semi; Word "cat"; Great;
             Word (tmpOf p); Semi; Word "mv"; Word "-f"; Word (tmpOf p)]
          = Some [Word "set"; Word "-e"; Semi; Word "umask"; Word "022"; Semi;
                  Word "mkdir"; Word "-p"; Word (dirOf p); Semi;
                  Word "cat"; Great; Word (tmpOf p); Semi;
                  Word "mv"; Word "-f"; Word (tmpOf p); Word p; Semi]).
  rewrite lex_quoted. reflexivity.
Qed.

(** X15. Whatever the command and the paths, the command lines sent to
    the printer are read by the shell as intended: the line of exec is the
    three words sh, -c and the command; the command of readRemoteFile is
    cat and the path; the command of writeRemoteFileAtomic is set -e, umask,
    mkdir -p of the directory, cat into the temporary file, and mv -f of
    the temporary file onto the path; the commands of uploadFiles are
    mkdir -p of the directory and ls -l of the path, or true.  No
    character of a path is read as shell syntax. *)
Theorem X15_command_lines_are_quoted :
  forall command path dir : string,
    tokens (execLine command) = Some [Word "sh"; Word "-c"; Word command]
    /\ tokens (readCommand path) = Some [Word "cat"; Word path]
    /\ tokens (writeCommand path "022")
       = Some [Word "set"; Word "-e"; Semi; Word "umask"; Word "022"; Semi;
               Word "mkdir"; Word "-p"; Word (dirOf path); Semi;
               Word "cat"; Great; Word (tmpOf path); Semi;
               Word "mv"; Word "-f"; Word (tmpOf path); Word path; Semi]
    /\ tokens (Scp.mkdirCommand dir) = Some [Word "mkdir"; Word "-p"; Word dir]
    /\ tokens (Scp.verifyCommand path)
       = Some [Word "ls"; Word "-l"; Word path; OrIf; Word "true"].
Proof.
  intros command path dir.
  split.
  { unfold tokens, execLine.
    change (lex (quoted command) false None [Word "sh"; Word "-c"]
            = Some [Word "sh"; Word "-c"; Word command]).
    now rewrite <- (app_nil_r_s (quoted command)), lex_quoted. }
  split.
  { unfold tokens, readCommand.
    change (lex (quoted path) false None [Word "cat"]
            = Some [Word "cat"; Word path]).
    now rewrite <- (app_nil_r_s (quoted path)), lex_quoted. }
  split; [apply writeCommand_tokens|].
  split.
  { unfold tokens, Scp.mkdirCommand.
    change (lex (quoted dir) false None [Word "mkdir"; Word "-p"]
            = Some [Word "mkdir"; Word "-p"; Word dir]).
    now rewrite <- (app_nil_r_s (quoted dir)), lex_quoted. }
  unfold tokens, Scp.verifyCommand.
  change (lex (String apostrophe (escapeQuotes path +:+ String apostrophe " || true"))
            false None [Word "ls"; Word "-l"]
          = Some [Word "ls"; Word "-l"; Word path; OrIf; Word "true"]).
  cbn [lex]. change (Ascii.eqb apostrophe "'") with true. cbv iota.
  now rewrite lex_quoted_body.
Qed.

(** the directory of a remote path *)

Lemma no_slash_app (a b : string) : no_slash (a +:+ b) = no_slash a && no_slash b.
Proof. induction a as [|c a IH]; simpl; [reflexivity|]. now rewrite IH, andb_assoc. Qed.

Lemma dirOf_segment (d n : string) :
  n <> "" -> no_slash n = true -> dirOf (d +:+ String "/" n) = d.
Proof.
  intros Hn Hs. induction d as [|c d IH]; cbn [append dirOf].
  - change (Ascii.eqb "/" "/") with true. rewrite Hs.
    destruct (String.eqb_spec n "") as [E|_]; [contradiction|reflexivity].
  - rewrite no_slash_app. cbn [no_slash]. change (Ascii.eqb "/" "/") with true.
    cbn [negb andb]. rewrite !andb_false_r. now rewrite IH.
Qed.

Lemma dirOf_no_slash (p : string) : no_slash p = true -> dirOf p = p.
Proof.
  induction p as [|c p IH]; [reflexivity|]. cbn [no_slash dirOf].
  intros H. apply andb_true_iff in H as [Hc Hp]. apply negb_true_iff in Hc.
  rewrite Hc. cbn [andb]. now rewrite IH.
Qed.

Lemma dirOf_trailing_slash (p : string) : dirOf (p +:+ "/") = p +:+ "/".
Proof.
  induction p as [|c p IH]; [reflexivity|]. cbn [append dirOf].
  rewrite no_slash_app. cbn [no_slash]. change (Ascii.eqb "/" "/") with true.
  cbn [negb andb]. rewrite !andb_false_r. now rewrite IH.
Qed.

(** X16. For a remote path that ends in a slash and a name, the directory
    that writeRemoteFileAtomic creates is the part before that slash, and
    the temporary file lies in it.  A path without a slash, and a path that
    ends in a slash, is taken as its own directory. *)
Theorem X16_directory_of_remote_path :
  forall d n p : string,
    (n <> "" -> no_slash n = true ->
       dirOf (d +:+ "/" +:+ n) = d /\ dirOf (tmpOf (d +:+ "/" +:+ n)) = d)
    /\ (no_slash p = true -> dirOf p = p)
    /\ dirOf (p +:+ "/") = p +:+ "/".
Proof.
  intros d n p. split; [|split; [apply dirOf_no_slash|apply dirOf_trailing_slash]].
  intros Hn Hs. change ("/" +:+ n) with (String "/" n). split.
  - now apply dirOf_segment.
  - unfold tmpOf. rewrite app_assoc_s. change (String "/" n +:+ ".tmp")
      with (String "/" (n +:+ ".tmp")).
    apply dirOf_segment.
    + destruct n; [contradiction|discriminate].
    + rewrite no_slash_app, Hs. reflexivity.
Qed.

Lemma X16_witness :
  dirOf "/usr/share/Filament-Sync/material_option.json" = "/usr/share/Filament-Sync"
  /\ dirOf (tmpOf "/usr/share/Filament-Sync/material_option.json")
     = "/usr/share/Filament-Sync".
Proof.
  apply (X16_directory_of_remote_path "/usr/share/Filament-Sync" "material_option.json" "");
    [discriminate|reflexivity].
Defined.

End CommandLines.

(** *** The printer settings *)

Section PrinterSettings.
Import Printer.

(** X17. The upload and the baseline loaders read the same settings: the
    upload raises its missing-host or missing-password error exactly when
    getPrinterConfig of the database and options tools returns null, which
    makes them fall back to the bundled baseline; otherwise both return the
    same host, port, user and password, and both fail on the same port
    values. *)
Theorem X17_settings_agree :
  forall cfg : obj,
    ((exists msg, getUploadConfig cfg = Throw (Error msg))
       <-> getPrinterConfig cfg = Ok None)
    /\ (forall s, (exists dir, getUploadConfig cfg = Ok (s, dir))
                  <-> getPrinterConfig cfg = Ok (Some s))
    /\ (forall e, e <> TypeError -> (forall msg, e <> Error msg) ->
                  getUploadConfig cfg <> Throw e /\ getPrinterConfig cfg <> Throw e)
    /\ (getUploadConfig cfg = Throw TypeError <-> getPrinterConfig cfg = Throw TypeError).
Proof.
  intros cfg. unfold getUploadConfig, getPrinterConfig, ToNumber_effect.
  destruct (ToString (portOf cfg)) as [x|e0] eqn:Ep; cbn [bind].
  - destruct (truthy (hostOf cfg)); destruct (truthy (passwordOf cfg)); cbn [negb orb].
    + split; [split; [intros [m H]; discriminate H|discriminate]|].
      split; [intros s; split; [intros [d [= <-]]; reflexivity|intros [= <-]; eauto]|].
      split; [intros e _ _; split; discriminate|split; discriminate].
    + split; [split; [reflexivity|eauto]|].
      split; [intros s; split; [intros [d H]; discriminate H|discriminate]|].
      split; [intros e _ He; split; [intros [= <-]; now destruct (He missing_password)
                                    |discriminate]|split; discriminate].
    + split; [split; [reflexivity|eauto]|].
      split; [intros s; split; [intros [d H]; discriminate H|discriminate]|].
      split; [intros e _ He; split; [intros [= <-]; now destruct (He missing_host)
                                    |discriminate]|split; discriminate].
    + split; [split; [reflexivity|eauto]|].
      split; [intros s; split; [intros [d H]; discriminate H|discriminate]|].
      split; [intros e _ He; split; [intros [= <-]; now destruct (He missing_host)
                                    |discriminate]|split; discriminate].
  - apply ToString_Throw in Ep. subst e0.
    split; [split; [intros [m H]; discriminate H|discriminate]|].
    split; [intros s; split; [intros [d H]; discriminate H|discriminate]|].
    split; [intros e He _; split; congruence|split; reflexivity].
Qed.

End PrinterSettings.

(** *** The check script *)

Section CheckScript.
Import CheckBase Config.

Lemma filled_notesLooksEmpty (s : string) : filled s = negb (notesLooksEmpty s).
Proof. unfold filled, notesLooksEmpty. now rewrite negb_orb. Qed.

(* on the file as it stands hasNotes is the test of the filter *)
Lemma hasNotes_raw (j : JSValue) :
  hasNotes j =
    match j with
    | JNull | JUndefined => Throw TypeError
    | _ => let* s := getNotesString j in Ok (negb (notesLooksEmpty s))
    end.
Proof.
  unfold hasNotes, getNotesString.
  destruct j as [ | | b | z | m k | s | l | o]; try reflexivity.
  destruct (get (JObj o) "filament_notes") as [ | | | | |s|l| ]; try reflexivity.
  - cbn [bind]. now rewrite filled_notesLooksEmpty.
  - destruct l as [|x l]; [reflexivity|].
    destruct (ToString (coalesce (first_elem (x :: l)) (JStr ""))); cbn [bind];
      [now rewrite filled_notesLooksEmpty|reflexivity].
Qed.

End CheckScript.

(** *** The Creality formatting pass *)

Section Formatting.
Import ConfigLoad Notions Json.

#[local] Arguments String.append : simpl nomatch.

Lemma obj_set_app_fresh (a b : obj) (k : string) (v : JSValue) :
  ~ In k (obj_keys a) -> obj_set (a ++ b)%list k v = (a ++ obj_set b k v)%list.
Proof.
  induction a as [|[k' v'] a IH]; intros Hn; cbn [app obj_set]; [reflexivity|].
  destruct (String.eqb_spec k' k) as [->|_].
  - destruct Hn. now left.
  - rewrite IH; [reflexivity|]. intros Hin. apply Hn. now right.
Qed.

Lemma wrapLoop_wrapped (rest : obj) :
  forall done r,
    List.NoDup (obj_keys (done ++ rest)%list) ->
    wrapLoop (obj_keys rest) (JObj (done ++ rest)%list) = Ok r ->
    r = JObj (done ++ wrapped rest)%list.
Proof.
  induction rest as [|[k v] rest IH]; intros done r Hnd; cbn [obj_keys map wrapLoop].
  - now intros [= <-].
  - intros H. apply bind_Ok in H as [p1 [H1 H]].
    assert (Hk : ~ In k (obj_keys done)).
    { unfold obj_keys in Hnd. rewrite map_app in Hnd. cbn [map fst] in Hnd.
      apply List.NoDup_remove_2 in Hnd. intros Hin. apply Hnd.
      apply in_or_app. now left. }
    assert (Hget : get (JObj (done ++ (k, v) :: rest)%list) k = v).
    { cbn [get]. rewrite obj_get_app.
      apply obj_get_None in Hk. rewrite Hk. cbn [obj_get].
      now rewrite String.eqb_refl. }
    assert (Hp1 : p1 = JObj ((done ++ [(k, wrapElement v)]) ++ rest)%list).
    { unfold wrapEntry in H1. cbn [fst] in H1. rewrite Hget in H1. rewrite <- List.app_assoc. cbn [app].
      destruct v; cbn [wrapElement];
        try (injection H1 as <-; reflexivity);
        (apply set_prop_Ok_obj in H1 as [_ ->];
         rewrite obj_set_app_fresh by exact Hk; cbn [obj_set];
         now rewrite String.eqb_refl). }
    subst p1. fold (obj_keys rest) in H. apply IH in H.
    + rewrite H, <- List.app_assoc. reflexivity.
    + unfold obj_keys in *. rewrite <- List.app_assoc. cbn [app].
      rewrite !map_app in *. exact Hnd.
Qed.

Lemma wrapElement_idem (v : JSValue) : wrapElement (wrapElement v) = wrapElement v.
Proof. now destruct v. Qed.

Lemma wrapElement_not_scalar (v : JSValue) : scalar (wrapElement v) = false.
Proof. now destruct v. Qed.

Lemma obj_get_not_scalar (o : obj) (k : string) (v : JSValue) :
  forallb (fun kv => negb (scalar (snd kv))) o = true ->
  obj_get o k = Some v -> scalar v = false.
Proof.
  induction o as [|[k0 v0] o IHo]; cbn [obj_get forallb snd]; [discriminate|].
  intros Hall. apply andb_true_iff in Hall as [H0 Hr].
  destruct (String.eqb k0 k); [intros [= <-]; now apply negb_true_iff in H0|].
  exact (IHo Hr).
Qed.

Lemma wrapLoop_fixed (ks : list string) (o : obj) :
  forallb (fun kv => negb (scalar (snd kv))) o = true ->
  wrapLoop ks (JObj o) = Ok (JObj o).
Proof.
  intros Hall. induction ks as [|k ks IH]; cbn [wrapLoop]; [reflexivity|].
  assert (H1 : wrapEntry (JObj o) k = Ok (JObj o)).
  { unfold wrapEntry. cbn [get].
    destruct (obj_get o k) as [v|] eqn:E; cbn [default from_option id]; [|reflexivity].
    pose proof (obj_get_not_scalar o k v Hall E) as Hv.
    now destruct v. }
  rewrite H1. exact IH.
Qed.

Lemma wrapped_get (o : obj) (k : string) :
  get (JObj (wrapped o)) k = wrapElement (get (JObj o) k).
Proof.
  cbn [get]. induction o as [|[k0 v0] o IH]; [reflexivity|].
  cbn [wrapped map obj_get fst snd]. destruct (String.eqb k0 k); [reflexivity|exact IH].
Qed.

Lemma wrapped_keys (o : obj) : obj_keys (wrapped o) = obj_keys o.
Proof. unfold obj_keys, wrapped. rewrite map_map. reflexivity. Qed.

Lemma wrapScalars_wrapped (o : obj) (p' : JSValue) :
  List.NoDup (obj_keys o) ->
  wrapScalarsAsArrays (JObj o) = Ok p' -> p' = JObj (wrapped o).
Proof.
  intros Hnd H. exact (wrapLoop_wrapped o [] p' Hnd H).
Qed.

(** X19. wrapScalarsAsArrays on an object preset keeps the keys and their
    order, replaces every string, number and boolean by the array that
    holds it and leaves null, arrays and objects as they are; no value of
    the result is a scalar, and the pass applied to its result changes
    nothing. *)
Theorem X19_wrapScalars_wraps_scalars :
  forall (o : obj) (p' : JSValue),
    json_value (JObj o) = true ->
    wrapScalarsAsArrays (JObj o) = Ok p' ->
    exists o',
      p' = JObj o'
      /\ obj_keys o' = obj_keys o
      /\ (forall k, get p' k = wrapElement (get (JObj o) k))
      /\ forallb (fun kv => negb (scalar (snd kv))) o' = true
      /\ wrapScalarsAsArrays p' = Ok p'.
Proof.
  intros o p' Ho H. apply json_value_obj in Ho as [Hnd _].
  apply (wrapScalars_wrapped o p' Hnd) in H. subst p'.
  assert (Hall : forallb (fun kv => negb (scalar (snd kv))) (wrapped o) = true).
  { apply forallb_forall. intros [k v] Hin. unfold wrapped in Hin.
    apply in_map_iff in Hin as [[k0 v0] [[= <- <-] _]]. cbn [snd].
    now rewrite wrapElement_not_scalar. }
  exists (wrapped o). split; [reflexivity|]. split; [apply wrapped_keys|].
  split; [apply wrapped_get|]. split; [exact Hall|].
  cbn [wrapScalarsAsArrays]. now apply wrapLoop_fixed.
Qed.

Lemma X19_witness :
  exists p',
    wrapScalarsAsArrays (JObj Samples.crealityPreset) = Ok p'
    /\ get p' "nozzle_temperature" = JArr [JNum 210]
    /\ wrapScalarsAsArrays p' = Ok p'.
Proof.
  destruct (wrapScalarsAsArrays (JObj Samples.crealityPreset)) as [p'|e] eqn:E;
    [|vm_compute in E; discriminate E].
  exists p'. split; [reflexivity|].
  destruct (X19_wrapScalars_wraps_scalars Samples.crealityPreset p' eq_refl E)
    as (o' & _ & _ & Hget & _ & Hi).
  split; [rewrite Hget; reflexivity|exact Hi].
Defined.

(** the text of a number or a boolean *)

Lemma digit_not_space (d : Z) : 0 <= d <= 9 -> is_js_space (digit_char d) = false.
Proof.
  intros H. unfold is_js_space. rewrite digit_char_code by exact H.
  repeat (apply orb_false_iff; split); try apply andb_false_iff;
    try (apply Z.eqb_neq; lia). right. apply Z.leb_gt. lia.
Qed.

Lemma digits_of_no_space (f : nat) :
  forall n acc,
    0 <= n ->
    Spec.string_forall (fun c => negb (is_js_space c)) acc = true ->
    Spec.string_forall (fun c => negb (is_js_space c)) (digits_of f n acc) = true.
Proof.
  assert (Hd : forall n, 0 <= n -> is_js_space (digit_char (n mod 10)) = false).
  { intros n Hn. apply digit_not_space.
    pose proof (Z.mod_pos_bound n 10 ltac:(lia)). lia. }
  induction f as [|f IH]; intros n acc Hn Hacc; cbn [digits_of].
  - cbn [Spec.string_forall]. now rewrite Hd, Hacc.
  - destruct (n <? 10).
    + cbn [Spec.string_forall]. now rewrite Hd, Hacc.
    + apply IH; [apply Z.div_pos; lia|].
      cbn [Spec.string_forall]. now rewrite Hd, Hacc.
Qed.

Lemma pad_zeros_no_space (j : nat) :
  forall s,
    Spec.string_forall (fun c => negb (is_js_space c)) s = true ->
    Spec.string_forall (fun c => negb (is_js_space c)) (pad_zeros j s) = true.
Proof.
  induction j as [|j IH]; intros s Hs; cbn [pad_zeros]; [exact Hs|].
  apply IH. cbn [Spec.string_forall]. now rewrite Hs.
Qed.

Lemma trim_no_space (s : string) :
  Spec.string_forall (fun c => negb (is_js_space c)) s = true -> trim s = s.
Proof.
  intros H. apply trim_fixed.
  - destruct s as [|c r]; [exact I|]. cbn [Spec.string_forall] in H.
    apply andb_true_iff in H as [H _]. now apply negb_true_iff in H.
  - rewrite <- (string_forall_rev _ s) in H.
    destruct (string_rev s) as [|c r]; [exact I|]. cbn [Spec.string_forall] in H.
    apply andb_true_iff in H as [H _]. now apply negb_true_iff in H.
Qed.

Lemma number_text_no_space (v : JSValue) (t : string) :
  match v with JNum _ | JDec _ _ => True | _ => False end ->
  ToString v = Ok t ->
  Spec.string_forall (fun c => negb (is_js_space c)) t = true.
Proof.
  destruct v as [ | | | z | m k | | | ]; try contradiction; intros _ [= <-].
  - unfold Z_to_string, nat_digits. destruct (z <? 0) eqn:E.
    + cbn [Spec.string_forall]. apply Z.ltb_lt in E.
      rewrite digits_of_no_space; [reflexivity|lia|reflexivity].
    + apply Z.ltb_ge in E. now apply digits_of_no_space.
  - unfold dec_to_string, nat_digits.
    assert (Hp : 0 < 10 ^ Z.pos k) by (apply Z.pow_pos_nonneg; lia).
    rewrite !string_forall_app.
    rewrite digits_of_no_space;
      [|apply Z.div_pos; lia|reflexivity].
    rewrite pad_zeros_no_space;
      [|apply digits_of_no_space;
        [pose proof (Z.mod_pos_bound (Z.abs m) (10 ^ Z.pos k) Hp); lia|reflexivity]].
    now destruct (m <? 0).
Qed.

(* the text of a number or a boolean: it has no space around it, it is not
   empty, and it parses as the value *)
Lemma scalar_text (v : JSValue) :
  json_value v = true ->
  match v with JBool _ | JNum _ | JDec _ _ => True | _ => False end ->
  exists t,
    ToString v = Ok t
    /\ trim t = t
    /\ String.eqb t "" || String.eqb t empty_quotes = false
    /\ JSON_parse t = Ok v.
Proof.
  intros Hj Hv.
  assert (N : forall w, match w with JNum _ | JDec _ _ => True | _ => False end ->
                json_value w = true ->
                forall t, JSON_stringify w = Some t -> ToString w = Ok t ->
                exists t,
                  ToString w = Ok t /\ trim t = t
                  /\ String.eqb t "" || String.eqb t empty_quotes = false
                  /\ JSON_parse t = Ok w).
  { intros w Hw Hjw t Ht Hs. exists t. split; [exact Hs|].
    split; [exact (trim_no_space t (number_text_no_space w t Hw Hs))|].
    destruct (JSON_round_trip _ Hjw) as [t' [Ht' Hp]].
    assert (t' = t) by congruence. subst t'. split; [|exact Hp].
    destruct (number_text_head w "" Hw t Ht) as [c0 [tl [E Hc]]].
    rewrite app_nil_r_s in E. subst t. apply orb_false_iff. split; [reflexivity|].
    destruct (String.eqb_spec (String c0 tl) empty_quotes) as [E|_]; [|reflexivity].
    injection E as -> _. destruct Hc as [Hc|Hc]; discriminate Hc. }
  destruct v as [ | | [|] | z | m k | | | ]; try contradiction.
  - exists "true". repeat split.
  - exists "false". repeat split.
  - exact (N (JNum z) I Hj _ eq_refl eq_refl).
  - exact (N (JDec m k) I Hj _ eq_refl eq_refl).
Qed.

Lemma scalar_notes_text (v : JSValue) :
  json_value v = true ->
  match v with JBool _ | JNum _ | JDec _ _ => True | _ => False end ->
  exists t x,
    ToString v = Ok t
    /\ (if String.eqb (trim t) "" || String.eqb (trim t) empty_quotes
        then Ok JNull
        else match JSON_parse (trim t) with
             | Ok y => Ok y
             | Throw _ => Ok JNull
             end) = Ok x
    /\ forall k, get x k = JUndefined.
Proof.
  intros Hj Hv. destruct (scalar_text v Hj Hv) as (t & Ht & Htrim & He & Hp).
  exists t, v. rewrite Htrim, He, Hp. repeat split; [exact Ht|].
  intros k. now destruct v.
Qed.

Lemma member_json (o : obj) (k : string) (v : JSValue) :
  json_value (JObj o) = true -> obj_get o k = Some v -> json_value v = true.
Proof.
  intros Ho E. destruct (get_json o k Ho) as [H|H]; cbn [get] in H; rewrite E in H.
  - exact H.
  - cbn [default from_option id] in H. subst v.
    apply json_value_obj in Ho as [_ Hall]. revert E.
    induction Hall as [|[k0 v0] o' Hv Ho' IH]; cbn [obj_get]; [discriminate|].
    destruct (String.eqb k0 k); [intros [= E]; cbn [snd] in Hv; now rewrite E in Hv|exact IH].
Qed.

(* the notes of the wrapped preset: those of the preset, or notes that both
   tools skip where the preset has none *)
Lemma parseNotes_wrapped (o : obj) :
  json_value (JObj o) = true ->
  DatabaseTool.parseNotes (JObj (wrapped o)) = DatabaseTool.parseNotes (JObj o)
  \/ (DatabaseTool.parseNotes (JObj o) = Ok JNull
      /\ exists x, DatabaseTool.parseNotes (JObj (wrapped o)) = Ok x
                   /\ forall k, get x k = JUndefined).
Proof.
  intros Ho. unfold DatabaseTool.parseNotes, DatabaseTool.getNotesString.
  rewrite wrapped_get. cbn [get].
  destruct (obj_get o "filament_notes") as [v|] eqn:E; cbn [default from_option id];
    [|now left].
  pose proof (member_json o _ v Ho E) as Hv.
  destruct v as [ | | b | z | m k | s | l | i]; cbn [wrapElement]; try (now left).
  - right. split; [reflexivity|].
    destruct (scalar_notes_text (JBool b) Hv I) as (t & x & Ht & Hx & Hg).
    exists x. cbn [first_elem hd coalesce nullish]. rewrite Ht. cbn [bind]. auto.
  - right. split; [reflexivity|].
    destruct (scalar_notes_text (JNum z) Hv I) as (t & x & Ht & Hx & Hg).
    exists x. cbn [first_elem hd coalesce nullish]. rewrite Ht. cbn [bind]. auto.
  - right. split; [reflexivity|].
    destruct (scalar_notes_text (JDec m k) Hv I) as (t & x & Ht & Hx & Hg).
    exists x. cbn [first_elem hd coalesce nullish]. rewrite Ht. cbn [bind]. auto.
Qed.

Lemma normalize_wrapElement (v : JSValue) :
  DatabaseTool.normalizeToArray (wrapElement v) = DatabaseTool.normalizeToArray v.
Proof. now destruct v. Qed.

Lemma copyProfileKeys_wrapped (o : obj) :
  forall mat,
    DatabaseTool.copyProfileKeys (wrapped o) mat = DatabaseTool.copyProfileKeys o mat.
Proof.
  induction o as [|[k v] o IH]; intros mat; [reflexivity|].
  cbn [wrapped map DatabaseTool.copyProfileKeys fst snd].
  rewrite normalize_wrapElement.
  destruct (set_prop mat k (DatabaseTool.normalizeToArray v)); cbn [bind]; [apply IH|reflexivity].
Qed.

Lemma buildMaterial_wrapped (tmpl o : obj) (notesObj : JSValue) :
  DatabaseTool.buildMaterialFromProfile tmpl (JObj (wrapped o)) notesObj
  = DatabaseTool.buildMaterialFromProfile tmpl (JObj o) notesObj.
Proof.
  unfold DatabaseTool.buildMaterialFromProfile.
  change (or_else (JObj (wrapped o)) (JObj [])) with (JObj (wrapped o)).
  change (or_else (JObj o) (JObj [])) with (JObj o). cbn [Object_entries].
  destruct (DatabaseTool.deepClone (JObj tmpl)); cbn [bind]; [|reflexivity].
  now rewrite copyProfileKeys_wrapped.
Qed.

(** X20. The Creality formatting pass changes what neither tool does with
    an object preset: addToDatabase makes the same replacement or addition,
    and addToOptions the same entry, for the preset with its scalars
    wrapped as for the preset itself. *)
Theorem X20_formatting_invisible_to_tools :
  forall (tmpl o : obj) (p' : JSValue) (lst : list JSValue) (options : JSValue),
    json_value (JObj o) = true ->
    wrapScalarsAsArrays (JObj o) = Ok p' ->
    DatabaseTool.applyProfile tmpl lst p' = DatabaseTool.applyProfile tmpl lst (JObj o)
    /\ OptionsTool.applyProfile options p' = OptionsTool.applyProfile options (JObj o).
Proof.
  intros tmpl o p' lst options Ho H.
  pose proof Ho as Hj. apply json_value_obj in Hj as [Hnd _].
  apply (wrapScalars_wrapped o p' Hnd) in H. subst p'.
  unfold DatabaseTool.applyProfile, OptionsTool.applyProfile, OptionsTool.parseNotes.
  destruct (parseNotes_wrapped o Ho) as [E|[E [x [Ex Hg]]]].
  - rewrite E. split; [|reflexivity].
    destruct (DatabaseTool.parseNotes (JObj o)) as [n|]; cbn [bind]; [|reflexivity].
    destruct (DatabaseTool.skipsProfile n); [reflexivity|].
    destruct (ToString (get n "id")) as [id|]; cbn [bind]; [|reflexivity].
    destruct (DatabaseTool.findById lst id); cbn [bind]; [|reflexivity].
    now rewrite buildMaterial_wrapped.
  - rewrite E, Ex. cbn [bind].
    unfold DatabaseTool.skipsProfile, OptionsTool.skipsProfile.
    rewrite !Hg. cbn [truthy negb orb get]. now rewrite !orb_true_r.
Qed.

Lemma X20_witness :
  exists p',
    wrapScalarsAsArrays (JObj Samples.crealityPreset) = Ok p'
    /\ DatabaseTool.applyProfile Sample.template [Sample.oldEntry] p'
       = DatabaseTool.applyProfile Sample.template [Sample.oldEntry]
           (JObj Samples.crealityPreset)
    /\ OptionsTool.applyProfile Sample.options p'
       = OptionsTool.applyProfile Sample.options (JObj Samples.crealityPreset).
Proof.
  destruct (wrapScalarsAsArrays (JObj Samples.crealityPreset)) as [p'|e] eqn:E;
    [|vm_compute in E; discriminate E].
  exists p'. split; [reflexivity|].
  exact (X20_formatting_invisible_to_tools Sample.template Samples.crealityPreset p'
           [Sample.oldEntry] Sample.options eq_refl E).
Defined.

(* unless the notes are a number or a boolean, the formatting pass leaves
   the text of the notes as it is *)
Lemma getNotesString_wrapped (o : obj) :
  numberOrBoolean (get (JObj o) "filament_notes") = false ->
  Config.getNotesString (JObj (wrapped o)) = Config.getNotesString (JObj o).
Proof.
  intros Hn. unfold Config.getNotesString. rewrite wrapped_get.
  destruct (get (JObj o) "filament_notes"); try reflexivity; discriminate Hn.
Qed.

(** X18. For a preset file whose filament_notes is not a number or a
    boolean, what the check script reports as hasNotes is what the filter
    of the sync tool takes as notes that are not empty, whether the filter
    sees the preset as it stands or after the Creality formatting pass; a
    file that the script reports without notes is one for which the filter
    synthesizes notes. *)
Theorem X18_check_script_agrees_with_filter :
  forall (o : obj) (p' : JSValue),
    json_value (JObj o) = true ->
    wrapScalarsAsArrays (JObj o) = Ok p' ->
    numberOrBoolean (get (JObj o) "filament_notes") = false ->
    Config.getNotesString p' = Config.getNotesString (JObj o)
    /\ CheckBase.hasNotes (JObj o) =
         (let* s := Config.getNotesString (JObj o) in
          Ok (negb (Config.notesLooksEmpty s)))
    /\ (CheckBase.hasNotes (JObj o) = Ok false ->
        Config.hasRequiredNotes (JObj o) = Ok false
        /\ Config.hasRequiredNotes p' = Ok false).
Proof.
  intros o p' Ho H Hn.
  pose proof Ho as Hj. apply json_value_obj in Hj as [Hnd _].
  apply (wrapScalars_wrapped o p' Hnd) in H. subst p'.
  pose proof (getNotesString_wrapped o Hn) as Hg.
  split; [exact Hg|]. split; [exact (hasNotes_raw (JObj o))|].
  rewrite (hasNotes_raw (JObj o)). unfold Config.hasRequiredNotes. rewrite Hg.
  destruct (Config.getNotesString (JObj o)) as [s0|]; cbn [bind]; [|discriminate].
  intros [= E]. apply negb_false_iff in E. now rewrite E.
Qed.

Lemma X18_witness :
  exists p',
    wrapScalarsAsArrays Samples.presetPlainNotes = Ok p'
    /\ CheckBase.hasNotes Samples.presetPlainNotes = Ok true
    /\ Config.getNotesString p' = Ok "tough, matte"
    /\ (CheckBase.hasNotes Sample.acmePetg = Ok false ->
        Config.hasRequiredNotes Sample.acmePetg = Ok false).
Proof.
  destruct (wrapScalarsAsArrays Samples.presetPlainNotes) as [p'|e] eqn:E;
    [|vm_compute in E; discriminate E].
  exists p'. split; [reflexivity|]. split; [reflexivity|].
  split.
  - destruct (X18_check_script_agrees_with_filter
                [("name", JStr "Plain"); ("filament_notes", JStr "tough, matte")] p'
                eq_refl E eq_refl) as (-> & _). reflexivity.
  - destruct (wrapScalarsAsArrays Sample.acmePetg) as [q|e] eqn:Eq;
      [|vm_compute in Eq; discriminate Eq].
    intros Hf.
    exact (proj1 (proj2 (proj2 (X18_check_script_agrees_with_filter
             [("name", JStr "Tough"); ("filament_vendor", JArr [JStr "Acme"]);
              ("inherits", JStr "fdm_filament_petg")] q eq_refl Eq eq_refl)) Hf)).
Defined.

(** X22. A preset whose filament_notes is a plain number or a boolean is
    lost under the Creality formatting: the pass wraps the value, the filter
    then takes its text as notes and keeps the preset without synthesizing
    notes, and both tools skip it.  Without the pass the filter treats the
    preset as one without notes. *)
Theorem X22_scalar_notes_lost_under_formatting :
  forall (tmpl o : obj) (v p' : JSValue) (lst : list JSValue) (options : JSValue),
    json_value (JObj o) = true ->
    obj_get o "filament_notes" = Some v ->
    numberOrBoolean v = true -> plain v = true ->
    wrapScalarsAsArrays (JObj o) = Ok p' ->
    Config.hasRequiredNotes (JObj o) = Ok false
    /\ Config.hasRequiredNotes p' = Ok true
    /\ DatabaseTool.applyProfile tmpl lst p' = Ok lst
    /\ OptionsTool.applyProfile options p' = Ok options.
Proof.
  intros tmpl o v p' lst options Ho Hv Hs _ H.
  pose proof Ho as Hj. apply json_value_obj in Hj as [Hnd _].
  apply (wrapScalars_wrapped o p' Hnd) in H. subst p'.
  pose proof (member_json o _ v Ho Hv) as Hjv.
  assert (Hk : match v with JBool _ | JNum _ | JDec _ _ => True | _ => False end)
    by (destruct v; try discriminate Hs; exact I).
  destruct (scalar_text v Hjv Hk) as (t & Ht & Htrim & He & Hp).
  assert (Hw : get (JObj (wrapped o)) "filament_notes" = JArr [v]).
  { rewrite wrapped_get. cbn [get]. rewrite Hv. cbn [default from_option id].
    destruct v; try contradiction; reflexivity. }
  assert (Hc : coalesce (first_elem [v]) (JStr "") = v)
    by (destruct v; try contradiction; reflexivity).
  split.
  { unfold Config.hasRequiredNotes, Config.getNotesString. cbn [get]. rewrite Hv.
    cbn [default from_option id]. destruct v; try contradiction; reflexivity. }
  split.
  { unfold Config.hasRequiredNotes, Config.getNotesString, Config.notesLooksEmpty.
    rewrite Hw, Hc, Ht. cbn [bind]. now rewrite Htrim, He, Hp. }
  assert (Hpn : DatabaseTool.parseNotes (JObj (wrapped o)) = Ok v).
  { unfold DatabaseTool.parseNotes, DatabaseTool.getNotesString.
    rewrite Hw, Hc, Ht. cbn [bind]. now rewrite Htrim, He, Hp. }
  assert (Hg : forall k, get v k = JUndefined) by (intros k; now destruct v).
  split.
  - unfold DatabaseTool.applyProfile. rewrite Hpn. cbn [bind].
    unfold DatabaseTool.skipsProfile. rewrite Hg. cbn [truthy negb].
    now rewrite orb_true_r.
  - unfold OptionsTool.applyProfile, OptionsTool.parseNotes. rewrite Hpn. cbn [bind].
    unfold OptionsTool.skipsProfile. rewrite !Hg. cbn [truthy negb].
    now rewrite !orb_true_r.
Qed.

Lemma X22_witness :
  exists p',
    wrapScalarsAsArrays (JObj Samples.presetNumberNotes) = Ok p'
    /\ CheckBase.hasNotes (JObj Samples.presetNumberNotes) = Ok false
    /\ Config.hasRequiredNotes p' = Ok true
    /\ DatabaseTool.applyProfile Sample.template [Sample.oldEntry] p'
       = Ok [Sample.oldEntry].
Proof.
  destruct (wrapScalarsAsArrays (JObj Samples.presetNumberNotes))
    as [p'|e] eqn:E; [|vm_compute in E; discriminate E].
  exists p'. split; [reflexivity|]. split; [reflexivity|].
  destruct (X22_scalar_notes_lost_under_formatting Sample.template
              Samples.presetNumberNotes (JNum 7) p'
              [Sample.oldEntry] Sample.options eq_refl eq_refl eq_refl eq_refl E)
    as (_ & H1 & H2 & _).
  split; [exact H1|exact H2].
Defined.

End Formatting.

(** *** A whole run *)

Section WholeRun.
Import Json Notions Config ConfigLoad.

Lemma Forall2_In_l {A B : Type} (R : A -> B -> Prop) (l1 : list A) (l2 : list B) (x : A) :
  List.Forall2 R l1 l2 -> In x l1 -> exists y, In y l2 /\ R x y.
Proof.
  induction 1 as [|a b l1 l2 Hab _ IH]; intros Hin; [destruct Hin|].
  destruct Hin as [<-|Hin].
  - exists b. split; [now left|exact Hab].
  - destruct (IH Hin) as [y [Hy Hr]]. exists y. split; [now right|exact Hr].
Qed.

Lemma wrapElement_json (v : JSValue) : json_value v = true -> json_value (wrapElement v) = true.
Proof.
  intros H. destruct v; cbn [wrapElement]; try exact H;
    cbn [json_value forallb] in *; rewrite ?H; reflexivity.
Qed.

Lemma wrapped_json (o : obj) : json_value (JObj o) = true -> json_value (JObj (wrapped o)) = true.
Proof.
  intros H. apply json_value_obj in H as [Hnd Hall]. apply json_value_obj. split.
  - now rewrite wrapped_keys.
  - unfold wrapped. apply List.Forall_forall. intros [k v] Hin.
    apply in_map_iff in Hin as [[k0 v0] [[= <- <-] Hin]]. cbn [snd].
    apply wrapElement_json. rewrite List.Forall_forall in Hall. exact (Hall _ Hin).
Qed.

Lemma safeFirst_wrapElement (v : JSValue) : safeFirst (wrapElement v) = safeFirst v.
Proof. now destruct v. Qed.

(* the formatted profiles: each object preset, with the same fields as far as
   safeFirst reads them *)
Lemma formatProfiles_objects (slicer : string) (profiles loaded : list JSValue) (o : obj) :
  List.Forall objectPreset profiles ->
  formatProfiles slicer profiles = Ok loaded ->
  In (JObj o) profiles ->
  List.Forall objectPreset loaded
  /\ exists o',
       In (JObj o') loaded
       /\ json_value (JObj o') = true
       /\ (forall k, safeFirst (get (JObj o') k) = safeFirst (get (JObj o) k))
       /\ (obj_get o "filament_notes" = None -> obj_get o' "filament_notes" = None).
Proof.
  intros Hall. unfold formatProfiles. destruct (String.eqb slicer "creality").
  - revert loaded. induction Hall as [|p ps [[op ->] Hp] Hps IH]; intros loaded H Hin;
      [destruct Hin|].
    cbn [checkCrealityFormatting] in H.
    apply bind_Ok in H as [p' [Hp' H]]. apply bind_Ok in H as [rest [Hrest H]].
    injection H as <-.
    pose proof Hp as Hj. apply json_value_obj in Hj as [Hnd _].
    apply (wrapScalars_wrapped op p' Hnd) in Hp'. subst p'.
    assert (Hw : objectPreset (JObj (wrapped op))).
    { split; [eauto|now apply wrapped_json]. }
    destruct Hin as [[= <-]|Hin].
    + split.
      * constructor; [exact Hw|].
        clear IH. revert rest Hrest. induction Hps as [|q qs [[oq ->] Hq] Hqs IHq];
          intros rest Hrest; cbn [checkCrealityFormatting] in Hrest.
        -- injection Hrest as <-. constructor.
        -- apply bind_Ok in Hrest as [q' [Hq' Hrest]].
           apply bind_Ok in Hrest as [rest' [Hrest' Hrest]]. injection Hrest as <-.
           pose proof Hq as Hjq. apply json_value_obj in Hjq as [Hndq _].
           apply (wrapScalars_wrapped oq q' Hndq) in Hq'. subst q'.
           constructor; [split; [eauto|now apply wrapped_json]|now apply IHq].
      * exists (wrapped op). split; [now left|]. split; [now apply wrapped_json|]. split.
        -- intros k. rewrite wrapped_get. apply safeFirst_wrapElement.
        -- intros Hn. pose proof (wrapped_get op "filament_notes") as G.
           cbn [get] in G. rewrite Hn in G. cbn [default from_option id wrapElement] in G.
           destruct (obj_get (wrapped op) "filament_notes") as [x|] eqn:Ex; [|reflexivity].
           exfalso. apply obj_get_In in Ex. rewrite wrapped_keys in Ex.
           apply obj_get_None in Hn. contradiction.
    + destruct (IH rest Hrest Hin) as [Hl [o' [Ho' Hrest']]].
      split; [now constructor|]. exists o'. split; [now right|exact Hrest'].
  - intros [= <-] Hin. split; [exact Hall|]. exists o.
    rewrite List.Forall_forall in Hall. destruct (Hall _ Hin) as [_ Hj].
    repeat split; auto.
Qed.

Lemma db_writesOf_In (tmpl : obj) (ps : list JSValue) :
  forall ws p w,
    Reconcile.writesOf tmpl ps = Ok ws -> In p ps ->
    Reconcile.writeOf tmpl p = Ok (Some w) -> In w ws.
Proof.
  induction ps as [|q ps IH]; intros ws p w H Hin Hw; [destruct Hin|].
  cbn [Reconcile.writesOf] in H.
  apply bind_Ok in H as [w0 [Hw0 H]]. apply bind_Ok in H as [ws0 [Hws0 H]].
  injection H as <-. destruct Hin as [<-|Hin].
  - rewrite Hw in Hw0. injection Hw0 as <-. now left.
  - specialize (IH _ _ _ Hws0 Hin Hw). destruct w0; [now right|exact IH].
Qed.

Lemma db_writesOf_total (tmpl : obj) (ps : list JSValue) :
  forall ws p,
    Reconcile.writesOf tmpl ps = Ok ws -> In p ps ->
    exists w, Reconcile.writeOf tmpl p = Ok w.
Proof.
  induction ps as [|q ps IH]; intros ws p H Hin; [destruct Hin|].
  cbn [Reconcile.writesOf] in H.
  apply bind_Ok in H as [w0 [Hw0 H]]. apply bind_Ok in H as [ws0 [Hws0 H]].
  destruct Hin as [<-|Hin]; [eauto|exact (IH _ _ Hws0 Hin)].
Qed.

Lemma lastMaterial_In (ws : list Reconcile.write) (w : Reconcile.write) :
  In w ws -> exists m, lastMaterial ws (fst w) = Some m.
Proof.
  induction ws as [|w0 ws IH]; intros Hin; [destruct Hin|]. cbn [lastMaterial].
  destruct (lastMaterial ws (fst w)) as [m|] eqn:E; [eauto|].
  destruct Hin as [->|Hin].
  - rewrite String.eqb_refl. eauto.
  - destruct (IH Hin) as [m Hm]. congruence.
Qed.

Lemma lastMaterial_Some_In (ws : list Reconcile.write) (id : string) (m : JSValue) :
  lastMaterial ws id = Some m -> In (id, m) ws.
Proof.
  induction ws as [|[i0 m0] ws IH]; cbn [lastMaterial fst snd]; [discriminate|].
  destruct (lastMaterial ws id) as [m1|].
  - intros [= <-]. right. now apply IH.
  - destruct (String.eqb_spec i0 id) as [->|_]; [|discriminate].
    intros [= <-]. now left.
Qed.

Lemma opt_writesOf_In (ps : list JSValue) :
  forall ws p w,
    OptionWrites.writesOf ps = Ok ws -> In p ps ->
    OptionWrites.writeOf p = Ok (Some w) -> In w ws.
Proof.
  induction ps as [|q ps IH]; intros ws p w H Hin Hw; [destruct Hin|].
  cbn [OptionWrites.writesOf] in H.
  apply bind_Ok in H as [w0 [Hw0 H]]. apply bind_Ok in H as [ws0 [Hws0 H]].
  injection H as <-. destruct Hin as [<-|Hin].
  - rewrite Hw in Hw0. injection Hw0 as <-. now left.
  - specialize (IH _ _ _ Hws0 Hin Hw). destruct w0; [now right|exact IH].
Qed.

Lemma lastWrite_In (ws : list OptionWrites.write) (w : OptionWrites.write) :
  In w ws ->
  exists n, OptionWrites.lastWrite ws (OptionWrites.vendorKey w) (OptionWrites.typeKey w)
            = Some n.
Proof.
  induction ws as [|w0 ws IH]; intros Hin; [destruct Hin|]. cbn [OptionWrites.lastWrite].
  destruct (OptionWrites.lastWrite ws _ _) as [m|] eqn:E; [eauto|].
  destruct Hin as [->|Hin].
  - rewrite !String.eqb_refl. eauto.
  - destruct (IH Hin) as [m Hm]. congruence.
Qed.

(** X23. A whole run syncs every preset that has no notes: when the
    profiles read from the preset folder are JSON objects with plain numbers
    and readable notes, the template and the database baseline have plain
    numbers, and the run writes its two documents from an options baseline
    that is an object, then for each profile without filament_notes the
    database document has an entry under the five-digit id derived from the
    preset's vendor, type and name (by default Custom, CUSTOM and Custom
    Filament), and the options document has a name under that vendor and
    type. *)
Theorem X23_run_syncs_presets_without_notes :
  forall (tmpl : obj) (slicer : string) (profiles : list JSValue) (ob : obj)
         (dbBase : JSValue) (now : string) (options db : JSValue) (o : obj),
    Main.sync tmpl slicer profiles (JObj ob) dbBase now = Ok (options, db) ->
    List.Forall modelled profiles ->
    plain (JObj tmpl) = true -> plain dbBase = true ->
    In (JObj o) profiles ->
    obj_get o "filament_notes" = None ->
    exists vendor type name vs ts ns id,
      vendor = or_else (safeFirst (get (JObj o) "filament_vendor")) (JStr "Custom")
      /\ name = or_else (safeFirst (get (JObj o) "name")) (JStr "Custom Filament")
      /\ synthesizedType (JObj o) = Ok type
      /\ ToString vendor = Ok vs /\ ToString type = Ok ts /\ ToString name = Ok ns
      /\ id = stableFiveDigitId (idKey vs ts ns)
      /\ (exists lst' j mat,
            DatabaseTool.getList db = Ok lst'
            /\ DatabaseTool.findById lst' id = Ok (Some j)
            /\ lst' !! j = Some mat
            /\ DatabaseTool.entryId mat = Ok id)
      /\ (exists n, OptionWrites.own2 options vs ts = Some n).
Proof.
  intros tmpl slicer profiles ob dbBase now options db o H Hmod _ _ Hin Hnone.
  assert (Hall : List.Forall objectPreset profiles).
  { eapply List.Forall_impl; [|exact Hmod]. now intros p [Hp _]. }
  unfold Main.sync in H.
  apply bind_Ok in H as [loaded [Hfmt H]]. apply bind_Ok in H as [kept [Hflt H]].
  apply bind_Ok in H as [options' [Hopt H]]. apply bind_Ok in H as [db' [Hdb H]].
  injection H as <- <-.
  destruct (formatProfiles_objects _ _ _ o Hall Hfmt Hin)
    as [Hloaded [o' [Hin' [Ho' [Hfields Hnone']]]]].
  specialize (Hnone' Hnone).
  (* the filter synthesizes the notes *)
  assert (Hreq : hasRequiredNotes (JObj o') = Ok false).
  { unfold hasRequiredNotes, getNotesString. cbn [get]. now rewrite Hnone'. }
  destruct loaded as [|l0 loaded0] eqn:El; [destruct Hin'|]. rewrite <- El in *.
  assert (Hloop : filter_loop loaded [] = Ok kept) by (rewrite El in *; exact Hflt).
  destruct (filter_loop_objects _ _ _ Hloaded Hloop) as [kept' [Hk HF]].
  cbn [app] in Hk. subst kept'.
  destruct (Forall2_In_l _ _ _ _ HF Hin') as [p' [Hp'in [[Hr _]|[_ Hauto]]]];
    [congruence|].
  destruct (autoGenerateNotes_spec o' p' Ho' Hauto)
    as (vendor & type & name & vs & ts & ns & Ev & En & Et & Hvs & Hts & Hns
        & Tv & Tt & Tn & J & Hp').
  assert (Et' : synthesizedType (JObj o) = Ok type).
  { revert Et. unfold synthesizedType. now rewrite !Hfields. }
  rewrite Hfields in Ev, En.
  exists vendor, type, name, vs, ts, ns, (stableFiveDigitId (idKey vs ts ns)).
  repeat (split; [assumption || reflexivity|]).
  assert (Hnotes : DatabaseTool.parseNotes p'
                   = Ok (JObj (notesRecord (JStr (stableFiveDigitId (idKey vs ts ns)))
                                 vendor type name))).
  { subst p'. apply parseNotes_stringified; [exact J|apply get_set_eq]. }
  split.
  - (* the database *)
    apply addToDatabase_Ok in Hdb as (od & r & lst & lst' & -> & Hr & Hl & _ & Hp & ->).
    apply applyProfiles_run in Hp as [ws [Hws Hrun]].
    destruct (db_writesOf_total _ _ _ _ Hws Hp'in) as [w Hw].
    assert (Hw' : exists mat, w = Some (stableFiveDigitId (idKey vs ts ns), mat)).
    { revert Hw. unfold Reconcile.writeOf. rewrite Hnotes. cbn [bind].
      unfold DatabaseTool.skipsProfile.
      destruct (notesRecord_fields (JStr (stableFiveDigitId (idKey vs ts ns))) vendor type name)
        as (Fi & _). rewrite Fi. cbn [truthy negb orb ToString bind].
      destruct (String.eqb_spec (stableFiveDigitId (idKey vs ts ns)) "") as [E|_];
        [now apply stableFiveDigitId_nonempty in E|]. cbn [negb].
      intros Hw. apply bind_Ok in Hw as [mat [_ Hw]]. injection Hw as <-. eauto. }
    destruct Hw' as [mat ->].
    pose proof (db_writesOf_In _ _ _ _ _ Hws Hp'in Hw) as Hinw.
    destruct (lastMaterial_In _ _ Hinw) as [m Hm]. cbn [fst] in Hm.
    pose proof (writesOf_spec _ _ _ Hws) as [Hwf _].
    destruct (run_last ws lst lst' Hwf Hrun _ _ Hm) as [j [Hj Hlj]].
    exists lst', j, m. split; [apply getList_written|]. split; [exact Hj|].
    split; [exact Hlj|].
    apply lastMaterial_Some_In in Hm. rewrite List.Forall_forall in Hwf.
    exact (Hwf _ Hm).
  - (* the options *)
    unfold OptionsTool.addToOptions in Hopt.
    apply options_applyProfiles_run in Hopt as (ws & o2 & Hws & Hrun & ->).
    apply run_fold in Hrun as [-> _].
    assert (Hw : OptionWrites.writeOf p' = Ok (Some (vs, ts, name))).
    { unfold OptionWrites.writeOf, OptionsTool.parseNotes. rewrite Hnotes. cbn [bind].
      destruct (notesRecord_fields (JStr (stableFiveDigitId (idKey vs ts ns))) vendor type name)
        as (_ & Fv & Ft & Fn).
      unfold OptionsTool.skipsProfile. rewrite Fv, Ft, Fn, Tv, Tt, Tn. cbn [truthy negb orb].
      now rewrite Hvs, Hts. }
    pose proof (opt_writesOf_In _ _ _ _ Hws Hp'in Hw) as Hinw.
    destruct (lastWrite_In _ _ Hinw) as [n Hn].
    exists n. rewrite own2_fold. cbn [OptionWrites.vendorKey OptionWrites.typeKey fst snd] in Hn.
    now rewrite Hn.
Qed.

Lemma X23_witness :
  exists options db,
    Main.sync Sample.template "creality" [Sample.acmePetg; Sample.presetNew]
      (JObj [("Acme", JObj [("PLA", JStr "Old")])]) Sample.baseline "1700000123"
    = Ok (options, db)
    /\ exists lst' j mat n,
         DatabaseTool.getList db = Ok lst'
         /\ DatabaseTool.findById lst' (stableFiveDigitId (idKey "Acme" "PETG" "Tough"))
            = Ok (Some j)
         /\ lst' !! j = Some mat
         /\ OptionWrites.own2 options "Acme" "PETG" = Some n.
Proof.
  destruct (Main.sync Sample.template "creality" [Sample.acmePetg; Sample.presetNew]
              (JObj [("Acme", JObj [("PLA", JStr "Old")])]) Sample.baseline "1700000123")
    as [[options db]|e] eqn:E; [|vm_compute in E; discriminate E].
  exists options, db. split; [reflexivity|].
  destruct (X23_run_syncs_presets_without_notes _ _ _ _ _ _ _ _
              [("name", JStr "Tough"); ("filament_vendor", JArr [JStr "Acme"]);
               ("inherits", JStr "fdm_filament_petg")] E)
    as (vendor & type & name & vs & ts & ns & id & -> & -> & Ht & Hvs & Hts & Hns & ->
        & (lst' & j & mat & Hl & Hj & Hm & _) & (n & Hn)).
  - repeat constructor; eauto; vm_compute; reflexivity.
  - reflexivity.
  - reflexivity.
  - now left.
  - reflexivity.
  - vm_compute in Ht. injection Ht as <-.
    vm_compute in Hvs. injection Hvs as <-.
    vm_compute in Hts. injection Hts as <-.
    vm_compute in Hns. injection Hns as <-.
    exists lst', j, mat, n. repeat split; assumption.
Defined.

End WholeRun.
